(** * The AIRISS real-time connection services, embedded in Rocq

    The repository holds several near-duplicate WebSocket services:
    - [RobustWebSocketService]   (src/services/websocket_robust.ts),
    - [WebSocketService]         (src/services/websocket_fixed.ts),
    - [EnhancedWebSocketService] (src/types/index.ts), built on the
      repository's own [SimpleEventEmitter].

    Each class is embedded as state-passing functions over a pair of the
    object's private fields and the host environment (sockets, timers, clock,
    console, dispatched events).  The emitter of the [events] package, from
    which the first two classes inherit [emit], belongs to the host: the
    classes are embedded for emits that return, and [RobustListeners] embeds
    the methods of the robust service that dispatch ['error'] together with
    the listeners, where an emit can throw.  The hook [useWebSocket]
    (src/hooks/useWebSocket_enhanced.ts) is embedded as transformers of its
    React state.  JavaScript numbers that take part in the
    backoff computation are rationals: every delay the services compute while
    the attempt counter is within its bound is a dyadic rational below 2^53,
    hence exactly the IEEE double the browser computes. *)

From Stdlib Require Import QArith Qminmax.
From stdpp Require Import gmap strings list pretty.

Set Default Proof Using "Type".
Set Warnings "-register-all".
Local Set Warnings "-notation-overridden,-ambiguous-paths".

Local Open Scope string_scope.
Local Open Scope list_scope.

(** ** JavaScript values *)

(** A thrown exception object ([SyntaxError], [TypeError], [Error], ...);
    [`${e}`] renders it as [name: message]. *)
Record Exn := { exn_name : string; exn_message : string }.

Definition exn_to_string (e : Exn) : string :=
  exn_name e +:+ ": " +:+ exn_message e.

(** [new Error(msg)] *)
Definition new_Error (msg : string) : Exn :=
  {| exn_name := "Error"; exn_message := msg |}.

(** The values that flow through the services.  The field list of [JObj] is
    in property-enumeration order and holds each key once. *)
Inductive JSValue :=
| JUndefined
| JNull
| JBool (b : bool)
| JNum (n : Z)
| JStr (s : string)
| JArr (items : list JSValue)
| JObj (fields : list (string * JSValue))
| JError (e : Exn).

Definition JSObject := list (string * JSValue).

(** [o[k]] on a property list *)
Fixpoint obj_get (k : string) (o : JSObject) : option JSValue :=
  match o with
  | [] => None
  | (k', v) :: o' => if String.eqb k k' then Some v else obj_get k o'
  end.

(** [o[k] = v]: overwrite in place when the key exists, else append *)
Fixpoint obj_set (k : string) (v : JSValue) (o : JSObject) : JSObject :=
  match o with
  | [] => [(k, v)]
  | (k', v') :: o' =>
      if String.eqb k k' then (k', v) :: o' else (k', v') :: obj_set k v o'
  end.

(** Strings hold the UTF-8 encoding of their text, a JavaScript string is a
    sequence of UTF-16 code units.  [utf8_length b] is the number of bytes of
    the character that the byte [b] starts: one for an ASCII byte, for a
    continuation byte and for a byte that starts nothing. *)
Definition utf8_length (b : N) : nat :=
  if (b <? 192)%N then 1
  else if (b <? 224)%N then 2
  else if (b <? 240)%N then 3
  else if (b <? 248)%N then 4
  else 1.

Definition is_continuation (b : N) : bool := (128 <=? b)%N && (b <? 192)%N.

(** The three-byte form of a code unit between [0x0800] and [0xFFFF]. *)
Definition three_bytes (u : N) : string :=
  String (Ascii.ascii_of_N (N.lor 224 (N.shiftr u 12)))
    (String (Ascii.ascii_of_N (N.lor 128 (N.land (N.shiftr u 6) 63)))
       (String (Ascii.ascii_of_N (N.lor 128 (N.land u 63))) EmptyString)).

(** The code units of one character, given its bytes: a character of four
    bytes lies outside the Basic Multilingual Plane and is a surrogate pair,
    any other is one unit. *)
Definition code_units (bytes : list N) : list string :=
  match bytes with
  | [b0; b1; b2; b3] =>
      let cp := N.lor (N.shiftl (N.land b0 7) 18)
                  (N.lor (N.shiftl (N.land b1 63) 12)
                     (N.lor (N.shiftl (N.land b2 63) 6) (N.land b3 63))) in
      let c := (cp - 65536)%N in
      [three_bytes (55296 + N.shiftr c 10); three_bytes (56320 + N.land c 1023)]
  | [] => []
  | _ => [foldr (fun b s => String (Ascii.ascii_of_N b) s) EmptyString bytes]
  end.

(** Reading the bytes from left to right: [cur] holds the bytes of the
    character under way, [need] how many of its bytes are still to come. *)
Fixpoint chars_from (cur : list N) (need : nat) (s : string) : list string :=
  match s with
  | EmptyString => code_units cur
  | String a s' =>
      let b := Ascii.N_of_ascii a in
      match need with
      | S n =>
          if is_continuation b then
            match n with
            | O => code_units (cur ++ [b]) ++ chars_from [] 0 s'
            | S _ => chars_from (cur ++ [b]) n s'
            end
          else
            code_units cur ++
            match utf8_length b with
            | S (S m) => chars_from [b] (S m) s'
            | _ => code_units [b] ++ chars_from [] 0 s'
            end
      | O =>
          match utf8_length b with
          | S (S m) => chars_from [b] (S m) s'
          | _ => code_units [b] ++ chars_from [] 0 s'
          end
      end
  end.

(** The UTF-16 code units of a string, each as a string of its own: what
    indexing and spreading a JavaScript string yield. *)
Definition chars (s : string) : list string := chars_from [] 0 s.

(** Own enumerable properties copied by the spread [{...v}]: the fields of an
    object, the indexed elements of an array or string, nothing for the other
    primitives and for [Error] objects. *)
Definition spread (v : JSValue) : JSObject :=
  match v with
  | JObj fields => fields
  | JArr items => imap (fun i x => (pretty i, x)) items
  | JStr s => imap (fun i c => (pretty i, JStr c)) (chars s)
  | _ => []
  end.

(** Property read [v.k].  Reading a property of [null] or [undefined] throws a
    [TypeError]; on other non-objects the names used by the services
    ([type], [data], [error], [message]) are undefined, except [message] on an
    [Error]. *)
Definition get_prop (v : JSValue) (k : string) : Exn + JSValue :=
  match v with
  | JUndefined | JNull =>
      inl {| exn_name := "TypeError";
             exn_message := "Cannot read properties of null or undefined" |}
  | JObj fields => inr (default JUndefined (obj_get k fields))
  | JError e => inr (if String.eqb k "message" then JStr (exn_message e) else JUndefined)
  | _ => inr JUndefined
  end.

(** JavaScript truthiness, as used by [a || b]. *)
Definition truthy (v : JSValue) : bool :=
  match v with
  | JUndefined | JNull => false
  | JBool b => b
  | JNum n => negb (n =? 0)%Z
  | JStr s => negb (String.eqb s EmptyString)
  | _ => true
  end.

(** [a || b] *)
Definition js_or (a b : JSValue) : JSValue := if truthy a then a else b.

(** ** The host environment *)

(** Built-ins of the host that the services call.  They are parameters of the
    development. *)
Class Host := {
  (** [JSON.parse(text)]: the parsed value, or the [SyntaxError] thrown *)
  JSON_parse : string -> Exn + JSValue;
  (** [JSON.stringify(v)]: the text, or the exception thrown *)
  JSON_stringify : JSValue -> Exn + string;
  (** [new WebSocket(url)]: [Some e] when the constructor throws [e] *)
  WebSocket_rejects : string -> option Exn;
  (** [events]: the [Error] that [emit('error', er)] builds and throws when
      no listener is registered for ['error'] and [er] is not an [Error]
      itself; its text depends on the version of the package *)
  Unhandled_error : option JSValue -> Exn
}.

Inductive ReadyState := CONNECTING | OPEN | CLOSING | CLOSED.

#[global] Instance ReadyState_eq_dec : EqDecision ReadyState.
Proof. solve_decision. Defined.

(** [WebSocket.CONNECTING = 0], ..., [WebSocket.CLOSED = 3] *)
Definition readyState_code (r : ReadyState) : Z :=
  match r with CONNECTING => 0 | OPEN => 1 | CLOSING => 2 | CLOSED => 3 end.

Inductive LogLevel := LogInfo | LogWarn | LogError.

(** One console line: its level and its leading text. *)
Definition LogEntry := (LogLevel * string)%type.

Section Environment.

(** [H]: what the closures installed as a socket's [onopen], [onmessage],
    [onerror] and [onclose] capture.  [C]: the closures handed to
    [setTimeout] and [setInterval]. *)
Context {H C : Type}.

(** A [WebSocket] object of the browser. *)
Record Socket := {
  sock_url : string;
  sock_protocol : string;
  readyState : ReadyState;
  handlers : option H;
  sent : list string;
  closeCalls : list (Z * string)
}.

(** A pending timer. *)
Record Timer := {
  timer_id : nat;
  delay : Q;
  callback : C
}.

Record World := {
  sockets : list Socket;
  timers : list Timer;
  next_timer : nat;
  now : string;
  heap : list JSValue;
  console : list LogEntry;
  emitted : list (string * list JSValue)
}.

Definition set_sockets (f : list Socket -> list Socket) (w : World) : World :=
  {| sockets := f (sockets w); timers := timers w; next_timer := next_timer w;
     now := now w; heap := heap w; console := console w; emitted := emitted w |}.

Definition set_timers (f : list Timer -> list Timer) (w : World) : World :=
  {| sockets := sockets w; timers := f (timers w); next_timer := next_timer w;
     now := now w; heap := heap w; console := console w; emitted := emitted w |}.

Definition set_next_timer (n : nat) (w : World) : World :=
  {| sockets := sockets w; timers := timers w; next_timer := n;
     now := now w; heap := heap w; console := console w; emitted := emitted w |}.

Definition set_now (t : string) (w : World) : World :=
  {| sockets := sockets w; timers := timers w; next_timer := next_timer w;
     now := t; heap := heap w; console := console w; emitted := emitted w |}.

Definition set_heap (h : list JSValue) (w : World) : World :=
  {| sockets := sockets w; timers := timers w; next_timer := next_timer w;
     now := now w; heap := h; console := console w; emitted := emitted w |}.

Definition set_console (c : list LogEntry) (w : World) : World :=
  {| sockets := sockets w; timers := timers w; next_timer := next_timer w;
     now := now w; heap := heap w; console := c; emitted := emitted w |}.

Definition set_emitted (e : list (string * list JSValue)) (w : World) : World :=
  {| sockets := sockets w; timers := timers w; next_timer := next_timer w;
     now := now w; heap := heap w; console := console w; emitted := e |}.

(** [console.log], [console.warn], [console.error] *)
Definition console_write (lvl : LogLevel) (text : string) (w : World) : World :=
  set_console (console w ++ [(lvl, text)]) w.

(** A call of [emit] that returns: it is recorded, in dispatch order.
    Listeners live outside the services and do not call back into them.
    What [emit] throws instead of returning (a listener's exception, which the
    emitter of the [events] package lets through, and its own exception for an
    ['error'] event without listener) is the subject of [EventEmitter] and
    [RobustListeners] below. *)
Definition dispatch (event : string) (args : list JSValue) (w : World) : World :=
  set_emitted (emitted w ++ [(event, args)]) w.

(** [new WebSocket(url)] when the constructor accepts [url]: a fresh socket in
    state [CONNECTING]; its handle is its index. *)
Definition new_socket (url : string) : Socket :=
  {| sock_url := url; sock_protocol := EmptyString; readyState := CONNECTING;
     handlers := None; sent := []; closeCalls := [] |}.

Definition new_WebSocket (url : string) (w : World) : nat * World :=
  (length (sockets w), set_sockets (fun l => l ++ [new_socket url]) w).

Definition set_readyState (r : ReadyState) (k : Socket) : Socket :=
  {| sock_url := sock_url k; sock_protocol := sock_protocol k; readyState := r;
     handlers := handlers k; sent := sent k; closeCalls := closeCalls k |}.

Definition set_handlers (h : H) (k : Socket) : Socket :=
  {| sock_url := sock_url k; sock_protocol := sock_protocol k;
     readyState := readyState k; handlers := Some h; sent := sent k;
     closeCalls := closeCalls k |}.

Definition update_socket (i : nat) (f : Socket -> Socket) (w : World) : World :=
  set_sockets (fun l => match l !! i with
                        | Some k => <[i := f k]> l
                        | None => l
                        end) w.

(** [ws.send(frame)] on an [OPEN] socket hands the frame to the transport;
    the services call it in no other state. *)
Definition socket_send (i : nat) (frame : string) (w : World) : World :=
  update_socket i (fun k =>
    {| sock_url := sock_url k; sock_protocol := sock_protocol k;
       readyState := readyState k; handlers := handlers k;
       sent := sent k ++ [frame]; closeCalls := closeCalls k |}) w.

(** [ws.close(code, reason)]: starts the closing handshake of a socket that is
    not yet closing or closed. *)
Definition socket_close (i : nat) (code : Z) (reason : string) (w : World) : World :=
  update_socket i (fun k =>
    {| sock_url := sock_url k; sock_protocol := sock_protocol k;
       readyState := match readyState k with
                     | CONNECTING | OPEN => CLOSING
                     | r => r
                     end;
       handlers := handlers k; sent := sent k;
       closeCalls := closeCalls k ++ [(code, reason)] |}) w.

(** [setTimeout(cb, ms)] and [setInterval(cb, ms)] return a fresh handle. *)
Definition set_timer (cb : C) (ms : Q) (w : World) : nat * World :=
  let id := next_timer w in
  (id, set_next_timer (S id)
         (set_timers (fun l => l ++ [{| timer_id := id; delay := ms; callback := cb |}]) w)).

(** [clearTimeout(id)] and [clearInterval(id)] *)
Definition clear_timer (id : nat) (w : World) : World :=
  set_timers (filter (fun t => timer_id t <> id)) w.

Definition find_timer (id : nat) (w : World) : option Timer :=
  list_find (fun t => timer_id t = id) (timers w) ≫= fun p => Some p.2.

(** Allocation of an object literal. *)
Definition alloc (v : JSValue) (w : World) : nat * World :=
  (length (heap w), set_heap (heap w ++ [v]) w).

(** The value a reference points to. *)
Definition deref (l : nat) (w : World) : JSValue :=
  default JUndefined (heap w !! l).

End Environment.

Arguments Socket : clear implicits.
Arguments Timer : clear implicits.
Arguments World : clear implicits.

(** ** RobustWebSocketService (src/services/websocket_robust.ts) *)

Module Robust.

(** The closures the class hands to [setTimeout] / [setInterval]: the
    reconnect timer of [scheduleReconnect], the ping interval of
    [startPingInterval], the one-second timer of [forceReconnect], the
    ten-second timer of [testConnection]. *)
Inductive TimerCb := ReconnectCb | PingCb | ForceReconnectCb | TestConnectionCb.

#[global] Instance TimerCb_eq_dec : EqDecision TimerCb.
Proof. solve_decision. Defined.

(** The private fields of the class. *)
Record State := {
  ws : option nat;
  reconnectInterval : Q;
  maxReconnectInterval : Q;
  reconnectDecay : Q;
  reconnectAttempts : Z;
  maxReconnectAttempts : Z;
  reconnectTimer : option nat;
  pingTimer : option nat;
  url : string;
  clientId : string;
  isConnecting : bool;
  shouldReconnect : bool;
  channels : list string
}.

(** The service object together with its environment.  The socket handlers
    capture [this] only, hence [unit]. *)
Definition Sys := (State * World unit TimerCb)%type.

(** Field initialisers and the constructor's result, for the base URL and
    client id the constructor computes from the page and the clock. *)
Definition new_service (base_url client_id : string) : State :=
  {| ws := None; reconnectInterval := 3000; maxReconnectInterval := 30000;
     reconnectDecay := 3 # 2; reconnectAttempts := 0; maxReconnectAttempts := 10;
     reconnectTimer := None; pingTimer := None; url := base_url;
     clientId := client_id; isConnecting := false; shouldReconnect := true;
     channels := [] |}.

Definition set_ws (v : option nat) (s : State) : State :=
  {| ws := v; reconnectInterval := reconnectInterval s;
     maxReconnectInterval := maxReconnectInterval s;
     reconnectDecay := reconnectDecay s; reconnectAttempts := reconnectAttempts s;
     maxReconnectAttempts := maxReconnectAttempts s;
     reconnectTimer := reconnectTimer s; pingTimer := pingTimer s; url := url s;
     clientId := clientId s; isConnecting := isConnecting s;
     shouldReconnect := shouldReconnect s; channels := channels s |}.

Definition set_reconnectInterval (v : Q) (s : State) : State :=
  {| ws := ws s; reconnectInterval := v;
     maxReconnectInterval := maxReconnectInterval s;
     reconnectDecay := reconnectDecay s; reconnectAttempts := reconnectAttempts s;
     maxReconnectAttempts := maxReconnectAttempts s;
     reconnectTimer := reconnectTimer s; pingTimer := pingTimer s; url := url s;
     clientId := clientId s; isConnecting := isConnecting s;
     shouldReconnect := shouldReconnect s; channels := channels s |}.

Definition set_reconnectAttempts (v : Z) (s : State) : State :=
  {| ws := ws s; reconnectInterval := reconnectInterval s;
     maxReconnectInterval := maxReconnectInterval s;
     reconnectDecay := reconnectDecay s; reconnectAttempts := v;
     maxReconnectAttempts := maxReconnectAttempts s;
     reconnectTimer := reconnectTimer s; pingTimer := pingTimer s; url := url s;
     clientId := clientId s; isConnecting := isConnecting s;
     shouldReconnect := shouldReconnect s; channels := channels s |}.

Definition set_reconnectTimer (v : option nat) (s : State) : State :=
  {| ws := ws s; reconnectInterval := reconnectInterval s;
     maxReconnectInterval := maxReconnectInterval s;
     reconnectDecay := reconnectDecay s; reconnectAttempts := reconnectAttempts s;
     maxReconnectAttempts := maxReconnectAttempts s;
     reconnectTimer := v; pingTimer := pingTimer s; url := url s;
     clientId := clientId s; isConnecting := isConnecting s;
     shouldReconnect := shouldReconnect s; channels := channels s |}.

Definition set_pingTimer (v : option nat) (s : State) : State :=
  {| ws := ws s; reconnectInterval := reconnectInterval s;
     maxReconnectInterval := maxReconnectInterval s;
     reconnectDecay := reconnectDecay s; reconnectAttempts := reconnectAttempts s;
     maxReconnectAttempts := maxReconnectAttempts s;
     reconnectTimer := reconnectTimer s; pingTimer := v; url := url s;
     clientId := clientId s; isConnecting := isConnecting s;
     shouldReconnect := shouldReconnect s; channels := channels s |}.

Definition set_isConnecting (v : bool) (s : State) : State :=
  {| ws := ws s; reconnectInterval := reconnectInterval s;
     maxReconnectInterval := maxReconnectInterval s;
     reconnectDecay := reconnectDecay s; reconnectAttempts := reconnectAttempts s;
     maxReconnectAttempts := maxReconnectAttempts s;
     reconnectTimer := reconnectTimer s; pingTimer := pingTimer s; url := url s;
     clientId := clientId s; isConnecting := v;
     shouldReconnect := shouldReconnect s; channels := channels s |}.

Definition set_shouldReconnect (v : bool) (s : State) : State :=
  {| ws := ws s; reconnectInterval := reconnectInterval s;
     maxReconnectInterval := maxReconnectInterval s;
     reconnectDecay := reconnectDecay s; reconnectAttempts := reconnectAttempts s;
     maxReconnectAttempts := maxReconnectAttempts s;
     reconnectTimer := reconnectTimer s; pingTimer := pingTimer s; url := url s;
     clientId := clientId s; isConnecting := isConnecting s;
     shouldReconnect := v; channels := channels s |}.

Definition set_channels (v : list string) (s : State) : State :=
  {| ws := ws s; reconnectInterval := reconnectInterval s;
     maxReconnectInterval := maxReconnectInterval s;
     reconnectDecay := reconnectDecay s; reconnectAttempts := reconnectAttempts s;
     maxReconnectAttempts := maxReconnectAttempts s;
     reconnectTimer := reconnectTimer s; pingTimer := pingTimer s; url := url s;
     clientId := clientId s; isConnecting := isConnecting s;
     shouldReconnect := shouldReconnect s; channels := v |}.

(** An assignment to a field of [this], and an effect on the environment. *)
Definition this (f : State -> State) (σ : Sys) : Sys := (f σ.1, σ.2).
Definition env (g : World unit TimerCb -> World unit TimerCb) (σ : Sys) : Sys :=
  (σ.1, g σ.2).

Definition log (lvl : LogLevel) (text : string) : Sys -> Sys :=
  env (console_write lvl text).

Definition emit (event : string) (args : list JSValue) : Sys -> Sys :=
  env (dispatch event args).

(** [this.ws?.readyState] *)
Definition ws_readyState (σ : Sys) : option ReadyState :=
  i ← ws σ.1; k ← sockets σ.2 !! i; Some (readyState k).

(** The socket behind [this.ws] when [this.ws?.readyState === WebSocket.OPEN]. *)
Definition open_socket (σ : Sys) : option nat :=
  i ← ws σ.1; k ← sockets σ.2 !! i;
  if decide (readyState k = OPEN) then Some i else None.

Definition isConnected (σ : Sys) : bool := bool_decide (is_Some (open_socket σ)).

Definition getConnectionStatus (σ : Sys) : string :=
  match ws σ.1 with
  | None => "disconnected"
  | Some i =>
      match sockets σ.2 !! i with
      | Some k => match readyState k with
                  | CONNECTING => "connecting"
                  | OPEN => "connected"
                  | CLOSING => "closing"
                  | CLOSED => "closed"
                  end
      | None => "unknown"
      end
  end.

Definition clearReconnectTimer (σ : Sys) : Sys :=
  match reconnectTimer σ.1 with
  | Some id =>
      let σ := env (clear_timer id) σ in
      this (set_reconnectTimer None) σ
  | None => σ
  end.

(** [Math.min(reconnectInterval * Math.pow(reconnectDecay, reconnectAttempts),
    maxReconnectInterval)] *)
Definition currentInterval (s : State) : Q :=
  Qmin (reconnectInterval s * reconnectDecay s ^ reconnectAttempts s)
       (maxReconnectInterval s).

Definition scheduleReconnect (σ : Sys) : Sys :=
  if (maxReconnectAttempts σ.1 <=? reconnectAttempts σ.1)%Z then
    let σ := log LogError "❌ 최대 재연결 시도 횟수 초과" σ in
    emit "maxReconnectAttemptsReached" [] σ
  else
    let σ := clearReconnectTimer σ in
    let interval := currentInterval σ.1 in
    let σ := log LogInfo "🔄 ms 후 재연결 시도" σ in
    let '(id, w) := set_timer ReconnectCb interval σ.2 in
    this (set_reconnectTimer (Some id)) (σ.1, w).

(** Installs [onopen], [onmessage], [onerror] and [onclose] on [this.ws]. *)
Definition setupWebSocketEvents (σ : Sys) : Sys :=
  match ws σ.1 with
  | None => σ
  | Some i => env (update_socket i (set_handlers ())) σ
  end.

Section WithHost.
Context `{!Host}.

Definition connect (chans : list string) (σ : Sys) : Sys :=
  if isConnecting σ.1 then log LogInfo "🔄 이미 연결 시도 중..." σ
  else if isConnected σ then log LogInfo "✅ 이미 연결됨" σ
  else
    let σ := this (set_isConnecting true) σ in
    let σ := this (set_channels chans) σ in
    let σ := this (set_shouldReconnect true) σ in
    let channelsParam := String.concat "," chans in
    let wsUrl := url σ.1 +:+ "/" +:+ clientId σ.1 +:+ "?channels=" +:+ channelsParam in
    let σ := log LogInfo "🔌 WebSocket 연결 시도:" σ in
    let σ := log LogInfo "📡 채널:" σ in
    let σ := log LogInfo "🔄 재연결 시도:" σ in
    match WebSocket_rejects wsUrl with
    | None =>
        let '(i, w) := new_WebSocket wsUrl σ.2 in
        let σ := this (set_ws (Some i)) (σ.1, w) in
        setupWebSocketEvents σ
    | Some error =>
        let σ := log LogError "❌ WebSocket 생성 실패:" σ in
        let σ := this (set_isConnecting false) σ in
        let σ := emit "error" [JError error] σ in
        scheduleReconnect σ
    end.

(** [send(data)], for the payload object that [data] refers to. *)
Definition send (data : nat) (σ : Sys) : bool * Sys :=
  match open_socket σ with
  | Some i =>
      let message :=
        obj_set "client_id" (JStr (clientId σ.1))
          (obj_set "timestamp" (JStr (now σ.2)) (spread (deref data σ.2))) in
      match JSON_stringify (JObj message) with
      | inr frame =>
          let σ := env (socket_send i frame) σ in
          let σ := log LogInfo "📤 메시지 전송:" σ in
          (true, σ)
      | inl error =>
          let σ := log LogError "❌ 메시지 전송 실패:" σ in
          let σ := emit "error" [JError error] σ in
          (false, σ)
      end
  | None =>
      let σ := log LogError "❌ WebSocket 연결되지 않음" σ in
      let σ := if shouldReconnect σ.1 && negb (isConnecting σ.1) then
                 let σ := log LogInfo "🔄 메시지 전송 실패로 인한 재연결 시도" σ in
                 connect (channels σ.1) σ
               else σ in
      (false, σ)
  end.

(** [this.send({...})] with an object literal: the literal is allocated and
    passed by reference. *)
Definition send_literal (fields : JSObject) (σ : Sys) : bool * Sys :=
  let '(l, w) := alloc (JObj fields) σ.2 in
  send l (σ.1, w).

Definition stopPingInterval (σ : Sys) : Sys :=
  match pingTimer σ.1 with
  | Some id =>
      let σ := env (clear_timer id) σ in
      this (set_pingTimer None) σ
  | None => σ
  end.

Definition startPingInterval (σ : Sys) : Sys :=
  let σ := stopPingInterval σ in
  let '(id, w) := set_timer PingCb 30000 σ.2 in
  this (set_pingTimer (Some id)) (σ.1, w).

(** The body of the interval callback of [startPingInterval]. *)
Definition ping_tick (σ : Sys) : Sys :=
  if isConnected σ then
    (send_literal [("type", JStr "ping"); ("timestamp", JStr (now σ.2))] σ).2
  else
    let σ := log LogWarn "⚠️ Ping 중단 - WebSocket 연결 없음" σ in
    stopPingInterval σ.

(** The body of the timeout callback of [scheduleReconnect]. *)
Definition reconnect_tick (σ : Sys) : Sys :=
  if shouldReconnect σ.1 then
    let σ := this (set_reconnectAttempts (reconnectAttempts σ.1 + 1)) σ in
    let σ := log LogInfo "🔄 재연결 시도" σ in
    connect (channels σ.1) σ
  else σ.

(** [v.k] once [v] is known not to be [null] or [undefined] *)
Definition prop (v : JSValue) (k : string) : JSValue :=
  match get_prop v k with inr x => x | inl _ => JUndefined end.

(** [handleMessage(data)], given the value of [data.type]. *)
Definition handleMessage (data : JSValue) (σ : Sys) : Sys :=
  let case (tag : string) : bool :=
    match prop data "type" with JStr s => String.eqb s tag | _ => false end in
  if case "progress" then emit "progress" [prop data "data"] σ
  else if case "result" then emit "result" [prop data "data"] σ
  else if case "complete" then
    let σ := log LogInfo "🎉 분석 완료:" σ in
    emit "complete" [prop data "data"] σ
  else if case "error" then
    let σ := log LogError "📨 서버 오류:" σ in
    emit "serverError" [js_or (prop data "error") (prop data "message")] σ
  else if case "alert" then emit "alert" [prop data "data"] σ
  else if case "notification" then emit "notification" [prop data "data"] σ
  else if case "connection_established" || case "ready" then
    let σ := log LogInfo "🎯 연결 준비 완료:" σ in
    emit "ready" [data] σ
  else if case "pong" then log LogInfo "🏓 Pong 수신 - 연결 유지됨" σ
  else
    let σ := log LogWarn "⚠️ 알 수 없는 메시지 타입:" σ in
    emit "message" [data] σ.

Definition onopen (σ : Sys) : Sys :=
  let σ := log LogInfo "✅ WebSocket 연결 성공!" σ in
  let σ := this (set_isConnecting false) σ in
  let σ := this (set_reconnectAttempts 0) σ in
  let σ := this (set_reconnectInterval 3000) σ in
  let σ := emit "connected" [] σ in
  let σ := clearReconnectTimer σ in
  let σ := startPingInterval σ in
  (send_literal [("type", JStr "ping"); ("message", JStr "Connection established")] σ).2.

(** [onmessage]: the [try] block parses the frame, reads [data.type] for the
    log line and dispatches; whatever it throws is caught and logged. *)
Definition onmessage (text : string) (σ : Sys) : Sys :=
  let catch (error : Exn) : Sys :=
    let σ := log LogError "❌ 메시지 파싱 오류:" σ in
    log LogInfo "📄 원본 데이터:" σ in
  match JSON_parse text with
  | inl error => catch error
  | inr data =>
      match get_prop data "type" with
      | inl error => catch error
      | inr _ =>
          let σ := log LogInfo "📨 WebSocket 메시지 수신:" σ in
          handleMessage data σ
      end
  end.

Definition onerror (error : JSValue) (σ : Sys) : Sys :=
  let σ := log LogError "❌ WebSocket 오류:" σ in
  let k := ws σ.1 ≫= fun i => sockets σ.2 !! i in
  let errorInfo :=
    JObj [("readyState", from_option (fun k => JNum (readyState_code (readyState k))) JUndefined k);
          ("url", from_option (fun k => JStr (sock_url k)) JUndefined k);
          ("protocol", from_option (fun k => JStr (sock_protocol k)) JUndefined k);
          ("timestamp", JStr (now σ.2));
          ("reconnectAttempts", JNum (reconnectAttempts σ.1))] in
  let σ := log LogError "🔍 오류 상세 정보:" σ in
  let σ := this (set_isConnecting false) σ in
  let σ := emit "error" [JObj [("message", JStr "WebSocket 연결 오류");
                               ("details", errorInfo);
                               ("originalError", error)]] σ in
  if shouldReconnect σ.1 then scheduleReconnect σ else σ.

Definition onclose (code : Z) (reason : string) (wasClean : bool) (σ : Sys) : Sys :=
  let σ := log LogInfo "🔌 WebSocket 연결 종료:" σ in
  let σ := this (set_isConnecting false) σ in
  let σ := stopPingInterval σ in
  let σ := emit "disconnected" [JObj [("code", JNum code); ("reason", JStr reason);
                                      ("wasClean", JBool wasClean)]] σ in
  if shouldReconnect σ.1 && negb (code =? 1000)%Z then
    let σ := log LogInfo "🔄 비정상 종료 감지 - 재연결 시도" σ in
    scheduleReconnect σ
  else σ.

Definition disconnect (σ : Sys) : Sys :=
  let σ := log LogInfo "🔌 WebSocket 연결 해제" σ in
  let σ := this (set_shouldReconnect false) σ in
  let σ := clearReconnectTimer σ in
  let σ := stopPingInterval σ in
  let σ := match ws σ.1 with
           | Some i =>
               let σ := env (socket_close i 1000 "Normal closure by client") σ in
               this (set_ws None) σ
           | None => σ
           end in
  let σ := this (set_isConnecting false) σ in
  this (set_reconnectAttempts 0) σ.

Definition forceReconnect (σ : Sys) : Sys :=
  let σ := log LogInfo "🔄 강제 재연결 시도" σ in
  let σ := disconnect σ in
  (σ.1, (set_timer ForceReconnectCb 1000 σ.2).2).

(** [testConnection()], as far as the service is concerned: unless the socket
    is open it calls [connect] and sets a timer of ten seconds.  The listeners
    it registers for ['connected'] and ['error'], which the timer's callback
    removes, and the promise it settles belong to the emitter and to the
    caller. *)
Definition testConnection (σ : Sys) : Sys :=
  if isConnected σ then σ
  else
    let σ := connect (channels σ.1) σ in
    (σ.1, (set_timer TestConnectionCb 10000 σ.2).2).

(** ** What the host does to the service *)

Inductive Event :=
| EvOpen (i : nat)
| EvMessage (i : nat) (text : string)
| EvError (i : nat) (error : JSValue)
| EvClose (i : nat) (code : Z) (reason : string) (wasClean : bool)
| EvTimer (id : nat)
| EvClock (t : string)
| EvAlloc (v : JSValue)
| CallConnect (chans : list string)
| CallDisconnect
| CallSend (data : nat)
| CallForceReconnect
| CallTestConnection.

(** A timer fires: a timeout leaves the pending set, an interval stays. *)
Definition fire_timer (id : nat) (σ : Sys) : Sys :=
  match find_timer id σ.2 with
  | None => σ
  | Some t =>
      match callback t with
      | ReconnectCb => reconnect_tick (env (clear_timer id) σ)
      | ForceReconnectCb => connect (channels σ.1) (env (clear_timer id) σ)
      | PingCb => ping_tick σ
      | TestConnectionCb => env (clear_timer id) σ
      end
  end.

(** The browser delivers an event of socket [i] to the handler installed on
    it, after moving the socket to the ready state the event stands for. *)
Definition deliver (i : nat) (enabled : ReadyState -> bool)
    (after : ReadyState -> ReadyState) (handler : Sys -> Sys) (σ : Sys) : Sys :=
  match sockets σ.2 !! i with
  | Some k =>
      if enabled (readyState k) then
        let σ := env (update_socket i (fun k => set_readyState (after (readyState k)) k)) σ in
        match handlers k with Some _ => handler σ | None => σ end
      else σ
  | None => σ
  end.

Definition step (e : Event) (σ : Sys) : Sys :=
  match e with
  | EvOpen i =>
      deliver i (fun r => bool_decide (r = CONNECTING)) (fun _ => OPEN) onopen σ
  | EvMessage i text =>
      deliver i (fun r => bool_decide (r = OPEN \/ r = CLOSING)) id (onmessage text) σ
  | EvError i error =>
      deliver i (fun r => bool_decide (r <> CLOSED)) id (onerror error) σ
  | EvClose i code reason wasClean =>
      deliver i (fun r => bool_decide (r <> CLOSED)) (fun _ => CLOSED)
        (onclose code reason wasClean) σ
  | EvTimer id => fire_timer id σ
  | EvClock t => env (set_now t) σ
  | EvAlloc v => env (fun w => (alloc v w).2) σ
  | CallConnect chans => connect chans σ
  | CallDisconnect => disconnect σ
  | CallSend data => (send data σ).2
  | CallForceReconnect => forceReconnect σ
  | CallTestConnection => testConnection σ
  end.

Definition run (es : list Event) (σ : Sys) : Sys :=
  foldl (fun σ e => step e σ) σ es.

(** ** The rest of the public interface *)

Definition notifyAnalysisStart (jobId : string) (σ : Sys) : Sys :=
  (send_literal [("type", JStr "analysis_start"); ("jobId", JStr jobId);
                 ("message", JStr "Analysis started")] σ).2.

Definition subscribeToChannel (channel : string) (σ : Sys) : Sys :=
  (send_literal [("type", JStr "subscribe"); ("channel", JStr channel)] σ).2.

(** [getStatus()] *)
Definition getStatus (σ : Sys) : JSValue :=
  JObj [("clientId", JStr (clientId σ.1));
        ("url", JStr (url σ.1));
        ("isConnected", JBool (isConnected σ));
        ("connectionStatus", JStr (getConnectionStatus σ));
        ("reconnectAttempts", JNum (reconnectAttempts σ.1));
        ("maxReconnectAttempts", JNum (maxReconnectAttempts σ.1));
        ("shouldReconnect", JBool (shouldReconnect σ.1));
        ("channels", JArr (JStr <$> channels σ.1));
        ("isConnecting", JBool (isConnecting σ.1))].

End WithHost.

End Robust.

(** ** WebSocketService (src/services/websocket_fixed.ts) *)

Module Fixed.

(** The timeout closures of the class: the reconnect timer of
    [scheduleReconnect] and the zero-delay timer of [onerror]; both capture
    the [channels] argument of the [connect] call that created the socket. *)
Inductive TimerCb :=
| ReconnectCb (channels : list string)
| DeferredErrorCb (message : string) (channels : list string).

Definition is_reconnect (c : TimerCb) : bool :=
  match c with ReconnectCb _ => true | DeferredErrorCb _ _ => false end.

Record State := {
  ws : option nat;
  reconnectInterval : Q;
  reconnectTimer : option nat;
  url : string;
  clientId : string;
  isConnecting : bool;
  maxRetryAttempts : Z;
  retryCount : Z
}.

(** The socket handlers capture the [channels] they were installed with. *)
Definition Sys := (State * World (list string) TimerCb)%type.

Definition new_service (base_url client_id : string) : State :=
  {| ws := None; reconnectInterval := 5000; reconnectTimer := None;
     url := base_url; clientId := client_id; isConnecting := false;
     maxRetryAttempts := 3; retryCount := 0 |}.

Definition set_ws (v : option nat) (s : State) : State :=
  {| ws := v; reconnectInterval := reconnectInterval s;
     reconnectTimer := reconnectTimer s; url := url s; clientId := clientId s;
     isConnecting := isConnecting s; maxRetryAttempts := maxRetryAttempts s;
     retryCount := retryCount s |}.

Definition set_reconnectTimer (v : option nat) (s : State) : State :=
  {| ws := ws s; reconnectInterval := reconnectInterval s;
     reconnectTimer := v; url := url s; clientId := clientId s;
     isConnecting := isConnecting s; maxRetryAttempts := maxRetryAttempts s;
     retryCount := retryCount s |}.

Definition set_isConnecting (v : bool) (s : State) : State :=
  {| ws := ws s; reconnectInterval := reconnectInterval s;
     reconnectTimer := reconnectTimer s; url := url s; clientId := clientId s;
     isConnecting := v; maxRetryAttempts := maxRetryAttempts s;
     retryCount := retryCount s |}.

Definition set_retryCount (v : Z) (s : State) : State :=
  {| ws := ws s; reconnectInterval := reconnectInterval s;
     reconnectTimer := reconnectTimer s; url := url s; clientId := clientId s;
     isConnecting := isConnecting s; maxRetryAttempts := maxRetryAttempts s;
     retryCount := v |}.

Definition this (f : State -> State) (σ : Sys) : Sys := (f σ.1, σ.2).
Definition env (g : World (list string) TimerCb -> World (list string) TimerCb)
    (σ : Sys) : Sys := (σ.1, g σ.2).

Definition log (lvl : LogLevel) (text : string) : Sys -> Sys :=
  env (console_write lvl text).

Definition emit (event : string) (args : list JSValue) : Sys -> Sys :=
  env (dispatch event args).

Definition open_socket (σ : Sys) : option nat :=
  i ← ws σ.1; k ← sockets σ.2 !! i;
  if decide (readyState k = OPEN) then Some i else None.

Definition isConnected (σ : Sys) : bool := bool_decide (is_Some (open_socket σ)).

Definition getConnectionStatus (σ : Sys) : string :=
  match ws σ.1 with
  | None => "disconnected"
  | Some i =>
      match sockets σ.2 !! i with
      | Some k => match readyState k with
                  | CONNECTING => "connecting"
                  | OPEN => "connected"
                  | CLOSING => "closing"
                  | CLOSED => "closed"
                  end
      | None => "unknown"
      end
  end.

Definition clearReconnectTimer (σ : Sys) : Sys :=
  match reconnectTimer σ.1 with
  | Some id =>
      let σ := env (clear_timer id) σ in
      this (set_reconnectTimer None) σ
  | None => σ
  end.

(** [this.reconnectInterval * Math.pow(2, this.retryCount - 1)] *)
Definition backoff_delay (s : State) : Q :=
  reconnectInterval s * 2 ^ (retryCount s - 1).

Definition scheduleReconnect (chans : list string) (σ : Sys) : Sys :=
  let σ := clearReconnectTimer σ in
  let delay := backoff_delay σ.1 in
  let σ := log LogInfo "🔄 Scheduling reconnect in" σ in
  let '(id, w) := set_timer (ReconnectCb chans) delay σ.2 in
  this (set_reconnectTimer (Some id)) (σ.1, w).

Definition handleConnectionError (message : string) (chans : list string)
    (σ : Sys) : Sys :=
  let σ := this (set_isConnecting false) σ in
  let σ := this (set_retryCount (retryCount σ.1 + 1)) σ in
  let σ := log LogError "❌ Connection error" σ in
  let safeErrorInfo :=
    JObj [("message", JStr message); ("type", JStr "connection_error");
          ("attempt", JNum (retryCount σ.1));
          ("maxAttempts", JNum (maxRetryAttempts σ.1));
          ("timestamp", JStr (now σ.2))] in
  let σ := emit "error" [safeErrorInfo] σ in
  if (retryCount σ.1 <? maxRetryAttempts σ.1)%Z then scheduleReconnect chans σ
  else σ.

Definition setupWebSocketHandlers (chans : list string) (σ : Sys) : Sys :=
  match ws σ.1 with
  | None => σ
  | Some i => env (update_socket i (set_handlers chans)) σ
  end.

Section WithHost.
Context `{!Host}.

Definition connect (chans : list string) (σ : Sys) : Sys :=
  if isConnecting σ.1 || isConnected σ then
    log LogInfo "🔌 WebSocket already connected or connecting" σ
  else
    let σ := this (set_isConnecting true) σ in
    let channelsParam := String.concat "," chans in
    let wsUrl := url σ.1 +:+ "/" +:+ clientId σ.1 +:+ "?channels=" +:+ channelsParam in
    let σ := log LogInfo "🔌 Connecting to WebSocket:" σ in
    match WebSocket_rejects wsUrl with
    | None =>
        let '(i, w) := new_WebSocket wsUrl σ.2 in
        let σ := this (set_ws (Some i)) (σ.1, w) in
        setupWebSocketHandlers chans σ
    | Some error =>
        let σ := log LogError "❌ WebSocket creation failed:" σ in
        handleConnectionError "WebSocket creation failed" chans σ
    end.

Definition send (data : nat) (σ : Sys) : bool * Sys :=
  match open_socket σ with
  | Some i =>
      let message := obj_set "timestamp" (JStr (now σ.2)) (spread (deref data σ.2)) in
      match JSON_stringify (JObj message) with
      | inr frame =>
          let σ := env (socket_send i frame) σ in
          let σ := log LogInfo "📤 WebSocket message sent:" σ in
          (true, σ)
      | inl error =>
          let σ := log LogError "❌ Failed to send WebSocket message:" σ in
          (false, σ)
      end
  | None =>
      let σ := log LogError "❌ WebSocket is not connected. Current state:" σ in
      (false, σ)
  end.

Definition send_literal (fields : JSObject) (σ : Sys) : bool * Sys :=
  let '(l, w) := alloc (JObj fields) σ.2 in
  send l (σ.1, w).

(** The body of the timeout callback of [scheduleReconnect]. *)
Definition reconnect_tick (chans : list string) (σ : Sys) : Sys :=
  if (retryCount σ.1 <? maxRetryAttempts σ.1)%Z then
    let σ := log LogInfo "🔄 Attempting to reconnect..." σ in
    connect chans σ
  else σ.

Definition prop (v : JSValue) (k : string) : JSValue :=
  match get_prop v k with inr x => x | inl _ => JUndefined end.

(** [handleMessage(data)], given the value of [data.type]. *)
Definition handleMessage (data : JSValue) (σ : Sys) : Sys :=
  let case (tag : string) : bool :=
    match prop data "type" with JStr s => String.eqb s tag | _ => false end in
  if case "progress" then emit "progress" [prop data "data"] σ
  else if case "result" then emit "result" [prop data "data"] σ
  else if case "complete" then emit "complete" [prop data "data"] σ
  else if case "error" then
    emit "error" [JObj [("message", prop data "error"); ("type", JStr "server_error")]] σ
  else if case "alert" then emit "alert" [prop data "data"] σ
  else if case "notification" then emit "notification" [prop data "data"] σ
  else if case "connection_established" || case "pong" then
    log LogInfo "ℹ️ WebSocket keepalive/control message:" σ
  else log LogWarn "⚠️ Unknown message type:" σ.

Definition onopen (σ : Sys) : Sys :=
  let σ := log LogInfo "✅ WebSocket connected successfully" σ in
  let σ := this (set_isConnecting false) σ in
  let σ := this (set_retryCount 0) σ in
  let σ := emit "connected" [] σ in
  let σ := clearReconnectTimer σ in
  (send_literal [("type", JStr "ping"); ("timestamp", JStr (now σ.2))] σ).2.

(** [onmessage]: the [try] block parses, logs and dispatches; [switch
    (data.type)] throws on [null], and whatever is thrown is caught and
    logged. *)
Definition onmessage (text : string) (σ : Sys) : Sys :=
  let catch (error : Exn) (σ : Sys) : Sys :=
    log LogError "❌ WebSocket message parse error:" σ in
  match JSON_parse text with
  | inl error => catch error σ
  | inr data =>
      let σ := log LogInfo "📨 WebSocket message received:" σ in
      match get_prop data "type" with
      | inl error => catch error σ
      | inr _ => handleMessage data σ
      end
  end.

Definition onerror (chans : list string) (error : JSValue) (σ : Sys) : Sys :=
  let σ := log LogError "❌ WebSocket error occurred:" σ in
  (σ.1, (set_timer (DeferredErrorCb "WebSocket connection error" chans) 0 σ.2).2).

Definition onclose (chans : list string) (code : Z) (reason : string)
    (wasClean : bool) (σ : Sys) : Sys :=
  let σ := log LogInfo "🔌 WebSocket disconnected:" σ in
  let σ := this (set_isConnecting false) σ in
  let σ := emit "disconnected" [] σ in
  if negb (code =? 1000)%Z && (retryCount σ.1 <? maxRetryAttempts σ.1)%Z then
    scheduleReconnect chans σ
  else if (maxRetryAttempts σ.1 <=? retryCount σ.1)%Z then
    let σ := log LogError "❌ Max retry attempts reached. Please check server status." σ in
    emit "maxRetriesReached" [] σ
  else σ.

Definition disconnect (σ : Sys) : Sys :=
  let σ := log LogInfo "🔌 Disconnecting WebSocket" σ in
  let σ := clearReconnectTimer σ in
  let σ := this (set_retryCount (maxRetryAttempts σ.1)) σ in
  let σ := match ws σ.1 with
           | Some i =>
               let σ := env (socket_close i 1000 "Normal closure") σ in
               this (set_ws None) σ
           | None => σ
           end in
  this (set_isConnecting false) σ.

Definition resetRetryCount (σ : Sys) : Sys := this (set_retryCount 0) σ.

Inductive Event :=
| EvOpen (i : nat)
| EvMessage (i : nat) (text : string)
| EvError (i : nat) (error : JSValue)
| EvClose (i : nat) (code : Z) (reason : string) (wasClean : bool)
| EvTimer (id : nat)
| EvClock (t : string)
| EvAlloc (v : JSValue)
| CallConnect (chans : list string)
| CallDisconnect
| CallSend (data : nat)
| CallResetRetryCount.

Definition fire_timer (id : nat) (σ : Sys) : Sys :=
  match find_timer id σ.2 with
  | None => σ
  | Some t =>
      let σ := env (clear_timer id) σ in
      match callback t with
      | ReconnectCb chans => reconnect_tick chans σ
      | DeferredErrorCb message chans => handleConnectionError message chans σ
      end
  end.

Definition deliver (i : nat) (enabled : ReadyState -> bool)
    (after : ReadyState -> ReadyState) (handler : list string -> Sys -> Sys)
    (σ : Sys) : Sys :=
  match sockets σ.2 !! i with
  | Some k =>
      if enabled (readyState k) then
        let σ := env (update_socket i (fun k => set_readyState (after (readyState k)) k)) σ in
        match handlers k with Some chans => handler chans σ | None => σ end
      else σ
  | None => σ
  end.

Definition step (e : Event) (σ : Sys) : Sys :=
  match e with
  | EvOpen i =>
      deliver i (fun r => bool_decide (r = CONNECTING)) (fun _ => OPEN)
        (fun _ => onopen) σ
  | EvMessage i text =>
      deliver i (fun r => bool_decide (r = OPEN \/ r = CLOSING)) id
        (fun _ => onmessage text) σ
  | EvError i error =>
      deliver i (fun r => bool_decide (r <> CLOSED)) id
        (fun chans => onerror chans error) σ
  | EvClose i code reason wasClean =>
      deliver i (fun r => bool_decide (r <> CLOSED)) (fun _ => CLOSED)
        (fun chans => onclose chans code reason wasClean) σ
  | EvTimer id => fire_timer id σ
  | EvClock t => env (set_now t) σ
  | EvAlloc v => env (fun w => (alloc v w).2) σ
  | CallConnect chans => connect chans σ
  | CallDisconnect => disconnect σ
  | CallSend data => (send data σ).2
  | CallResetRetryCount => resetRetryCount σ
  end.

Definition run (es : list Event) (σ : Sys) : Sys :=
  foldl (fun σ e => step e σ) σ es.

(** ** The rest of the public interface *)

Definition notifyAnalysisStart (jobId : string) (σ : Sys) : Sys :=
  (send_literal [("type", JStr "analysis_start"); ("jobId", JStr jobId);
                 ("message", JStr "Analysis started")] σ).2.

End WithHost.

End Fixed.

(** ** SimpleEventEmitter (src/types/index.ts) *)

Module SimpleEventEmitter.

(** [array.forEach(f)] for a callback that may throw: the exception leaves
    [forEach] at once and the remaining elements are not visited.  The
    elements visited are those of the array when the iteration starts. *)
Fixpoint forEach {A S : Type} (f : A -> S -> S * option Exn) (l : list A) (s : S)
    : S * option Exn :=
  match l with
  | [] => (s, None)
  | x :: l' =>
      match f x s with
      | (s', None) => forEach f l' s'
      | (s', Some e) => (s', Some e)
      end
  end.

Section Emitter.

(** [Cb]: the identities of the registered functions ([cb !== callback]
    compares identities).  [Store]: whatever the callbacks act upon besides
    the emitter itself. *)
Context {Cb : Type} `{!EqDecision Cb} {Store : Type}.

(** The emitter's private [listeners] object, the callbacks' store, the
    console, and the record of every callback invocation with its arguments
    and whether it threw. *)
Record St := {
  listeners : gmap string (list Cb);
  store : Store;
  console : list LogEntry;
  calls : list (Cb * list JSValue * option Exn)
}.

(** Running a callback: it may register and unregister listeners and change
    its store, and either returns or throws. *)
Variable call :
  Cb -> list JSValue -> gmap string (list Cb) * Store ->
  gmap string (list Cb) * Store * option Exn.

Definition on (event : string) (callback : Cb) (st : St) : St :=
  let ls := match listeners st !! event with
            | None => <[event := []]> (listeners st)
            | Some _ => listeners st
            end in
  {| listeners := <[event := default [] (ls !! event) ++ [callback]]> ls;
     store := store st; console := console st; calls := calls st |}.

Definition off (event : string) (callback : Cb) (st : St) : St :=
  match listeners st !! event with
  | Some cbs =>
      {| listeners := <[event := filter (fun cb => cb <> callback) cbs]> (listeners st);
         store := store st; console := console st; calls := calls st |}
  | None => st
  end.

(** The body of the arrow function passed to [forEach] in [emit]:
    [try { callback(...args) } catch (error) { console.error(...) }]. *)
Definition invoke (event : string) (args : list JSValue) (callback : Cb) (st : St)
    : St * option Exn :=
  match call callback args (listeners st, store st) with
  | (ls, sto, None) =>
      ({| listeners := ls; store := sto; console := console st;
          calls := calls st ++ [(callback, args, None)] |}, None)
  | (ls, sto, Some error) =>
      ({| listeners := ls; store := sto;
          console := console st ++ [(LogError, "Error in event listener for " +:+ event +:+ ":")];
          calls := calls st ++ [(callback, args, Some error)] |}, None)
  end.

Definition emit (event : string) (args : list JSValue) (st : St) : St * option Exn :=
  match listeners st !! event with
  | Some cbs => forEach (invoke event args) cbs st
  | None => (st, None)
  end.

(** [removeAllListeners(event?)]: [if (event)] is false for a missing argument
    and for the empty string. *)
Definition removeAllListeners (event : option string) (st : St) : St :=
  match event with
  | Some e =>
      if String.eqb e EmptyString then
        {| listeners := ∅; store := store st; console := console st; calls := calls st |}
      else
        {| listeners := delete e (listeners st); store := store st;
           console := console st; calls := calls st |}
  | None =>
      {| listeners := ∅; store := store st; console := console st; calls := calls st |}
  end.

End Emitter.

Arguments St : clear implicits.

End SimpleEventEmitter.

(** ** EnhancedWebSocketService (src/types/index.ts) *)

Module Enhanced.

Inductive TimerCb := ReconnectCb | PingCb.

#[global] Instance TimerCb_eq_dec : EqDecision TimerCb.
Proof. solve_decision. Defined.

Record State := {
  ws : option nat;
  reconnectInterval : Q;
  maxReconnectAttempts : Z;
  reconnectAttempts : Z;
  reconnectTimer : option nat;
  pingTimer : option nat;
  url : string;
  clientId : string;
  isConnecting : bool;
  shouldReconnect : bool;
  currentChannels : list string
}.

Definition Sys := (State * World unit TimerCb)%type.

Definition new_service (base_url client_id : string) : State :=
  {| ws := None; reconnectInterval := 5000; maxReconnectAttempts := 10;
     reconnectAttempts := 0; reconnectTimer := None; pingTimer := None;
     url := base_url; clientId := client_id; isConnecting := false;
     shouldReconnect := true; currentChannels := [] |}.

Definition set_ws (v : option nat) (s : State) : State :=
  {| ws := v; reconnectInterval := reconnectInterval s;
     maxReconnectAttempts := maxReconnectAttempts s;
     reconnectAttempts := reconnectAttempts s; reconnectTimer := reconnectTimer s;
     pingTimer := pingTimer s; url := url s; clientId := clientId s;
     isConnecting := isConnecting s; shouldReconnect := shouldReconnect s;
     currentChannels := currentChannels s |}.

Definition set_reconnectAttempts (v : Z) (s : State) : State :=
  {| ws := ws s; reconnectInterval := reconnectInterval s;
     maxReconnectAttempts := maxReconnectAttempts s;
     reconnectAttempts := v; reconnectTimer := reconnectTimer s;
     pingTimer := pingTimer s; url := url s; clientId := clientId s;
     isConnecting := isConnecting s; shouldReconnect := shouldReconnect s;
     currentChannels := currentChannels s |}.

Definition set_reconnectTimer (v : option nat) (s : State) : State :=
  {| ws := ws s; reconnectInterval := reconnectInterval s;
     maxReconnectAttempts := maxReconnectAttempts s;
     reconnectAttempts := reconnectAttempts s; reconnectTimer := v;
     pingTimer := pingTimer s; url := url s; clientId := clientId s;
     isConnecting := isConnecting s; shouldReconnect := shouldReconnect s;
     currentChannels := currentChannels s |}.

Definition set_pingTimer (v : option nat) (s : State) : State :=
  {| ws := ws s; reconnectInterval := reconnectInterval s;
     maxReconnectAttempts := maxReconnectAttempts s;
     reconnectAttempts := reconnectAttempts s; reconnectTimer := reconnectTimer s;
     pingTimer := v; url := url s; clientId := clientId s;
     isConnecting := isConnecting s; shouldReconnect := shouldReconnect s;
     currentChannels := currentChannels s |}.

Definition set_isConnecting (v : bool) (s : State) : State :=
  {| ws := ws s; reconnectInterval := reconnectInterval s;
     maxReconnectAttempts := maxReconnectAttempts s;
     reconnectAttempts := reconnectAttempts s; reconnectTimer := reconnectTimer s;
     pingTimer := pingTimer s; url := url s; clientId := clientId s;
     isConnecting := v; shouldReconnect := shouldReconnect s;
     currentChannels := currentChannels s |}.

Definition set_shouldReconnect (v : bool) (s : State) : State :=
  {| ws := ws s; reconnectInterval := reconnectInterval s;
     maxReconnectAttempts := maxReconnectAttempts s;
     reconnectAttempts := reconnectAttempts s; reconnectTimer := reconnectTimer s;
     pingTimer := pingTimer s; url := url s; clientId := clientId s;
     isConnecting := isConnecting s; shouldReconnect := v;
     currentChannels := currentChannels s |}.

Definition set_currentChannels (v : list string) (s : State) : State :=
  {| ws := ws s; reconnectInterval := reconnectInterval s;
     maxReconnectAttempts := maxReconnectAttempts s;
     reconnectAttempts := reconnectAttempts s; reconnectTimer := reconnectTimer s;
     pingTimer := pingTimer s; url := url s; clientId := clientId s;
     isConnecting := isConnecting s; shouldReconnect := shouldReconnect s;
     currentChannels := v |}.

Definition this (f : State -> State) (σ : Sys) : Sys := (f σ.1, σ.2).
Definition env (g : World unit TimerCb -> World unit TimerCb) (σ : Sys) : Sys :=
  (σ.1, g σ.2).

Definition log (lvl : LogLevel) (text : string) : Sys -> Sys :=
  env (console_write lvl text).

(** [emit] is [SimpleEventEmitter.emit], which hands the event to every
    subscriber and never throws; the service's side of it is the record of
    the dispatch. *)
Definition emit (event : string) (args : list JSValue) : Sys -> Sys :=
  env (dispatch event args).

Definition open_socket (σ : Sys) : option nat :=
  i ← ws σ.1; k ← sockets σ.2 !! i;
  if decide (readyState k = OPEN) then Some i else None.

Definition isConnected (σ : Sys) : bool := bool_decide (is_Some (open_socket σ)).

Definition clearReconnectTimer (σ : Sys) : Sys :=
  match reconnectTimer σ.1 with
  | Some id =>
      let σ := env (clear_timer id) σ in
      this (set_reconnectTimer None) σ
  | None => σ
  end.

Definition stopPingInterval (σ : Sys) : Sys :=
  match pingTimer σ.1 with
  | Some id =>
      let σ := env (clear_timer id) σ in
      this (set_pingTimer None) σ
  | None => σ
  end.

Definition startPingInterval (σ : Sys) : Sys :=
  let σ := stopPingInterval σ in
  let '(id, w) := set_timer PingCb 30000 σ.2 in
  this (set_pingTimer (Some id)) (σ.1, w).

(** [Math.min(reconnectInterval * Math.pow(1.5, reconnectAttempts - 1), 30000)] *)
Definition backoff_delay (s : State) : Q :=
  Qmin (reconnectInterval s * (3 # 2) ^ (reconnectAttempts s - 1)) 30000.

Definition handleReconnection (σ : Sys) : Sys :=
  if negb (shouldReconnect σ.1) || (maxReconnectAttempts σ.1 <=? reconnectAttempts σ.1)%Z then
    let σ := log LogInfo "🚫 Max reconnection attempts reached or reconnection disabled" σ in
    emit "maxReconnectAttemptsReached" [] σ
  else
    let σ := clearReconnectTimer σ in
    let σ := this (set_reconnectAttempts (reconnectAttempts σ.1 + 1)) σ in
    let delay := backoff_delay σ.1 in
    let σ := log LogInfo "🔄 Scheduling reconnect attempt" σ in
    let '(id, w) := set_timer ReconnectCb delay σ.2 in
    this (set_reconnectTimer (Some id)) (σ.1, w).

Definition setupEventHandlers (σ : Sys) : Sys :=
  match ws σ.1 with
  | None => σ
  | Some i => env (update_socket i (set_handlers ())) σ
  end.

Section WithHost.
Context `{!Host}.

Definition connect (chans : list string) (σ : Sys) : Sys :=
  if isConnecting σ.1 || isConnected σ then
    log LogInfo "🔌 WebSocket already connected or connecting" σ
  else
    let σ := this (set_isConnecting true) σ in
    let σ := this (set_currentChannels chans) σ in
    let σ := this (set_shouldReconnect true) σ in
    let channelsParam := String.concat "," chans in
    let wsUrl := url σ.1 +:+ "/" +:+ clientId σ.1 +:+ "?channels=" +:+ channelsParam in
    let σ := log LogInfo "🔌 Connecting to WebSocket:" σ in
    let σ := log LogInfo "📊 Client ID:" σ in
    let σ := log LogInfo "📡 Channels:" σ in
    match WebSocket_rejects wsUrl with
    | None =>
        let '(i, w) := new_WebSocket wsUrl σ.2 in
        let σ := this (set_ws (Some i)) (σ.1, w) in
        setupEventHandlers σ
    | Some error =>
        let σ := log LogError "❌ Failed to create WebSocket:" σ in
        let σ := this (set_isConnecting false) σ in
        handleReconnection σ
    end.

Definition send (data : nat) (σ : Sys) : bool * Sys :=
  match open_socket σ with
  | Some i =>
      let message :=
        obj_set "client_id" (JStr (clientId σ.1))
          (obj_set "timestamp" (JStr (now σ.2)) (spread (deref data σ.2))) in
      match JSON_stringify (JObj message) with
      | inr frame =>
          let σ := env (socket_send i frame) σ in
          let σ := log LogInfo "📤 WebSocket message sent:" σ in
          (true, σ)
      | inl error =>
          let σ := log LogError "❌ Failed to send WebSocket message:" σ in
          let σ := emit "error" [JError error] σ in
          (false, σ)
      end
  | None =>
      let σ := log LogError "❌ WebSocket is not connected. Current state:" σ in
      let σ := emit "error" [JError (new_Error "WebSocket not connected")] σ in
      (false, σ)
  end.

Definition send_literal (fields : JSObject) (σ : Sys) : bool * Sys :=
  let '(l, w) := alloc (JObj fields) σ.2 in
  send l (σ.1, w).

Definition ping (σ : Sys) : Sys := (send_literal [("type", JStr "ping")] σ).2.

(** The body of the timeout callback of [handleReconnection]. *)
Definition reconnect_tick (σ : Sys) : Sys :=
  if shouldReconnect σ.1 then
    let σ := log LogInfo "🔄 Reconnection attempt" σ in
    connect (currentChannels σ.1) σ
  else σ.

Definition prop (v : JSValue) (k : string) : JSValue :=
  match get_prop v k with inr x => x | inl _ => JUndefined end.

(** [handleMessage(data)], given the value of [data.type]. *)
Definition handleMessage (data : JSValue) (σ : Sys) : Sys :=
  let case (tag : string) : bool :=
    match prop data "type" with JStr s => String.eqb s tag | _ => false end in
  if case "ready" then
    let σ := log LogInfo "🎯 WebSocket ready:" σ in
    emit "ready" [data] σ
  else if case "connection" then
    let σ := log LogInfo "🔗 Connection confirmed:" σ in
    emit "connected" [data] σ
  else if case "progress" then emit "progress" [prop data "data"] σ
  else if case "result" then emit "result" [prop data "data"] σ
  else if case "complete" then emit "complete" [js_or (prop data "data") data] σ
  else if case "error" then
    let σ := log LogError "📨 Server error:" σ in
    emit "serverError" [js_or (prop data "error") (prop data "message")] σ
  else if case "alert" then emit "alert" [js_or (prop data "data") data] σ
  else if case "notification" then emit "notification" [js_or (prop data "data") data] σ
  else if case "pong" then log LogInfo "🏓 Pong received" σ
  else
    let σ := log LogWarn "⚠️ Unknown message type:" σ in
    emit "message" [data] σ.

Definition onopen (σ : Sys) : Sys :=
  let σ := log LogInfo "✅ WebSocket connected successfully" σ in
  let σ := this (set_isConnecting false) σ in
  let σ := this (set_reconnectAttempts 0) σ in
  let σ := emit "connected" [JObj [("clientId", JStr (clientId σ.1));
                                   ("channels", JArr (JStr <$> currentChannels σ.1))]] σ in
  let σ := clearReconnectTimer σ in
  startPingInterval σ.

(** [onmessage]: whatever the [try] block throws, from [JSON.parse] or from
    [switch (data.type)] on [null], is caught, logged and surfaced as an
    [error] event carrying [new Error(`Message parse error: ${error}`)]. *)
Definition onmessage (text : string) (σ : Sys) : Sys :=
  let catch (error : Exn) (σ : Sys) : Sys :=
    let σ := log LogError "❌ WebSocket message parse error:" σ in
    emit "error" [JError (new_Error ("Message parse error: " +:+ exn_to_string error))] σ in
  match JSON_parse text with
  | inl error => catch error σ
  | inr data =>
      let σ := log LogInfo "📨 WebSocket message received:" σ in
      match get_prop data "type" with
      | inl error => catch error σ
      | inr _ => handleMessage data σ
      end
  end.

Definition onerror (error : JSValue) (σ : Sys) : Sys :=
  let σ := log LogError "❌ WebSocket error:" σ in
  let σ := this (set_isConnecting false) σ in
  let errorMessage := match error with
                      | JError e => exn_message e
                      | _ => "WebSocket connection error"
                      end in
  let σ := emit "error" [JError (new_Error errorMessage)] σ in
  if shouldReconnect σ.1 then handleReconnection σ else σ.

Definition onclose (code : Z) (reason : string) (wasClean : bool) (σ : Sys) : Sys :=
  let σ := log LogInfo "🔌 WebSocket disconnected:" σ in
  let σ := this (set_isConnecting false) σ in
  let σ := stopPingInterval σ in
  let σ := emit "disconnected" [JObj [("code", JNum code); ("reason", JStr reason);
                                      ("wasClean", JBool wasClean)]] σ in
  if shouldReconnect σ.1 && negb (code =? 1000)%Z then handleReconnection σ else σ.

Definition disconnect (σ : Sys) : Sys :=
  let σ := log LogInfo "🔌 Disconnecting WebSocket" σ in
  let σ := this (set_shouldReconnect false) σ in
  let σ := clearReconnectTimer σ in
  let σ := stopPingInterval σ in
  let σ := match ws σ.1 with
           | Some i =>
               let σ := env (socket_close i 1000 "Normal closure") σ in
               this (set_ws None) σ
           | None => σ
           end in
  let σ := this (set_isConnecting false) σ in
  this (set_reconnectAttempts 0) σ.

(** ** The rest of the public interface *)

Definition ws_readyState (σ : Sys) : option ReadyState :=
  i ← ws σ.1; k ← sockets σ.2 !! i; Some (readyState k).

Definition getConnectionStatus (σ : Sys) : string :=
  match ws σ.1 with
  | None => "disconnected"
  | Some i =>
      match sockets σ.2 !! i with
      | Some k => match readyState k with
                  | CONNECTING => "connecting"
                  | OPEN => "connected"
                  | CLOSING => "closing"
                  | CLOSED => "closed"
                  end
      | None => "unknown"
      end
  end.

Definition notifyAnalysisStart (jobId : string) (σ : Sys) : Sys :=
  (send_literal [("type", JStr "analysis_start"); ("jobId", JStr jobId);
                 ("message", JStr "Analysis started")] σ).2.

Definition subscribeToChannel (channel : string) (σ : Sys) : Sys :=
  (send_literal [("type", JStr "subscribe"); ("channel", JStr channel)] σ).2.

Definition enableReconnect (σ : Sys) : Sys := this (set_shouldReconnect true) σ.

Definition disableReconnect (σ : Sys) : Sys := this (set_shouldReconnect false) σ.

Definition getClientId (σ : Sys) : string := clientId σ.1.

(** [getCurrentChannels()] returns a copy of the array. *)
Definition getCurrentChannels (σ : Sys) : list string := currentChannels σ.1.

Definition getConnectionStats (σ : Sys) : JSValue :=
  JObj [("clientId", JStr (clientId σ.1));
        ("status", JStr (getConnectionStatus σ));
        ("reconnectAttempts", JNum (reconnectAttempts σ.1));
        ("maxReconnectAttempts", JNum (maxReconnectAttempts σ.1));
        ("shouldReconnect", JBool (shouldReconnect σ.1));
        ("channels", JArr (JStr <$> currentChannels σ.1))].

(** The body of the interval callback of [startPingInterval]. *)
Definition ping_tick (σ : Sys) : Sys := ping σ.

(** ** What the host does to the service *)

Inductive Event :=
| EvOpen (i : nat)
| EvMessage (i : nat) (text : string)
| EvError (i : nat) (error : JSValue)
| EvClose (i : nat) (code : Z) (reason : string) (wasClean : bool)
| EvTimer (id : nat)
| EvClock (t : string)
| EvAlloc (v : JSValue)
| CallConnect (chans : list string)
| CallDisconnect
| CallSend (data : nat)
| CallEnableReconnect
| CallDisableReconnect.

(** A timer fires: a timeout leaves the pending set, an interval stays. *)
Definition fire_timer (id : nat) (σ : Sys) : Sys :=
  match find_timer id σ.2 with
  | None => σ
  | Some t =>
      match callback t with
      | ReconnectCb => reconnect_tick (env (clear_timer id) σ)
      | PingCb => ping_tick σ
      end
  end.

Definition deliver (i : nat) (enabled : ReadyState -> bool)
    (after : ReadyState -> ReadyState) (handler : Sys -> Sys) (σ : Sys) : Sys :=
  match sockets σ.2 !! i with
  | Some k =>
      if enabled (readyState k) then
        let σ := env (update_socket i (fun k => set_readyState (after (readyState k)) k)) σ in
        match handlers k with Some _ => handler σ | None => σ end
      else σ
  | None => σ
  end.

Definition step (e : Event) (σ : Sys) : Sys :=
  match e with
  | EvOpen i =>
      deliver i (fun r => bool_decide (r = CONNECTING)) (fun _ => OPEN) onopen σ
  | EvMessage i text =>
      deliver i (fun r => bool_decide (r = OPEN \/ r = CLOSING)) id (onmessage text) σ
  | EvError i error =>
      deliver i (fun r => bool_decide (r <> CLOSED)) id (onerror error) σ
  | EvClose i code reason wasClean =>
      deliver i (fun r => bool_decide (r <> CLOSED)) (fun _ => CLOSED)
        (onclose code reason wasClean) σ
  | EvTimer id => fire_timer id σ
  | EvClock t => env (set_now t) σ
  | EvAlloc v => env (fun w => (alloc v w).2) σ
  | CallConnect chans => connect chans σ
  | CallDisconnect => disconnect σ
  | CallSend data => (send data σ).2
  | CallEnableReconnect => enableReconnect σ
  | CallDisableReconnect => disableReconnect σ
  end.

Definition run (es : list Event) (σ : Sys) : Sys :=
  foldl (fun σ e => step e σ) σ es.

End WithHost.

End Enhanced.

(** ** EventEmitter of the [events] package

    The base class of [RobustWebSocketService] and [WebSocketService]. *)

Module EventEmitter.

Section Emitter.
Context `{!Host}.

(** [Cb]: the identities of the registered functions.  [Store]: whatever the
    listeners act upon besides the emitter itself. *)
Context {Cb : Type} {Store : Type}.

(** The listeners of every event in the order of their registration
    ([this._events]), the listeners' store, and the record of every
    invocation of a listener with its arguments and whether it threw. *)
Record St := {
  listeners : gmap string (list Cb);
  store : Store;
  calls : list (Cb * list JSValue * option Exn)
}.

(** Running a listener: it may register and unregister listeners and change
    its store, and either returns or throws. *)
Variable call :
  Cb -> list JSValue -> gmap string (list Cb) * Store ->
  gmap string (list Cb) * Store * option Exn.

(** [on(event, listener)] *)
Definition on (event : string) (listener : Cb) (st : St) : St :=
  {| listeners := <[event := default [] (listeners st !! event) ++ [listener]]> (listeners st);
     store := store st; calls := calls st |}.

(** One listener is applied to the arguments; nothing catches what it
    throws. *)
Definition apply_listener (args : list JSValue) (listener : Cb) (st : St)
    : St * option Exn :=
  match call listener args (listeners st, store st) with
  | (ls, sto, r) =>
      ({| listeners := ls; store := sto; calls := calls st ++ [(listener, args, r)] |}, r)
  end.

(** What [emit('error', ...args)] throws when ['error'] has no listener: the
    first argument itself when it is an [Error]. *)
Definition unhandled (args : list JSValue) : Exn :=
  match args with
  | JError e :: _ => e
  | er :: _ => Unhandled_error (Some er)
  | [] => Unhandled_error None
  end.

(** [emit(event, ...args)]: the listeners registered when the call starts
    are applied in order, and the first exception leaves [emit].  The boolean
    that [emit] returns is left out. *)
Definition emit (event : string) (args : list JSValue) (st : St) : St * option Exn :=
  match listeners st !! event with
  | None => if String.eqb event "error" then (st, Some (unhandled args)) else (st, None)
  | Some cbs => SimpleEventEmitter.forEach (apply_listener args) cbs st
  end.

End Emitter.

Arguments St : clear implicits.

End EventEmitter.

(** ** RobustWebSocketService with its listeners

    [connect], [send] and [scheduleReconnect] of websocket_robust.ts once
    more, with the emitter the class inherits: an [emit] may throw, and what
    it throws leaves the method unless a [catch] is in the way.  The
    definitions of [Robust] are these when every [emit] returns. *)

Module RobustListeners.

Section WithListeners.
Context `{!Host} {Cb : Type} {Store : Type}.

Variable call :
  Cb -> list JSValue -> gmap string (list Cb) * Store ->
  gmap string (list Cb) * Store * option Exn.

(** The service object: its fields and environment, and the listeners it
    holds as an [EventEmitter]. *)
Definition Obj := (Robust.Sys * EventEmitter.St Cb Store)%type.

Definition this (f : Robust.State -> Robust.State) (o : Obj) : Obj :=
  (Robust.this f o.1, o.2).

Definition log (lvl : LogLevel) (text : string) (o : Obj) : Obj :=
  (Robust.log lvl text o.1, o.2).

(** [this.emit(event, ...args)]: the call is recorded, the listeners run. *)
Definition emit (event : string) (args : list JSValue) (o : Obj) : Obj * option Exn :=
  let '(em, r) := EventEmitter.emit call event args o.2 in
  ((Robust.emit event args o.1, em), r).

Definition scheduleReconnect (o : Obj) : Obj * option Exn :=
  if (Robust.maxReconnectAttempts o.1.1 <=? Robust.reconnectAttempts o.1.1)%Z then
    let o := log LogError "❌ 최대 재연결 시도 횟수 초과" o in
    emit "maxReconnectAttemptsReached" [] o
  else
    let σ := Robust.clearReconnectTimer o.1 in
    let interval := Robust.currentInterval σ.1 in
    let σ := Robust.log LogInfo "🔄 ms 후 재연결 시도" σ in
    let '(id, w) := set_timer Robust.ReconnectCb interval σ.2 in
    ((Robust.this (Robust.set_reconnectTimer (Some id)) (σ.1, w), o.2), None).

(** [connect(channels)]: what [emit('error', error)] throws in the [catch]
    block leaves [connect], and [scheduleReconnect] is not reached. *)
Definition connect (chans : list string) (o : Obj) : Obj * option Exn :=
  if Robust.isConnecting o.1.1 then (log LogInfo "🔄 이미 연결 시도 중..." o, None)
  else if Robust.isConnected o.1 then (log LogInfo "✅ 이미 연결됨" o, None)
  else
    let o := this (Robust.set_isConnecting true) o in
    let o := this (Robust.set_channels chans) o in
    let o := this (Robust.set_shouldReconnect true) o in
    let channelsParam := String.concat "," chans in
    let wsUrl := Robust.url o.1.1 +:+ "/" +:+ Robust.clientId o.1.1 +:+ "?channels=" +:+
                 channelsParam in
    let o := log LogInfo "🔌 WebSocket 연결 시도:" o in
    let o := log LogInfo "📡 채널:" o in
    let o := log LogInfo "🔄 재연결 시도:" o in
    match WebSocket_rejects wsUrl with
    | None =>
        let '(i, w) := new_WebSocket wsUrl o.1.2 in
        let σ := Robust.this (Robust.set_ws (Some i)) (o.1.1, w) in
        ((Robust.setupWebSocketEvents σ, o.2), None)
    | Some error =>
        let o := log LogError "❌ WebSocket 생성 실패:" o in
        let o := this (Robust.set_isConnecting false) o in
        match emit "error" [JError error] o with
        | (o, Some thrown) => (o, Some thrown)
        | (o, None) => scheduleReconnect o
        end
    end.

(** [send(data)], for the payload object that [data] refers to: the boolean
    returned, or the exception that leaves [send]. *)
Definition send (data : nat) (o : Obj) : Obj * (Exn + bool) :=
  match Robust.open_socket o.1 with
  | Some i =>
      let message :=
        obj_set "client_id" (JStr (Robust.clientId o.1.1))
          (obj_set "timestamp" (JStr (now o.1.2)) (spread (deref data o.1.2))) in
      match JSON_stringify (JObj message) with
      | inr frame =>
          let σ := Robust.env (socket_send i frame) o.1 in
          let σ := Robust.log LogInfo "📤 메시지 전송:" σ in
          ((σ, o.2), inr true)
      | inl error =>
          let o := log LogError "❌ 메시지 전송 실패:" o in
          match emit "error" [JError error] o with
          | (o, Some thrown) => (o, inl thrown)
          | (o, None) => (o, inr false)
          end
      end
  | None =>
      let o := log LogError "❌ WebSocket 연결되지 않음" o in
      if Robust.shouldReconnect o.1.1 && negb (Robust.isConnecting o.1.1) then
        let o := log LogInfo "🔄 메시지 전송 실패로 인한 재연결 시도" o in
        match connect (Robust.channels o.1.1) o with
        | (o, Some thrown) => (o, inl thrown)
        | (o, None) => (o, inr false)
        end
      else (o, inr false)
  end.

End WithListeners.

End RobustListeners.

(** ** The hook [useWebSocket] (src/hooks/useWebSocket_enhanced.ts)

    The hook keeps six pieces of React state and subscribes one handler per
    event of the service.  A handler runs when the service dispatches its
    event; the state updates it queues are applied in order, so the state
    after a handler is the handler's updates applied to the state before. *)

Module UseWebSocket.

(** One field per [useState]. *)
Record State := {
  isConnected : bool;
  connectionStatus : string;
  progress : JSValue;
  results : list JSValue;
  alerts : list JSValue;
  notifications : list JSValue
}.

(** The initial values given to [useState]. *)
Definition initial : State :=
  {| isConnected := false; connectionStatus := "disconnected"; progress := JNull;
     results := []; alerts := []; notifications := [] |}.

Definition setIsConnected (v : bool) (st : State) : State :=
  {| isConnected := v; connectionStatus := connectionStatus st; progress := progress st;
     results := results st; alerts := alerts st; notifications := notifications st |}.

Definition setConnectionStatus (v : string) (st : State) : State :=
  {| isConnected := isConnected st; connectionStatus := v; progress := progress st;
     results := results st; alerts := alerts st; notifications := notifications st |}.

(** [setProgress], [setResults], [setAlerts] and [setNotifications] with an
    updater function; [setProgress(v)] is [setProgress (fun _ => v)]. *)
Definition setProgress (f : JSValue -> JSValue) (st : State) : State :=
  {| isConnected := isConnected st; connectionStatus := connectionStatus st;
     progress := f (progress st);
     results := results st; alerts := alerts st; notifications := notifications st |}.

Definition setResults (f : list JSValue -> list JSValue) (st : State) : State :=
  {| isConnected := isConnected st; connectionStatus := connectionStatus st;
     progress := progress st;
     results := f (results st); alerts := alerts st; notifications := notifications st |}.

Definition setAlerts (f : list JSValue -> list JSValue) (st : State) : State :=
  {| isConnected := isConnected st; connectionStatus := connectionStatus st;
     progress := progress st;
     results := results st; alerts := f (alerts st); notifications := notifications st |}.

Definition setNotifications (f : list JSValue -> list JSValue) (st : State) : State :=
  {| isConnected := isConnected st; connectionStatus := connectionStatus st;
     progress := progress st;
     results := results st; alerts := alerts st; notifications := f (notifications st) |}.

Definition handleConnected (st : State) : State :=
  setConnectionStatus "connected" (setIsConnected true st).

Definition handleDisconnected (st : State) : State :=
  setConnectionStatus "disconnected" (setIsConnected false st).

Definition handleProgress (progressData : JSValue) (st : State) : State :=
  setProgress (fun _ => progressData) st.

(** [setResults(prev => [...prev, result])] *)
Definition handleResult (result : JSValue) (st : State) : State :=
  setResults (fun prev => prev ++ [result]) st.

(** [prev ? { ...prev, status: 'completed', progress: 100 } : null] *)
Definition handleComplete (data : JSValue) (st : State) : State :=
  setProgress (fun prev =>
    if truthy prev
    then JObj (obj_set "progress" (JNum 100)
                 (obj_set "status" (JStr "completed") (spread prev)))
    else JNull) st.

(** [{ ...alert, timestamp: new Date().toISOString() }] goes to the front. *)
Definition handleAlert (clock : string) (alert : JSValue) (st : State) : State :=
  setAlerts (fun prev => JObj (obj_set "timestamp" (JStr clock) (spread alert)) :: prev) st.

Definition handleNotification (clock : string) (notification : JSValue) (st : State)
    : State :=
  setNotifications (fun prev =>
    JObj (obj_set "timestamp" (JStr clock) (spread notification)) :: prev) st.

Definition handleReady (data : JSValue) (st : State) : State :=
  setConnectionStatus "ready" st.

Definition handleMaxReconnectAttempts (st : State) : State :=
  setConnectionStatus "failed" st.

Definition clearResults (st : State) : State := setResults (fun _ => []) st.
Definition clearAlerts (st : State) : State := setAlerts (fun _ => []) st.
Definition clearNotifications (st : State) : State := setNotifications (fun _ => []) st.

Section WithHost.
Context `{!Host}.

(** The message [handleError] extracts from whatever came with the event.
    [JSON.stringify] may throw; the message need not be a string. *)
Definition errorMsg (error : JSValue) : Exn + JSValue :=
  if truthy error then
    match error with
    | JStr s => inr (JStr s)
    | _ =>
        let message := match get_prop error "message" with inr v => v | inl _ => JUndefined end in
        let details := match get_prop error "details" with inr v => v | inl _ => JUndefined end in
        if truthy message then inr message
        else if truthy details then
          match JSON_stringify details with inr s => inr (JStr s) | inl e => inl e end
        else
          match JSON_stringify error with inr s => inr (JStr s) | inl e => inl e end
    end
  else inr (JStr "알 수 없는 WebSocket 오류").

(** [handleError]: when the message cannot be computed the handler throws
    before it reaches [setProgress]. *)
Definition handleError (error : JSValue) (st : State) : State * option Exn :=
  match errorMsg error with
  | inr msg =>
      (setProgress (fun prev =>
         if truthy prev
         then JObj (obj_set "error" msg (obj_set "status" (JStr "failed") (spread prev)))
         else JNull) st, None)
  | inl e => (st, Some e)
  end.

(** The subscriptions made by the effect: the handler run for an event of the
    service, given the clock and the event's arguments.  Events the hook has
    not subscribed to leave it as it is. *)
Definition on_event (clock : string) (event : string) (args : list JSValue) (st : State)
    : State * option Exn :=
  let arg := default JUndefined (head args) in
  if String.eqb event "connected" then (handleConnected st, None)
  else if String.eqb event "disconnected" then (handleDisconnected st, None)
  else if String.eqb event "progress" then (handleProgress arg st, None)
  else if String.eqb event "result" then (handleResult arg st, None)
  else if String.eqb event "complete" then (handleComplete arg st, None)
  else if String.eqb event "error" then handleError arg st
  else if String.eqb event "alert" then (handleAlert clock arg st, None)
  else if String.eqb event "notification" then (handleNotification clock arg st, None)
  else if String.eqb event "ready" then (handleReady arg st, None)
  else if String.eqb event "maxReconnectAttemptsReached" then
    (handleMaxReconnectAttempts st, None)
  else (st, None).

(** The state after a sequence of dispatched events, each with the time of
    its dispatch; an exception thrown by a handler is the emitter's to deal
    with, and the state is the one the handler left. *)
Definition on_events (ds : list (string * string * list JSValue)) (st : State) : State :=
  foldl (fun st d => (on_event d.1.1 d.1.2 d.2 st).1) st ds.

End WithHost.

End UseWebSocket.

(** * The vocabulary of the statements *)

Section EmitterFactsDefs.

Context {Cb : Type} `{!EqDecision Cb} {Store : Type}.

Variable call :
  Cb -> list JSValue -> gmap string (list Cb) * Store ->
  gmap string (list Cb) * Store * option Exn.

Import SimpleEventEmitter.

(** The console line written for a callback that threw. *)
Definition listener_error_line (event : string) : LogEntry :=
  (LogError, "Error in event listener for " +:+ event +:+ ":").

(** The invocation records of [cbs], called with [args], with the given
    outcomes. *)
Definition invocations (args : list JSValue) (cbs : list Cb)
    (outcomes : list (option Exn)) : list (Cb * list JSValue * option Exn) :=
  zip_with (fun cb o => (cb, args, o)) cbs outcomes.

(** What the callbacks [cbs] do when each of them is run, in order, on the
    listeners and the store that the one before it left, whether that one
    returned or threw: the listeners and the store in the end, and the
    outcome of every call. *)
Fixpoint run_all (args : list JSValue) (cbs : list Cb)
    (env : gmap string (list Cb) * Store)
    : gmap string (list Cb) * Store * list (option Exn) :=
  match cbs with
  | [] => (env.1, env.2, [])
  | cb :: cbs' =>
      let r := call cb args env in
      let rest := run_all args cbs' (r.1.1, r.1.2) in
      (rest.1.1, rest.1.2, r.2 :: rest.2)
  end.

(** The console lines for the outcomes of a series of calls: one for each
    exception. *)
Definition error_lines (event : string) (outcomes : list (option Exn)) : list LogEntry :=
  (fun _ => listener_error_line event) <$> filter is_Some outcomes.

End EmitterFactsDefs.

Section EnvironmentFactsDefs.

Context {H C : Type}.

Implicit Types (w : World H C) (t : Timer C).

(** Handles are fresh: every pending timer was issued before [next_timer],
    and no two pending timers share a handle. *)
Definition timers_wf w : Prop :=
  (forall t, t ∈ timers w -> (timer_id t < next_timer w)%nat) /\
  NoDup (timer_id <$> timers w).

(** Every pending timer whose callback satisfies [P] is the one behind the
    handle [h]. *)
Definition tracked (P : C -> Prop) (h : option nat) w : Prop :=
  forall t, t ∈ timers w -> P (callback t) -> h = Some (timer_id t).

End EnvironmentFactsDefs.

Section RobustInvariantDefs.

Context `{!Host}.

Import Robust.

(** The reconnect timer and the ping interval are the only pending timers of
    their kind, and they are the ones the service holds handles to. *)
Definition Inv (σ : Sys) : Prop :=
  timers_wf σ.2 /\
  tracked (eq ReconnectCb) (reconnectTimer σ.1) σ.2 /\
  tracked (eq PingCb) (pingTimer σ.1) σ.2.

End RobustInvariantDefs.

Section RobustEquationsDefs.

Context `{!Host}.

Import Robust.

(** The address [connect] opens. *)
Definition target (s : State) (chans : list string) : string :=
  url s +:+ "/" +:+ clientId s +:+ "?channels=" +:+ String.concat "," chans.

End RobustEquationsDefs.

Section RobustBackoffDefs.

Context `{!Host}.

Import Robust.


(** The timer behind [this.reconnectTimer] fires. *)
Definition retry (σ : Sys) : Sys :=
  match reconnectTimer σ.1 with
  | Some id => step (EvTimer id) σ
  | None => σ
  end.



Definition disconnected_event (code : Z) : string * list JSValue :=
  ("disconnected", [JObj [("code", JNum code); ("reason", JStr EmptyString);
                          ("wasClean", JBool false)]]).

End RobustBackoffDefs.

Section FixedInvariantDefs.

Context `{!Host}.

Import Fixed.

(** The reconnect timer is the only pending timer of its kind, and it is the
    one the service holds the handle to. *)
Definition FInv (σ : Sys) : Prop :=
  timers_wf σ.2 /\ tracked (fun c => is_reconnect c = true) (reconnectTimer σ.1) σ.2.

End FixedInvariantDefs.

(** The double-quote character. *)
Definition dq : string := String (Ascii.Ascii false true false false false true false false) EmptyString.

(** A plain JSON rendering (no escaping), enough for the sample frames. *)
Fixpoint render (v : JSValue) : string :=
  match v with
  | JUndefined => "undefined"
  | JNull => "null"
  | JBool b => if b then "true" else "false"
  | JNum n => pretty n
  | JStr s => dq +:+ s +:+ dq
  | JArr items =>
      "[" +:+ (fix go (l : list JSValue) : string :=
                 match l with
                 | [] => EmptyString
                 | [x] => render x
                 | x :: l' => render x +:+ "," +:+ go l'
                 end) items +:+ "]"
  | JObj fields =>
      "{" +:+ (fix go (l : list (string * JSValue)) : string :=
                 match l with
                 | [] => EmptyString
                 | [(k, x)] => dq +:+ k +:+ dq +:+ ":" +:+ render x
                 | (k, x) :: l' => dq +:+ k +:+ dq +:+ ":" +:+ render x +:+ "," +:+ go l'
                 end) fields +:+ "}"
  | JError _ => "{}"
  end.

Definition progress_frame : JSValue :=
  JObj [("type", JStr "progress");
        ("data", JObj [("processed", JNum 5); ("total", JNum 10)])].

Definition unknown_frame : JSValue :=
  JObj [("type", JStr "heartbeat"); ("data", JNum 1)].

(** The frames the sample host can parse. *)
Definition sample_frames : list JSValue := [progress_frame; unknown_frame; JNull].

Definition sample_parse (text : string) : Exn + JSValue :=
  match list_find (fun v => render v = text) sample_frames with
  | Some (_, v) => inr v
  | None => inl {| exn_name := "SyntaxError"; exn_message := "Unexpected token" |}
  end.

(** A host for the closed examples: it parses the sample frames, renders
    every value, and accepts every address. *)
Definition sample_host : Host :=
  {| JSON_parse := sample_parse;
     JSON_stringify := fun v => inr (render v);
     WebSocket_rejects := fun _ => None;
     Unhandled_error := fun _ => new_Error "Unhandled error." |}.

(** A page that has just been loaded. *)
Definition fresh_world {H C : Type} : World H C :=
  {| sockets := []; timers := []; next_timer := 1; now := "2025-01-01T00:00:00.000Z";
     heap := []; console := []; emitted := [] |}.

Definition robust0 : Robust.Sys :=
  (Robust.new_service "ws://localhost:8002/ws" "airiss-client", fresh_world).

Definition fixed0 : Fixed.Sys :=
  (Fixed.new_service "ws://localhost:8002/ws" "react-client", fresh_world).

(** Every frame handed to [ws.send] on any socket. *)
Definition frames_written {H C : Type} (w : World H C) : list string :=
  concat (sent <$> sockets w).

Section FixedEquationsDefs.

Context `{!Host}.

Import Fixed.

Definition Fixed_target (s : State) (chans : list string) : string :=
  url s +:+ "/" +:+ clientId s +:+ "?channels=" +:+ String.concat "," chans.

End FixedEquationsDefs.

(** The [type] values with a [case] of their own in [handleMessage]. *)
Definition Robust_recognized : list string :=
  ["progress"; "result"; "complete"; "error"; "alert"; "notification";
   "connection_established"; "ready"; "pong"].

Definition Fixed_recognized : list string :=
  ["progress"; "result"; "complete"; "error"; "alert"; "notification";
   "connection_established"; "pong"].

Definition Enhanced_recognized : list string :=
  ["ready"; "connection"; "progress"; "result"; "complete"; "error"; "alert";
   "notification"; "pong"].

(** The value of [data.type] is none of the given tags. *)
Definition unrecognized (known : list string) (ty : JSValue) : Prop :=
  forall s, ty = JStr s -> s ∉ known.

Ltac refute_tags Hn :=
  repeat match goal with
  | |- context [String.eqb ?s ?tag] =>
      destruct (String.eqb_spec s tag) as [->|_];
      [exfalso; apply (Hn _ eq_refl); set_solver|]
  end.

Section SendDefs.

Context `{!Host}.

(** The object [send] builds from the payload in the robust service... *)
Definition Robust_message (data : nat) (σ : Robust.Sys) : JSObject :=
  obj_set "client_id" (JStr (Robust.clientId σ.1))
    (obj_set "timestamp" (JStr (now σ.2)) (spread (deref data σ.2))).

(** ... and in the fixed one. *)
Definition Fixed_message (data : nat) (σ : Fixed.Sys) : JSObject :=
  obj_set "timestamp" (JStr (now σ.2)) (spread (deref data σ.2)).

End SendDefs.

(** The fixed service connects, its socket opens and is then closed
    abnormally. *)
Definition fixed_open_then_close : list Fixed.Event :=
  [Fixed.CallConnect ["analysis"; "alerts"]; Fixed.EvOpen 0;
   Fixed.EvClose 0 1006 EmptyString false].

(** The pending timers created by [scheduleReconnect]. *)
Definition Robust_pending_reconnect (w : World () Robust.TimerCb) : list (Timer Robust.TimerCb) :=
  filter (fun t => Robust.ReconnectCb = callback t) (timers w).

Definition Fixed_pending_reconnect (w : World (list string) Fixed.TimerCb)
    : list (Timer Fixed.TimerCb) :=
  filter (fun t => Fixed.is_reconnect (callback t) = true) (timers w).

(** The events that are not calls by the application to [connect],
    [forceReconnect] or [testConnection]. *)
Definition Robust_host_event (e : Robust.Event) : Prop :=
  match e with
  | Robust.CallConnect _ | Robust.CallForceReconnect | Robust.CallTestConnection => False
  | _ => True
  end.

(** Reconnection is switched off, [n] sockets exist, and no timer of
    [forceReconnect] is pending. *)
Definition Robust_stopped (n : nat) (σ : Robust.Sys) : Prop :=
  Robust.shouldReconnect σ.1 = false /\
  length (sockets σ.2) = n /\
  forall t, t ∈ timers σ.2 -> callback t <> Robust.ForceReconnectCb.

(** The events that are not calls by the application to [connect] or
    [resetRetryCount]. *)
Definition Fixed_host_event (e : Fixed.Event) : Prop :=
  match e with
  | Fixed.CallConnect _ | Fixed.CallResetRetryCount => False
  | _ => True
  end.

(** No socket is still connecting. *)
Definition none_connecting {H C : Type} (w : World H C) : Prop :=
  Forall (fun k => readyState k <> CONNECTING) (sockets w).

(** The retry budget is used up, [n] sockets exist, and none of them is
    still connecting. *)
Definition Fixed_stopped (n : nat) (σ : Fixed.Sys) : Prop :=
  (Fixed.maxRetryAttempts σ.1 <= Fixed.retryCount σ.1)%Z /\
  length (sockets σ.2) = n /\
  none_connecting σ.2.

(** The payload of a ping, as the application would pass it to [send]. *)
Definition ping_payload : JSValue := JObj [("type", JStr "ping")].

(** A payload that carries a [timestamp] of its own. *)
Definition stamped_payload : JSValue :=
  JObj [("type", JStr "ping"); ("timestamp", JStr "1999-12-31T23:59:59.000Z")].

(** A page on which the application holds a ping payload, never connected. *)
Definition robust_idle : Robust.Sys :=
  @Robust.run sample_host [Robust.EvAlloc ping_payload] robust0.

(** Connected and open, with a payload allocated by the application. *)
Definition robust_open (payload : JSValue) : Robust.Sys :=
  @Robust.run sample_host
    [Robust.CallConnect ["analysis"; "alerts"]; Robust.EvOpen 0; Robust.EvAlloc payload]
    robust0.

Definition fixed_open (payload : JSValue) : Fixed.Sys :=
  @Fixed.run sample_host
    [Fixed.CallConnect ["analysis"; "alerts"]; Fixed.EvOpen 0; Fixed.EvAlloc payload]
    fixed0.

(** Connected, opened, then disconnected by the application. *)
Definition robust_disconnected : Robust.Sys :=
  @Robust.run sample_host
    [Robust.CallConnect ["analysis"; "alerts"]; Robust.EvOpen 0; Robust.CallDisconnect]
    robust0.

Definition enhanced0 : Enhanced.Sys :=
  (Enhanced.new_service "ws://localhost:8002/ws" "react-client", fresh_world).

(** The exception of the sample host's parser. *)
Definition syntax_error : Exn :=
  {| exn_name := "SyntaxError"; exn_message := "Unexpected token" |}.

(** Three callbacks, numbered; the second one throws. *)
Definition sample_call (cb : nat) (args : list JSValue)
    (env : gmap string (list nat) * nat) : gmap string (list nat) * nat * option Exn :=
  if decide (cb = 1%nat)
  then (env.1, env.2, Some {| exn_name := "TypeError"; exn_message := "undefined" |})
  else (env.1, S env.2, None).

Definition sample_emitter : SimpleEventEmitter.St nat nat :=
  SimpleEventEmitter.on "progress" 2%nat
    (SimpleEventEmitter.on "progress" 1%nat
       (SimpleEventEmitter.on "progress" 0%nat
          {| SimpleEventEmitter.listeners := ∅; SimpleEventEmitter.store := 0%nat;
             SimpleEventEmitter.console := []; SimpleEventEmitter.calls := [] |})).

(** The pending intervals created by [startPingInterval]. *)
Definition Robust_pending_ping (w : World () Robust.TimerCb) : list (Timer Robust.TimerCb) :=
  filter (fun t => Robust.PingCb = callback t) (timers w).

(** A host whose [WebSocket] constructor rejects every address. *)
Definition rejecting_host : Host :=
  {| JSON_parse := sample_parse;
     JSON_stringify := fun v => inr (render v);
     WebSocket_rejects := fun _ => Some syntax_error;
     Unhandled_error := fun _ => new_Error "Unhandled error." |}.

(** A host whose [JSON.stringify] throws, as it does on a cyclic object. *)
Definition cyclic_error : Exn :=
  {| exn_name := "TypeError"; exn_message := "Converting circular structure to JSON" |}.

Definition unserialisable_host : Host :=
  {| JSON_parse := sample_parse;
     JSON_stringify := fun _ => inl cyclic_error;
     WebSocket_rejects := fun _ => None;
     Unhandled_error := fun _ => new_Error "Unhandled error." |}.

(** The enhanced service, connected and open, with a payload allocated by the
    application. *)
Definition enhanced_open (payload : JSValue) : Enhanced.Sys :=
  @Enhanced.run sample_host
    [Enhanced.CallConnect ["analysis"; "alerts"]; Enhanced.EvOpen 0;
     Enhanced.EvAlloc payload] enhanced0.

(** The object [send] builds from the payload in the enhanced service. *)
Definition Enhanced_message (data : nat) (σ : Enhanced.Sys) : JSObject :=
  obj_set "client_id" (JStr (Enhanced.clientId σ.1))
    (obj_set "timestamp" (JStr (now σ.2)) (spread (deref data σ.2))).

Ltac status_leaf :=
  split; intros ?;
  first [ done
        | by apply bool_decide_eq_true; eexists
        | exfalso;
          match goal with
          | Hb : bool_decide _ = true |- _ =>
              apply bool_decide_eq_true in Hb as [? ?]; done
          end ].

(** The message of a heartbeat: the literal's own [timestamp] is overwritten
    by the one [send] adds. *)
Definition Robust_ping_message (σ : Robust.Sys) : JSValue :=
  JObj [("type", JStr "ping"); ("timestamp", JStr (now σ.2));
        ("client_id", JStr (Robust.clientId σ.1))].

(** The names every object inherits from [Object.prototype].  The private
    [listeners] object is a plain [{}]: for these names [this.listeners[event]]
    finds the inherited member and not a list of callbacks, and [on], [off]
    and [emit] throw a [TypeError].  The statements below are about every other
    event name, for which the lookup is a lookup among the object's own
    keys. *)
Definition Object_prototype_members : list string :=
  ["constructor"; "__defineGetter__"; "__defineSetter__"; "hasOwnProperty";
   "__lookupGetter__"; "__lookupSetter__"; "isPrototypeOf"; "propertyIsEnumerable";
   "toString"; "valueOf"; "__proto__"; "toLocaleString"].

Definition own_key (event : string) : Prop := event ∉ Object_prototype_members.

(** The callbacks registered for an event, in registration order. *)
Definition registered {Cb Store : Type} (event : string)
    (st : SimpleEventEmitter.St Cb Store) : list Cb :=
  default [] (SimpleEventEmitter.listeners st !! event).

(** The reconnect timer and the ping interval of the enhanced service are
    the only pending timers of their kind, and they are the ones the service
    holds handles to. *)
Definition EInv (σ : Enhanced.Sys) : Prop :=
  timers_wf σ.2 /\
  tracked (eq Enhanced.ReconnectCb) (Enhanced.reconnectTimer σ.1) σ.2 /\
  tracked (eq Enhanced.PingCb) (Enhanced.pingTimer σ.1) σ.2.

Definition Enhanced_pending_reconnect (w : World () Enhanced.TimerCb)
    : list (Timer Enhanced.TimerCb) :=
  filter (fun t => Enhanced.ReconnectCb = callback t) (timers w).

Definition Enhanced_pending_ping (w : World () Enhanced.TimerCb)
    : list (Timer Enhanced.TimerCb) :=
  filter (fun t => Enhanced.PingCb = callback t) (timers w).

(** The address [connect] opens in the enhanced service. *)
Definition Enhanced_target (s : Enhanced.State) (chans : list string) : string :=
  Enhanced.url s +:+ "/" +:+ Enhanced.clientId s +:+ "?channels=" +:+ String.concat "," chans.

(** The events that are not calls by the application to [connect] or
    [enableReconnect]. *)
Definition Enhanced_host_event (e : Enhanced.Event) : Prop :=
  match e with
  | Enhanced.CallConnect _ | Enhanced.CallEnableReconnect => False
  | _ => True
  end.

(** Reconnection is switched off and [n] sockets exist. *)
Definition Enhanced_stopped (n : nat) (σ : Enhanced.Sys) : Prop :=
  Enhanced.shouldReconnect σ.1 = false /\ length (sockets σ.2) = n.

(** The object [handleConnectionError] dispatches with the ['error'] event. *)
Definition Fixed_error_info (message : string) (attempt maxAttempts : Z) (timestamp : string)
    : JSValue :=
  JObj [("message", JStr message); ("type", JStr "connection_error");
        ("attempt", JNum attempt); ("maxAttempts", JNum maxAttempts);
        ("timestamp", JStr timestamp)].

(** The messages of [notifyAnalysisStart] and [subscribeToChannel] as the
    robust service sends them. *)
Definition Robust_analysis_start_message (jobId : string) (σ : Robust.Sys) : JSValue :=
  JObj [("type", JStr "analysis_start"); ("jobId", JStr jobId);
        ("message", JStr "Analysis started"); ("timestamp", JStr (now σ.2));
        ("client_id", JStr (Robust.clientId σ.1))].

Definition Robust_subscribe_message (channel : string) (σ : Robust.Sys) : JSValue :=
  JObj [("type", JStr "subscribe"); ("channel", JStr channel);
        ("timestamp", JStr (now σ.2)); ("client_id", JStr (Robust.clientId σ.1))].

(** The socket [k] after one more frame has been handed to it. *)
Definition with_frame {H : Type} (frame : string) (k : Socket H) : Socket H :=
  {| sock_url := sock_url k; sock_protocol := sock_protocol k;
     readyState := readyState k; handlers := handlers k;
     sent := sent k ++ [frame]; closeCalls := closeCalls k |}.

(** The events of a run in which the server only ever closes connections:
    no error event, and no [disconnect] by the application. *)
Definition Fixed_close_only (e : Fixed.Event) : Prop :=
  match e with
  | Fixed.EvError _ _ | Fixed.CallDisconnect => False
  | _ => True
  end.

(** The retry counter is 0, the configuration is the initial one, and every
    pending timer is a reconnect timer set for half of [r]. *)
Definition Fixed_uncounted (r : Q) (σ : Fixed.Sys) : Prop :=
  Fixed.retryCount σ.1 = 0%Z /\
  (Fixed.reconnectInterval σ.1 = r /\ Fixed.maxRetryAttempts σ.1 = 3%Z) /\
  forall t, t ∈ timers σ.2 ->
    Fixed.is_reconnect (callback t) = true /\ delay t = (r * 2 ^ (0 - 1))%Q.

Ltac on_event_cases event :=
  unfold UseWebSocket.on_event;
  repeat match goal with
  | |- context [String.eqb event ?s] =>
      destruct (String.eqb_spec event s) as [->|?]; [try done|]
  end.

Section HookFactsDefs.

Context `{!Host}.

Import UseWebSocket.

(** The first argument of a dispatch, as the handler receives it. *)
Definition payload (d : string * string * list JSValue) : JSValue :=
  default JUndefined (head d.2).

(** The dispatches of one event among a sequence. *)
Definition dispatches_of (event : string) (ds : list (string * string * list JSValue))
    : list (string * string * list JSValue) :=
  filter (fun d => d.1.2 = event) ds.

(** The entry the hook stores for an alert or a notification. *)
Definition stamped (d : string * string * list JSValue) : JSValue :=
  JObj (obj_set "timestamp" (JStr d.1.1) (spread (payload d))).

End HookFactsDefs.

(** The state in which the [catch] block of [connect] calls [emit]. *)
Definition caught (chans : list string) (σ : Robust.Sys) : Robust.Sys :=
  Robust.this (Robust.set_isConnecting false)
    (Robust.log LogError "❌ WebSocket 생성 실패:"
       (Robust.log LogInfo "🔄 재연결 시도:"
          (Robust.log LogInfo "📡 채널:"
             (Robust.log LogInfo "🔌 WebSocket 연결 시도:"
                (Robust.this (Robust.set_shouldReconnect true)
                   (Robust.this (Robust.set_channels chans)
                      (Robust.this (Robust.set_isConnecting true) σ))))))).

(** An emitter on which nothing is registered, and one with three listeners
    for ['progress'], registered in the order of their numbers. *)
Definition no_listeners : EventEmitter.St nat nat :=
  {| EventEmitter.listeners := ∅; EventEmitter.store := 0%nat; EventEmitter.calls := [] |}.

Definition sample_listeners : EventEmitter.St nat nat :=
  EventEmitter.on "progress" 2%nat
    (EventEmitter.on "progress" 1%nat (EventEmitter.on "progress" 0%nat no_listeners)).

(** The exception of the second sample callback. *)
Definition type_error : Exn := {| exn_name := "TypeError"; exn_message := "undefined" |}.

(** A connection is opened, and dropped by the application; a second one is
    begun, and then the close event of the first socket arrives. *)
Definition robust_late_close : list Robust.Event :=
  [Robust.CallConnect ["analysis"; "alerts"]; Robust.EvOpen 0; Robust.CallDisconnect;
   Robust.CallConnect ["analysis"; "alerts"];
   Robust.EvClose 0 1000 "Normal closure by client" true].

Definition fixed_late_close : list Fixed.Event :=
  [Fixed.CallConnect ["analysis"; "alerts"]; Fixed.EvOpen 0; Fixed.CallDisconnect;
   Fixed.CallConnect ["analysis"; "alerts"]; Fixed.EvClose 0 1000 "Normal closure" true].

(** A connection is open; the application asks for a forced reconnect and,
    within the second that follows, disconnects. *)
Definition robust_forced_then_disconnected : list Robust.Event :=
  [Robust.CallConnect ["analysis"; "alerts"]; Robust.EvOpen 0; Robust.CallForceReconnect;
   Robust.CallDisconnect].

(** A connection attempt is abandoned for another one while its socket is
    still connecting (its predecessor's close event came late), and the
    application disconnects; then the abandoned socket opens and is closed
    abnormally, and the timer this sets fires. *)
Definition fixed_disconnected_with_stale_socket : list Fixed.Event :=
  [Fixed.CallConnect ["analysis"; "alerts"]; Fixed.CallDisconnect;
   Fixed.CallConnect ["analysis"; "alerts"]; Fixed.EvClose 0 1006 EmptyString false;
   Fixed.CallConnect ["analysis"; "alerts"]; Fixed.CallDisconnect].

Definition fixed_stale_socket_reconnects : list Fixed.Event :=
  [Fixed.EvOpen 1; Fixed.EvClose 1 1006 EmptyString false; Fixed.EvTimer 1].

(** * Properties *)

(** ** SimpleEventEmitter: fan-out is isolated per callback *)

Section EmitterIteration.

Context {Cb : Type} `{!EqDecision Cb} {Store : Type}.

Variable call :
  Cb -> list JSValue -> gmap string (list Cb) * Store ->
  gmap string (list Cb) * Store * option Exn.

Import SimpleEventEmitter.

(** The guarded iteration visits every element, whatever each call does. *)
Lemma forEach_invoke_total (event : string) (args : list JSValue) (cbs : list Cb) :
  forall st : St Cb Store,
  exists outcomes : list (option Exn),
    length outcomes = length cbs /\
    (forEach (invoke call event args) cbs st).2 = None /\
    calls (forEach (invoke call event args) cbs st).1
      = calls st ++ invocations args cbs outcomes /\
    console (forEach (invoke call event args) cbs st).1
      = console st ++ ((fun _ => listener_error_line event) <$> filter is_Some outcomes).
Proof.
  induction cbs as [|cb cbs IH]; intros st.
  - exists []. cbn. rewrite !app_nil_r. done.
  - cbn [forEach]. unfold invoke at 1 3 5.
    destruct (call cb args (listeners st, store st)) as [[ls sto] [e|]] eqn:Hc.
    + match goal with |- context [forEach _ cbs ?s] => destruct (IH s) as (os & Hlen & Hr & Hcalls & Hcons) end.
      exists (Some e :: os). rewrite Hr, Hcalls, Hcons.
      rewrite filter_cons_True by (by eexists).
      split; [cbn; lia|]. split; [done|].
      split; cbn; rewrite <- app_assoc; done.
    + match goal with |- context [forEach _ cbs ?s] => destruct (IH s) as (os & Hlen & Hr & Hcalls & Hcons) end.
      exists (None :: os). rewrite Hr, Hcalls, Hcons.
      rewrite filter_cons_False by (intros [? ?]; discriminate).
      split; [cbn; lia|]. split; [done|].
      split; cbn; [rewrite <- app_assoc|]; done.
Qed.

End EmitterIteration.

Section EnvironmentFacts.

Context {H C : Type}.

Implicit Types (w : World H C) (t : Timer C).

Lemma lookup_update_socket_eq i f w k :
  sockets w !! i = Some k -> sockets (update_socket i f w) !! i = Some (f k).
Proof.
  intros Hk. cbn. rewrite Hk. apply list_lookup_insert_eq. by eapply lookup_lt_Some.
Qed.

Lemma lookup_update_socket_ne i j f w :
  i <> j -> sockets (update_socket i f w) !! j = sockets w !! j.
Proof.
  intros Hij. cbn. destruct (sockets w !! i); [|done].
  by apply list_lookup_insert_ne.
Qed.

Lemma length_update_socket i f w :
  length (sockets (update_socket i f w)) = length (sockets w).
Proof. cbn. destruct (sockets w !! i); [|done]. apply length_insert. Qed.

Lemma timers_wf_clear id w : timers_wf w -> timers_wf (clear_timer id w).
Proof.
  intros [Hlt Hnd]. split; cbn.
  - intros t [_ Ht]%list_elem_of_filter. by apply Hlt.
  - apply (sublist_NoDup _ (timer_id <$> timers w)); [exact Hnd|].
    apply fmap_sublist, sublist_filter.
Qed.

Lemma timers_wf_set cb d w : timers_wf w -> timers_wf (set_timer cb d w).2.
Proof.
  intros [Hlt Hnd]. split; cbn.
  - intros t [Ht| ->%list_elem_of_singleton]%elem_of_app; [|cbn; lia].
    specialize (Hlt _ Ht). lia.
  - rewrite fmap_app. apply NoDup_app. split; [done|]. split; [|apply NoDup_singleton].
    intros x (t & -> & Ht)%list_elem_of_fmap Hx. cbn in Hx.
    apply list_elem_of_singleton in Hx. specialize (Hlt _ Ht). lia.
Qed.

Lemma tracked_clear_other P h id w : tracked P h w -> tracked P h (clear_timer id w).
Proof. intros Htr t [_ Ht]%list_elem_of_filter. by apply Htr. Qed.

Lemma tracked_clear P id h w : tracked P (Some id) w -> tracked P h (clear_timer id w).
Proof.
  intros Htr t [Hne Ht]%list_elem_of_filter HP.
  specialize (Htr t Ht HP). congruence.
Qed.

Lemma tracked_set P cb d w :
  tracked P None w -> tracked P (Some (next_timer w)) (set_timer cb d w).2.
Proof.
  intros Htr t [Ht| ->%list_elem_of_singleton]%elem_of_app HP; [|done].
  by specialize (Htr t Ht HP).
Qed.

Lemma tracked_set_other P h cb d w :
  ~ P cb -> tracked P h w -> tracked P h (set_timer cb d w).2.
Proof.
  intros Hn Htr t [Ht| ->%list_elem_of_singleton]%elem_of_app HP; [by apply Htr|done].
Qed.

Lemma tracked_None_any P h w : tracked P None w -> tracked P h w.
Proof. intros Htr t Ht HP. by specialize (Htr t Ht HP). Qed.

(** At most one pending timer is tracked by a handle. *)
Lemma tracked_at_most_one (P : C -> Prop) `{!forall c, Decision (P c)} h w :
  timers_wf w -> tracked P h w ->
  (length (filter (fun t => P (callback t)) (timers w)) <= 1)%nat.
Proof.
  intros [_ Hnd] Htr.
  destruct (filter (fun t => P (callback t)) (timers w)) as [|t1 [|t2 l]] eqn:Hf;
    cbn; [lia..|exfalso].
  assert (H1 : t1 ∈ filter (fun t => P (callback t)) (timers w)) by (rewrite Hf; set_solver).
  assert (H2 : t2 ∈ filter (fun t => P (callback t)) (timers w)) by (rewrite Hf; set_solver).
  apply list_elem_of_filter in H1 as [HP1 H1], H2 as [HP2 H2].
  pose proof (Htr _ H1 HP1) as E1. pose proof (Htr _ H2 HP2) as E2.
  assert (Hid : timer_id t1 = timer_id t2) by congruence.
  assert (Hsub : NoDup (timer_id <$> filter (fun t => P (callback t)) (timers w))).
  { apply (sublist_NoDup _ (timer_id <$> timers w)); [exact Hnd|].
    apply fmap_sublist, sublist_filter. }
  rewrite Hf in Hsub. cbn in Hsub. apply NoDup_cons in Hsub as [Hn _].
  apply Hn. rewrite Hid. set_solver.
Qed.

Lemma find_timer_Some id w t : find_timer id w = Some t -> t ∈ timers w /\ timer_id t = id.
Proof.
  unfold find_timer. destruct (list_find _ _) as [[i t']|] eqn:Hf; [|done].
  cbn. intros [= ->]. apply list_find_Some in Hf as (Hl & Hid & _).
  split; [by eapply list_elem_of_lookup_2|done].
Qed.

End EnvironmentFacts.

Section RobustInvariant.

Context `{!Host}.

Import Robust.

Lemma Inv_frame (σ σ' : Sys) :
  reconnectTimer σ'.1 = reconnectTimer σ.1 -> pingTimer σ'.1 = pingTimer σ.1 ->
  timers σ'.2 = timers σ.2 -> next_timer σ'.2 = next_timer σ.2 ->
  Inv σ -> Inv σ'.
Proof.
  unfold Inv, timers_wf, tracked. intros -> -> -> ->. done.
Qed.

Lemma Inv_clearReconnectTimer σ :
  Inv σ -> Inv (clearReconnectTimer σ) /\ tracked (eq ReconnectCb) None (clearReconnectTimer σ).2.
Proof.
  destruct σ as [s w]. intros (Hwf & Hr & Hp). unfold clearReconnectTimer, Inv. cbn in *.
  destruct (reconnectTimer s) as [id|] eqn:E; cbn.
  - split; [split_and!|]; auto using timers_wf_clear, tracked_clear, tracked_clear_other.
  - rewrite E. auto.
Qed.

Lemma Inv_stopPingInterval σ :
  Inv σ -> Inv (stopPingInterval σ) /\ tracked (eq PingCb) None (stopPingInterval σ).2.
Proof.
  destruct σ as [s w]. intros (Hwf & Hr & Hp). unfold stopPingInterval, Inv. cbn in *.
  destruct (pingTimer s) as [id|] eqn:E; cbn.
  - split; [split_and!|]; auto using timers_wf_clear, tracked_clear, tracked_clear_other.
  - rewrite E. auto.
Qed.

Lemma Inv_scheduleReconnect σ : Inv σ -> Inv (scheduleReconnect σ).
Proof.
  intros HI. unfold scheduleReconnect.
  case_match; [revert HI; by apply Inv_frame|].
  destruct (Inv_clearReconnectTimer σ HI) as [(Hwf & Hr & Hp) Hn].
  destruct (clearReconnectTimer σ) as [s w]. cbn in *.
  split_and!; cbn.
  - by apply (timers_wf_set ReconnectCb _ (console_write _ _ w)).
  - by apply (tracked_set _ ReconnectCb _ (console_write _ _ w)).
  - by apply (tracked_set_other _ _ ReconnectCb _ (console_write _ _ w)).
Qed.

Lemma Inv_startPingInterval σ : Inv σ -> Inv (startPingInterval σ).
Proof.
  intros HI. unfold startPingInterval.
  destruct (Inv_stopPingInterval σ HI) as [(Hwf & Hr & Hp) Hn].
  destruct (stopPingInterval σ) as [s w]. cbn in *.
  split_and!; cbn.
  - by apply (timers_wf_set PingCb).
  - by apply (tracked_set_other _ _ PingCb).
  - by apply (tracked_set _ PingCb).
Qed.

Lemma Inv_connect chans σ : Inv σ -> Inv (connect chans σ).
Proof.
  intros HI. unfold connect, new_WebSocket, setupWebSocketEvents.
  repeat case_match; simplify_eq/=; try (revert HI; by apply Inv_frame).
  apply Inv_scheduleReconnect. revert HI. by apply Inv_frame.
Qed.

Lemma Inv_send data σ : Inv σ -> Inv (send data σ).2.
Proof.
  intros HI. unfold send.
  repeat case_match; simplify_eq/=; try (revert HI; by apply Inv_frame).
  apply Inv_connect. revert HI. by apply Inv_frame.
Qed.

Lemma Inv_send_literal fields σ : Inv σ -> Inv (send_literal fields σ).2.
Proof.
  intros HI. unfold send_literal, alloc. cbn. apply Inv_send.
  revert HI. by apply Inv_frame.
Qed.

Lemma Inv_ping_tick σ : Inv σ -> Inv (ping_tick σ).
Proof.
  intros HI. unfold ping_tick. case_match.
  - by apply Inv_send_literal.
  - apply Inv_stopPingInterval. revert HI. by apply Inv_frame.
Qed.

Lemma Inv_reconnect_tick σ : Inv σ -> Inv (reconnect_tick σ).
Proof.
  intros HI. unfold reconnect_tick. case_match; [|done].
  apply Inv_connect. revert HI. by apply Inv_frame.
Qed.

Lemma handleMessage_frame data σ :
  (handleMessage data σ).1 = σ.1 /\
  sockets (handleMessage data σ).2 = sockets σ.2 /\
  timers (handleMessage data σ).2 = timers σ.2 /\
  next_timer (handleMessage data σ).2 = next_timer σ.2 /\
  heap (handleMessage data σ).2 = heap σ.2 /\
  now (handleMessage data σ).2 = now σ.2.
Proof. unfold handleMessage. repeat case_match; done. Qed.

Lemma Inv_handleMessage data σ : Inv σ -> Inv (handleMessage data σ).
Proof.
  destruct (handleMessage_frame data σ) as (E1 & _ & E2 & E3 & _).
  apply Inv_frame; by rewrite ?E1.
Qed.

Lemma Inv_onopen σ : Inv σ -> Inv (onopen σ).
Proof.
  intros HI. unfold onopen. apply Inv_send_literal, Inv_startPingInterval.
  apply Inv_clearReconnectTimer. revert HI. by apply Inv_frame.
Qed.

Lemma Inv_onmessage text σ : Inv σ -> Inv (onmessage text σ).
Proof.
  intros HI. unfold onmessage.
  repeat case_match; try (revert HI; by apply Inv_frame).
  apply Inv_handleMessage. revert HI. by apply Inv_frame.
Qed.

Lemma Inv_onerror error σ : Inv σ -> Inv (onerror error σ).
Proof.
  intros HI. unfold onerror.
  case_match; [apply Inv_scheduleReconnect|]; revert HI; by apply Inv_frame.
Qed.

Lemma Inv_onclose code reason wasClean σ : Inv σ -> Inv (onclose code reason wasClean σ).
Proof.
  intros HI. unfold onclose.
  assert (HI' : Inv (stopPingInterval (this (set_isConnecting false)
                       (log LogInfo "🔌 WebSocket 연결 종료:" σ)))).
  { apply Inv_stopPingInterval. revert HI. by apply Inv_frame. }
  case_match; [apply Inv_scheduleReconnect|]; revert HI'; by apply Inv_frame.
Qed.

Lemma Inv_disconnect σ : Inv σ -> Inv (disconnect σ).
Proof.
  intros HI. unfold disconnect.
  assert (HI' : Inv (stopPingInterval (clearReconnectTimer
                 (this (set_shouldReconnect false) (log LogInfo "🔌 WebSocket 연결 해제" σ))))).
  { apply Inv_stopPingInterval, Inv_clearReconnectTimer. revert HI. by apply Inv_frame. }
  case_match; revert HI'; by apply Inv_frame.
Qed.

Lemma Inv_forceReconnect σ : Inv σ -> Inv (forceReconnect σ).
Proof.
  intros HI. unfold forceReconnect.
  assert (HI' : Inv (disconnect (log LogInfo "🔄 강제 재연결 시도" σ))).
  { apply Inv_disconnect. revert HI. by apply Inv_frame. }
  destruct (disconnect _) as [s w]. destruct HI' as (Hwf & Hr & Hp). cbn in *.
  split_and!; cbn.
  - by apply (timers_wf_set ForceReconnectCb).
  - by apply (tracked_set_other _ _ ForceReconnectCb).
  - by apply (tracked_set_other _ _ ForceReconnectCb).
Qed.

Lemma Inv_testConnection σ : Inv σ -> Inv (testConnection σ).
Proof.
  intros HI. unfold testConnection. destruct (isConnected σ); [done|].
  assert (HI' : Inv (connect (channels σ.1) σ)) by by apply Inv_connect.
  destruct (connect _ _) as [s w]. destruct HI' as (Hwf & Hr & Hp). cbn in *.
  split_and!; cbn.
  - by apply (timers_wf_set TestConnectionCb).
  - by apply (tracked_set_other _ _ TestConnectionCb).
  - by apply (tracked_set_other _ _ TestConnectionCb).
Qed.

Lemma Inv_clear_timer id σ : Inv σ -> Inv (env (clear_timer id) σ).
Proof.
  destruct σ as [s w]. intros (Hwf & Hr & Hp).
  split_and!; cbn; auto using timers_wf_clear, tracked_clear_other.
Qed.

Lemma Inv_fire_timer id σ : Inv σ -> Inv (fire_timer id σ).
Proof.
  intros HI. unfold fire_timer. repeat case_match; try done;
    first [ by apply Inv_reconnect_tick, Inv_clear_timer
          | by apply Inv_ping_tick
          | by apply Inv_connect, Inv_clear_timer
          | by apply Inv_clear_timer ].
Qed.

Lemma Inv_deliver i enabled after handler σ :
  (forall σ', Inv σ' -> Inv (handler σ')) -> Inv σ -> Inv (deliver i enabled after handler σ).
Proof.
  intros Hh HI. unfold deliver. repeat case_match; try done;
    try apply Hh; revert HI; by apply Inv_frame.
Qed.

Lemma Inv_step e σ : Inv σ -> Inv (step e σ).
Proof.
  intros HI. destruct e; cbn [step].
  - apply Inv_deliver; auto using Inv_onopen.
  - apply Inv_deliver; auto using Inv_onmessage.
  - apply Inv_deliver; auto using Inv_onerror.
  - apply Inv_deliver; auto using Inv_onclose.
  - by apply Inv_fire_timer.
  - revert HI. by apply Inv_frame.
  - revert HI. by apply Inv_frame.
  - by apply Inv_connect.
  - by apply Inv_disconnect.
  - by apply Inv_send.
  - by apply Inv_forceReconnect.
  - by apply Inv_testConnection.
Qed.

Lemma Inv_run es σ : Inv σ -> Inv (run es σ).
Proof.
  revert σ. induction es as [|e es IH]; intros σ HI; [done|].
  cbn. apply IH, Inv_step, HI.
Qed.

Lemma Inv_initial base cid w : timers w = [] -> Inv (new_service base cid, w).
Proof.
  intros Hw. split_and!; cbn.
  - split; rewrite Hw; [set_solver|constructor].
  - intros t. rewrite Hw. set_solver.
  - intros t. rewrite Hw. set_solver.
Qed.

End RobustInvariant.

Section EnvironmentEquations.

Context {H C : Type}.

Implicit Types (w : World H C).


Lemma update_socket_Some i f w k :
  sockets w !! i = Some k ->
  update_socket i f w = set_sockets (fun l => <[i := f k]> l) w.
Proof. intros Hk. unfold update_socket, set_sockets. by rewrite Hk. Qed.


Lemma clear_timer_singleton id t w :
  timers w = [t] -> timer_id t = id -> timers (clear_timer id w) = [].
Proof.
  intros Ht Hid. cbn. rewrite Ht. rewrite filter_cons_False by (intros Hn; by apply Hn).
  done.
Qed.


End EnvironmentEquations.

Section RobustEquations.

Context `{!Host}.

Import Robust.

Lemma set_reconnectTimer_id s : set_reconnectTimer (reconnectTimer s) s = s.
Proof. by destruct s. Qed.

Lemma set_pingTimer_id s : set_pingTimer (pingTimer s) s = s.
Proof. by destruct s. Qed.

Lemma clearReconnectTimer_eq σ :
  clearReconnectTimer σ =
    (set_reconnectTimer None σ.1,
     from_option (fun id => clear_timer id σ.2) σ.2 (reconnectTimer σ.1)).
Proof.
  destruct σ as [s w]. unfold clearReconnectTimer. cbn.
  destruct (reconnectTimer s) eqn:E; cbn; [done|].
  by rewrite <- E, set_reconnectTimer_id.
Qed.

Lemma stopPingInterval_eq σ :
  stopPingInterval σ =
    (set_pingTimer None σ.1,
     from_option (fun id => clear_timer id σ.2) σ.2 (pingTimer σ.1)).
Proof.
  destruct σ as [s w]. unfold stopPingInterval. cbn.
  destruct (pingTimer s) eqn:E; cbn; [done|].
  by rewrite <- E, set_pingTimer_id.
Qed.


Lemma scheduleReconnect_retry σ :
  (reconnectAttempts σ.1 < maxReconnectAttempts σ.1)%Z ->
  scheduleReconnect σ =
    (set_reconnectTimer (Some (next_timer σ.2)) σ.1,
     (set_timer ReconnectCb (currentInterval σ.1)
        (console_write LogInfo "🔄 ms 후 재연결 시도"
           (from_option (fun id => clear_timer id σ.2) σ.2 (reconnectTimer σ.1)))).2).
Proof.
  intros Hlt. unfold scheduleReconnect.
  destruct (Z.leb_spec (maxReconnectAttempts σ.1) (reconnectAttempts σ.1)); [lia|].
  rewrite clearReconnectTimer_eq. destruct σ as [s w]. cbn.
  destruct (reconnectTimer s); by destruct s.
Qed.

Lemma scheduleReconnect_exhausted σ :
  (maxReconnectAttempts σ.1 <= reconnectAttempts σ.1)%Z ->
  scheduleReconnect σ =
    emit "maxReconnectAttemptsReached" [] (log LogError "❌ 최대 재연결 시도 횟수 초과" σ).
Proof.
  intros Hle. unfold scheduleReconnect.
  destruct (Z.leb_spec (maxReconnectAttempts σ.1) (reconnectAttempts σ.1)); [done|lia].
Qed.

Lemma onclose_eq code reason wasClean σ :
  onclose code reason wasClean σ =
    let σ1 := emit "disconnected" [JObj [("code", JNum code); ("reason", JStr reason);
                                         ("wasClean", JBool wasClean)]]
                (stopPingInterval (this (set_isConnecting false)
                   (log LogInfo "🔌 WebSocket 연결 종료:" σ))) in
    if shouldReconnect σ.1 && negb (code =? 1000)%Z then
      scheduleReconnect (log LogInfo "🔄 비정상 종료 감지 - 재연결 시도" σ1)
    else σ1.
Proof.
  unfold onclose. rewrite stopPingInterval_eq. reflexivity.
Qed.





Lemma isConnected_no_socket σ : ws σ.1 = None -> isConnected σ = false.
Proof.
  intros Hw. unfold isConnected, open_socket. by rewrite Hw.
Qed.

Lemma connect_creates chans σ :
  isConnecting σ.1 = false -> isConnected σ = false ->
  WebSocket_rejects (target σ.1 chans) = None ->
  connect chans σ =
    (set_ws (Some (length (sockets σ.2)))
       (set_shouldReconnect true (set_channels chans (set_isConnecting true σ.1))),
     set_sockets (fun l => l ++ [set_handlers () (new_socket (target σ.1 chans))])
       (console_write LogInfo "🔄 재연결 시도:"
          (console_write LogInfo "📡 채널:"
             (console_write LogInfo "🔌 WebSocket 연결 시도:" σ.2)))).
Proof.
  intros Hc Ho Hurl. unfold connect. rewrite Hc, Ho. unfold target in Hurl.
  cbn. rewrite Hurl. unfold setupWebSocketEvents, env, this. cbn [fst snd ws set_ws].
  f_equal. erewrite update_socket_Some; [|cbn; by apply list_lookup_middle].
  unfold set_sockets. cbn. f_equal.
  rewrite insert_app_r_alt by lia. by rewrite Nat.sub_diag.
Qed.

Lemma connect_noop chans σ :
  isConnecting σ.1 = true \/ isConnected σ = true ->
  exists line, connect chans σ = log LogInfo line σ.
Proof.
  intros [Hc|Ho]; unfold connect.
  - rewrite Hc. eauto.
  - rewrite Ho. destruct (isConnecting σ.1); eauto.
Qed.

Lemma onclose_abnormal code reason wasClean σ :
  shouldReconnect σ.1 = true -> code <> 1000%Z ->
  onclose code reason wasClean σ =
    scheduleReconnect
      (log LogInfo "🔄 비정상 종료 감지 - 재연결 시도"
         (emit "disconnected" [JObj [("code", JNum code); ("reason", JStr reason);
                                     ("wasClean", JBool wasClean)]]
            (stopPingInterval (this (set_isConnecting false)
               (log LogInfo "🔌 WebSocket 연결 종료:" σ))))).
Proof.
  intros Hs Hc. rewrite onclose_eq. cbn zeta. rewrite Hs.
  by destruct (Z.eqb_spec code 1000).
Qed.

Lemma onclose_quiet code reason wasClean σ :
  shouldReconnect σ.1 = false \/ code = 1000%Z ->
  onclose code reason wasClean σ =
    emit "disconnected" [JObj [("code", JNum code); ("reason", JStr reason);
                               ("wasClean", JBool wasClean)]]
      (stopPingInterval (this (set_isConnecting false)
         (log LogInfo "🔌 WebSocket 연결 종료:" σ))).
Proof.
  intros Hq. rewrite onclose_eq. cbn zeta.
  destruct Hq as [->| ->]; [done|]. by rewrite andb_false_r.
Qed.


End RobustEquations.

Section RobustBackoff.

Context `{!Host}.

Import Robust.








End RobustBackoff.

Section FixedInvariant.

Context `{!Host}.

Import Fixed.

Lemma FInv_frame (σ σ' : Sys) :
  reconnectTimer σ'.1 = reconnectTimer σ.1 ->
  timers σ'.2 = timers σ.2 -> next_timer σ'.2 = next_timer σ.2 ->
  FInv σ -> FInv σ'.
Proof. unfold FInv, timers_wf, tracked. intros -> -> ->. done. Qed.

Lemma FInv_clearReconnectTimer σ :
  FInv σ -> FInv (clearReconnectTimer σ) /\
            tracked (fun c => is_reconnect c = true) None (clearReconnectTimer σ).2.
Proof.
  destruct σ as [s w]. intros (Hwf & Hr). unfold clearReconnectTimer, FInv. cbn in *.
  destruct (reconnectTimer s) as [id|] eqn:E; cbn.
  - split; [split|]; auto using timers_wf_clear, tracked_clear.
  - rewrite E. auto.
Qed.

Lemma FInv_scheduleReconnect chans σ : FInv σ -> FInv (scheduleReconnect chans σ).
Proof.
  intros HI. unfold scheduleReconnect.
  destruct (FInv_clearReconnectTimer σ HI) as [(Hwf & Hr) Hn].
  destruct (clearReconnectTimer σ) as [s w]. cbn in *.
  split; cbn.
  - by apply (timers_wf_set (ReconnectCb chans) _ (console_write _ _ w)).
  - by apply (tracked_set _ (ReconnectCb chans) _ (console_write _ _ w)).
Qed.

Lemma FInv_handleConnectionError message chans σ :
  FInv σ -> FInv (handleConnectionError message chans σ).
Proof.
  intros HI. unfold handleConnectionError.
  case_match; [apply FInv_scheduleReconnect|]; revert HI; by apply FInv_frame.
Qed.

Lemma FInv_connect chans σ : FInv σ -> FInv (connect chans σ).
Proof.
  intros HI. unfold connect, new_WebSocket, setupWebSocketHandlers.
  repeat case_match; simplify_eq/=; try (revert HI; by apply FInv_frame).
  apply FInv_handleConnectionError. revert HI. by apply FInv_frame.
Qed.

Lemma FInv_send data σ : FInv σ -> FInv (send data σ).2.
Proof.
  intros HI. unfold send.
  repeat case_match; simplify_eq/=; revert HI; by apply FInv_frame.
Qed.

Lemma FInv_send_literal fields σ : FInv σ -> FInv (send_literal fields σ).2.
Proof.
  intros HI. unfold send_literal, alloc. cbn. apply FInv_send.
  revert HI. by apply FInv_frame.
Qed.

Lemma FInv_reconnect_tick chans σ : FInv σ -> FInv (reconnect_tick chans σ).
Proof.
  intros HI. unfold reconnect_tick. case_match; [|done].
  apply FInv_connect. revert HI. by apply FInv_frame.
Qed.

Lemma Fixed_handleMessage_frame data σ :
  (handleMessage data σ).1 = σ.1 /\
  sockets (handleMessage data σ).2 = sockets σ.2 /\
  timers (handleMessage data σ).2 = timers σ.2 /\
  next_timer (handleMessage data σ).2 = next_timer σ.2 /\
  heap (handleMessage data σ).2 = heap σ.2 /\
  now (handleMessage data σ).2 = now σ.2.
Proof. unfold handleMessage. repeat case_match; done. Qed.

Lemma FInv_handleMessage data σ : FInv σ -> FInv (handleMessage data σ).
Proof.
  destruct (Fixed_handleMessage_frame data σ) as (E1 & _ & E2 & E3 & _).
  apply FInv_frame; by rewrite ?E1.
Qed.

Lemma FInv_onopen σ : FInv σ -> FInv (onopen σ).
Proof.
  intros HI. unfold onopen. apply FInv_send_literal.
  apply FInv_clearReconnectTimer. revert HI. by apply FInv_frame.
Qed.

Lemma FInv_onmessage text σ : FInv σ -> FInv (onmessage text σ).
Proof.
  intros HI. unfold onmessage.
  repeat case_match; try (revert HI; by apply FInv_frame).
  apply FInv_handleMessage. revert HI. by apply FInv_frame.
Qed.

Lemma FInv_onerror chans error σ : FInv σ -> FInv (onerror chans error σ).
Proof.
  intros (Hwf & Hr). unfold onerror. split; cbn.
  - by apply (timers_wf_set (DeferredErrorCb _ chans) _ (console_write _ _ σ.2)).
  - by apply (tracked_set_other _ _ (DeferredErrorCb _ chans) _ (console_write _ _ σ.2)).
Qed.

Lemma FInv_onclose chans code reason wasClean σ :
  FInv σ -> FInv (onclose chans code reason wasClean σ).
Proof.
  intros HI. unfold onclose.
  repeat case_match; try apply FInv_scheduleReconnect; revert HI; by apply FInv_frame.
Qed.

Lemma FInv_disconnect σ : FInv σ -> FInv (disconnect σ).
Proof.
  intros HI. unfold disconnect.
  assert (HI' : FInv (clearReconnectTimer (log LogInfo "🔌 Disconnecting WebSocket" σ))).
  { apply FInv_clearReconnectTimer. revert HI. by apply FInv_frame. }
  case_match; revert HI'; by apply FInv_frame.
Qed.

Lemma FInv_clear_timer id σ : FInv σ -> FInv (env (clear_timer id) σ).
Proof.
  destruct σ as [s w]. intros (Hwf & Hr).
  split; cbn; auto using timers_wf_clear, tracked_clear_other.
Qed.

Lemma FInv_fire_timer id σ : FInv σ -> FInv (fire_timer id σ).
Proof.
  intros HI. unfold fire_timer. repeat case_match; try done;
    first [ by apply FInv_reconnect_tick, FInv_clear_timer
          | by apply FInv_handleConnectionError, FInv_clear_timer ].
Qed.

Lemma FInv_deliver i enabled after handler σ :
  (forall chans σ', FInv σ' -> FInv (handler chans σ')) ->
  FInv σ -> FInv (deliver i enabled after handler σ).
Proof.
  intros Hh HI. unfold deliver. repeat case_match; try done;
    try apply Hh; revert HI; by apply FInv_frame.
Qed.

Lemma FInv_step e σ : FInv σ -> FInv (step e σ).
Proof.
  intros HI. destruct e; cbn [step].
  - apply FInv_deliver; auto using FInv_onopen.
  - apply FInv_deliver; auto using FInv_onmessage.
  - apply FInv_deliver; auto using FInv_onerror.
  - apply FInv_deliver; auto using FInv_onclose.
  - by apply FInv_fire_timer.
  - revert HI. by apply FInv_frame.
  - revert HI. by apply FInv_frame.
  - by apply FInv_connect.
  - by apply FInv_disconnect.
  - by apply FInv_send.
  - revert HI. by apply FInv_frame.
Qed.

Lemma FInv_run es σ : FInv σ -> FInv (run es σ).
Proof.
  revert σ. induction es as [|e es IH]; intros σ HI; [done|].
  cbn. apply IH, FInv_step, HI.
Qed.

Lemma FInv_initial base cid w : timers w = [] -> FInv (new_service base cid, w).
Proof.
  intros Hw. split; cbn.
  - split; rewrite Hw; [set_solver|constructor].
  - intros t. rewrite Hw. set_solver.
Qed.

End FixedInvariant.

Section FramesWritten.

Context {H C : Type}.

Implicit Types (w : World H C).

Lemma frames_written_update i f w :
  (forall k, sent (f k) = sent k) ->
  frames_written (update_socket i f w) = frames_written w.
Proof.
  intros Hf. unfold frames_written. cbn.
  destruct (sockets w !! i) as [k|] eqn:Hk; [|done].
  rewrite list_fmap_insert, Hf. rewrite list_insert_id; [done|].
  by rewrite list_lookup_fmap, Hk.
Qed.

Lemma frames_written_new url w :
  frames_written (new_WebSocket url w).2 = frames_written w.
Proof.
  unfold frames_written. cbn. rewrite fmap_app, concat_app. cbn. by rewrite app_nil_r.
Qed.

End FramesWritten.

Section ObjectFacts.

Lemma obj_get_set_eq k v o : obj_get k (obj_set k v o) = Some v.
Proof.
  induction o as [|[k' v'] o IH]; cbn.
  - by rewrite String.eqb_refl.
  - destruct (String.eqb k k') eqn:E; cbn; rewrite E; done.
Qed.

Lemma obj_get_set_ne k k' v o : k <> k' -> obj_get k' (obj_set k v o) = obj_get k' o.
Proof.
  intros Hne. induction o as [|[k0 v0] o IH]; cbn.
  - destruct (String.eqb_spec k' k); [congruence|done].
  - destruct (String.eqb_spec k k0) as [->|]; cbn.
    + destruct (String.eqb_spec k' k0); [congruence|done].
    + destruct (String.eqb_spec k' k0); [done|apply IH].
Qed.

End ObjectFacts.

Section RobustSend.

Context `{!Host}.

Import Robust.

Lemma scheduleReconnect_frame σ :
  sockets (scheduleReconnect σ).2 = sockets σ.2 /\
  heap (scheduleReconnect σ).2 = heap σ.2 /\
  now (scheduleReconnect σ).2 = now σ.2 /\
  shouldReconnect (scheduleReconnect σ).1 = shouldReconnect σ.1 /\
  isConnecting (scheduleReconnect σ).1 = isConnecting σ.1 /\
  ws (scheduleReconnect σ).1 = ws σ.1.
Proof.
  destruct (Z.leb_spec (maxReconnectAttempts σ.1) (reconnectAttempts σ.1)).
  - by rewrite scheduleReconnect_exhausted.
  - rewrite scheduleReconnect_retry by done. cbn.
    by destruct (reconnectTimer σ.1).
Qed.

(** What a [connect] call can do: nothing but log, create one socket and mark
    the service as connecting, or fail in the constructor without creating a
    socket. *)
Lemma connect_cases chans σ :
  (exists line, connect chans σ = log LogInfo line σ) \/
  (sockets (connect chans σ).2
     = sockets σ.2 ++ [set_handlers () (new_socket (target σ.1 chans))] /\
   isConnecting (connect chans σ).1 = true) \/
  (sockets (connect chans σ).2 = sockets σ.2 /\ isConnecting σ.1 = false /\
   isConnected σ = false).
Proof.
  destruct (isConnecting σ.1) eqn:Hc; [left; apply connect_noop; auto|].
  destruct (isConnected σ) eqn:Ho; [left; apply connect_noop; auto|].
  destruct (WebSocket_rejects (target σ.1 chans)) as [e|] eqn:Hurl.
  - right. right. split; [|done]. unfold connect. rewrite Hc, Ho.
    unfold target in Hurl. cbn. rewrite Hurl.
    by destruct (scheduleReconnect_frame
      (emit "error" [JError e] (this (set_isConnecting false)
        (log LogError "❌ WebSocket 생성 실패:" (log LogInfo "🔄 재연결 시도:"
          (log LogInfo "📡 채널:" (log LogInfo "🔌 WebSocket 연결 시도:"
            (this (set_shouldReconnect true) (this (set_channels chans)
              (this (set_isConnecting true) σ)))))))))) as (-> & _).
  - right. left. by rewrite connect_creates.
Qed.

Lemma connect_frames chans σ :
  frames_written (connect chans σ).2 = frames_written σ.2 /\
  heap (connect chans σ).2 = heap σ.2.
Proof.
  destruct (isConnecting σ.1) eqn:Hc;
    [destruct (connect_noop chans σ) as [l ->]; auto|].
  destruct (isConnected σ) eqn:Ho;
    [destruct (connect_noop chans σ) as [l ->]; auto|].
  destruct (WebSocket_rejects (target σ.1 chans)) as [e|] eqn:Hurl.
  - unfold connect. rewrite Hc, Ho. unfold target in Hurl. cbn. rewrite Hurl.
    unfold frames_written.
    by destruct (scheduleReconnect_frame
      (emit "error" [JError e] (this (set_isConnecting false)
        (log LogError "❌ WebSocket 생성 실패:" (log LogInfo "🔄 재연결 시도:"
          (log LogInfo "📡 채널:" (log LogInfo "🔌 WebSocket 연결 시도:"
            (this (set_shouldReconnect true) (this (set_channels chans)
              (this (set_isConnecting true) σ)))))))))) as (-> & -> & _).
  - rewrite connect_creates by done. split; [|done].
    unfold frames_written. cbn. rewrite fmap_app, concat_app. cbn. by rewrite app_nil_r.
Qed.

Lemma send_closed data σ :
  open_socket σ = None ->
  send data σ =
    (false,
     if shouldReconnect σ.1 && negb (isConnecting σ.1) then
       connect (channels σ.1)
         (log LogInfo "🔄 메시지 전송 실패로 인한 재연결 시도"
            (log LogError "❌ WebSocket 연결되지 않음" σ))
     else log LogError "❌ WebSocket 연결되지 않음" σ).
Proof. intros Ho. unfold send. rewrite Ho. reflexivity. Qed.

Lemma send_true_open data σ : (send data σ).1 = true -> isConnected σ = true.
Proof.
  unfold send, isConnected. destruct (open_socket σ) eqn:Ho; [|done].
  intros _. apply bool_decide_eq_true_2. eauto.
Qed.

End RobustSend.

Section FixedSend.

Context `{!Host}.

Import Fixed.

Lemma Fixed_send_closed data σ :
  open_socket σ = None ->
  send data σ = (false, log LogError "❌ WebSocket is not connected. Current state:" σ).
Proof. intros Ho. unfold send. by rewrite Ho. Qed.

Lemma Fixed_send_true_open data σ : (send data σ).1 = true -> isConnected σ = true.
Proof.
  unfold send, isConnected. destruct (open_socket σ) eqn:Ho; [|done].
  intros _. apply bool_decide_eq_true_2. eauto.
Qed.

End FixedSend.

Section FixedEquations.

Context `{!Host}.

Import Fixed.

Lemma Fixed_set_reconnectTimer_id s : set_reconnectTimer (reconnectTimer s) s = s.
Proof. by destruct s. Qed.

Lemma Fixed_clearReconnectTimer_eq σ :
  clearReconnectTimer σ =
    (set_reconnectTimer None σ.1,
     from_option (fun id => clear_timer id σ.2) σ.2 (reconnectTimer σ.1)).
Proof.
  destruct σ as [s w]. unfold clearReconnectTimer. cbn.
  destruct (reconnectTimer s) eqn:E; cbn; [done|].
  by rewrite <- E, Fixed_set_reconnectTimer_id.
Qed.

Lemma Fixed_scheduleReconnect_eq chans σ :
  scheduleReconnect chans σ =
    (set_reconnectTimer (Some (next_timer σ.2)) σ.1,
     (set_timer (ReconnectCb chans) (backoff_delay σ.1)
        (console_write LogInfo "🔄 Scheduling reconnect in"
           (from_option (fun id => clear_timer id σ.2) σ.2 (reconnectTimer σ.1)))).2).
Proof.
  unfold scheduleReconnect. rewrite Fixed_clearReconnectTimer_eq.
  destruct σ as [s w]. cbn. destruct (reconnectTimer s); by destruct s.
Qed.

Lemma Fixed_scheduleReconnect_frame chans σ :
  sockets (scheduleReconnect chans σ).2 = sockets σ.2 /\
  heap (scheduleReconnect chans σ).2 = heap σ.2 /\
  now (scheduleReconnect chans σ).2 = now σ.2 /\
  emitted (scheduleReconnect chans σ).2 = emitted σ.2 /\
  isConnecting (scheduleReconnect chans σ).1 = isConnecting σ.1 /\
  retryCount (scheduleReconnect chans σ).1 = retryCount σ.1 /\
  ws (scheduleReconnect chans σ).1 = ws σ.1.
Proof.
  rewrite Fixed_scheduleReconnect_eq. cbn. by destruct (reconnectTimer σ.1).
Qed.

Lemma Fixed_handleConnectionError_frame message chans σ :
  sockets (handleConnectionError message chans σ).2 = sockets σ.2 /\
  heap (handleConnectionError message chans σ).2 = heap σ.2.
Proof.
  unfold handleConnectionError. case_match; [|done].
  match goal with |- context [scheduleReconnect chans ?x] =>
    destruct (Fixed_scheduleReconnect_frame chans x) as (-> & -> & _) end.
  done.
Qed.

Lemma Fixed_isConnected_false σ i k :
  ws σ.1 = Some i -> sockets σ.2 !! i = Some k -> readyState k <> OPEN ->
  isConnected σ = false.
Proof.
  intros Hw Hk Hr. unfold isConnected, open_socket. rewrite Hw. cbn. rewrite Hk. cbn.
  rewrite decide_False by done. apply bool_decide_eq_false_2. by intros [? ?].
Qed.

Lemma Fixed_isConnected_no_socket σ : ws σ.1 = None -> isConnected σ = false.
Proof. intros Hw. unfold isConnected, open_socket. by rewrite Hw. Qed.

Lemma Fixed_connect_creates chans σ :
  isConnecting σ.1 = false -> isConnected σ = false ->
  WebSocket_rejects (Fixed_target σ.1 chans) = None ->
  connect chans σ =
    (set_ws (Some (length (sockets σ.2))) (set_isConnecting true σ.1),
     set_sockets (fun l => l ++ [set_handlers chans (new_socket (Fixed_target σ.1 chans))])
       (console_write LogInfo "🔌 Connecting to WebSocket:" σ.2)).
Proof.
  intros Hc Ho Hurl. unfold connect. rewrite Hc, Ho. unfold Fixed_target in Hurl.
  cbn. rewrite Hurl. unfold setupWebSocketHandlers, env, this. cbn [fst snd ws set_ws].
  f_equal. erewrite update_socket_Some; [|cbn; by apply list_lookup_middle].
  unfold set_sockets. cbn. f_equal.
  rewrite insert_app_r_alt by lia. by rewrite Nat.sub_diag.
Qed.

Lemma Fixed_connect_noop chans σ :
  isConnecting σ.1 = true \/ isConnected σ = true ->
  connect chans σ = log LogInfo "🔌 WebSocket already connected or connecting" σ.
Proof.
  intros Hc. unfold connect.
  destruct Hc as [-> | ->]; [done|]. by rewrite orb_true_r.
Qed.

Lemma Fixed_connect_cases chans σ :
  connect chans σ = log LogInfo "🔌 WebSocket already connected or connecting" σ \/
  (sockets (connect chans σ).2
     = sockets σ.2 ++ [set_handlers chans (new_socket (Fixed_target σ.1 chans))] /\
   isConnecting (connect chans σ).1 = true) \/
  (sockets (connect chans σ).2 = sockets σ.2 /\ isConnecting σ.1 = false /\
   isConnected σ = false).
Proof.
  destruct (isConnecting σ.1) eqn:Hc; [left; apply Fixed_connect_noop; auto|].
  destruct (isConnected σ) eqn:Ho; [left; apply Fixed_connect_noop; auto|].
  destruct (WebSocket_rejects (Fixed_target σ.1 chans)) as [e|] eqn:Hurl.
  - right. right. split; [|done]. unfold connect. rewrite Hc, Ho.
    unfold Fixed_target in Hurl. cbn. rewrite Hurl.
    match goal with |- context [handleConnectionError ?m chans ?x] =>
      by destruct (Fixed_handleConnectionError_frame m chans x) as (-> & _) end.
  - right. left. by rewrite Fixed_connect_creates.
Qed.

End FixedEquations.

(** ** Idempotent connect *)

Section Connect.

Context `{!Host}.

(** Redundant [connect] calls only write to the console. *)
Lemma Robust_redundant_connects calls σ :
  Robust.isConnecting σ.1 = true \/ Robust.isConnected σ = true ->
  let σ' := Robust.run (Robust.CallConnect <$> calls) σ in
  σ'.1 = σ.1 /\ sockets σ'.2 = sockets σ.2 /\ timers σ'.2 = timers σ.2 /\
  next_timer σ'.2 = next_timer σ.2 /\ heap σ'.2 = heap σ.2 /\
  emitted σ'.2 = emitted σ.2 /\
  exists lines, console σ'.2 = console σ.2 ++ lines /\ length lines = length calls.
Proof.
  revert σ. induction calls as [|c calls IH]; intros σ Hc; cbn zeta.
  - split_and!; try done. exists []. by rewrite app_nil_r.
  - cbn [fmap list_fmap Robust.run foldl Robust.step].
    destruct (connect_noop c σ Hc) as [line E]. rewrite E.
    destruct (IH (Robust.log LogInfo line σ) Hc) as (E1 & E2 & E3 & E4 & E5 & E6 & ls & E7 & E8).
    unfold Robust.run in *. rewrite E1, E2, E3, E4, E5, E6, E7.
    split_and!; try done. exists ((LogInfo, line) :: ls). cbn.
    rewrite <- app_assoc. split; [done|]. by rewrite E8.
Qed.

Lemma Fixed_redundant_connects calls σ :
  Fixed.isConnecting σ.1 = true \/ Fixed.isConnected σ = true ->
  let σ' := Fixed.run (Fixed.CallConnect <$> calls) σ in
  σ'.1 = σ.1 /\ sockets σ'.2 = sockets σ.2 /\ timers σ'.2 = timers σ.2 /\
  next_timer σ'.2 = next_timer σ.2 /\ heap σ'.2 = heap σ.2 /\
  emitted σ'.2 = emitted σ.2 /\
  exists lines, console σ'.2 = console σ.2 ++ lines /\ length lines = length calls.
Proof.
  revert σ. induction calls as [|c calls IH]; intros σ Hc; cbn zeta.
  - split_and!; try done. exists []. by rewrite app_nil_r.
  - cbn [fmap list_fmap Fixed.run foldl Fixed.step].
    rewrite (Fixed_connect_noop c σ Hc).
    destruct (IH (Fixed.log LogInfo "🔌 WebSocket already connected or connecting" σ) Hc)
      as (E1 & E2 & E3 & E4 & E5 & E6 & ls & E7 & E8).
    unfold Fixed.run in *. rewrite E1, E2, E3, E4, E5, E6, E7.
    split_and!; try done. eexists (_ :: ls). cbn.
    rewrite <- app_assoc. split; [done|]. by rewrite E8.
Qed.

(** From any state, a sequence of [connect] calls creates at most one
    socket. *)
Lemma Robust_connects_at_most_one calls σ :
  (length (sockets (Robust.run (Robust.CallConnect <$> calls) σ).2)
   <= S (length (sockets σ.2)))%nat.
Proof.
  revert σ. induction calls as [|c calls IH]; intros σ; [cbn; lia|].
  cbn [fmap list_fmap Robust.run foldl Robust.step].
  destruct (connect_cases c σ) as [[line E]|[[E1 E2]|[E1 _]]].
  - rewrite E. apply (IH (Robust.log LogInfo line σ)).
  - destruct (Robust_redundant_connects calls (Robust.connect c σ)) as (_ & E & _); [auto|].
    unfold Robust.run in E. rewrite E, E1, length_app. cbn. lia.
  - specialize (IH (Robust.connect c σ)). unfold Robust.run in IH. rewrite E1 in IH. done.
Qed.

Lemma Fixed_connects_at_most_one calls σ :
  (length (sockets (Fixed.run (Fixed.CallConnect <$> calls) σ).2)
   <= S (length (sockets σ.2)))%nat.
Proof.
  revert σ. induction calls as [|c calls IH]; intros σ; [cbn; lia|].
  cbn [fmap list_fmap Fixed.run foldl Fixed.step].
  destruct (Fixed_connect_cases c σ) as [E|[[E1 E2]|[E1 _]]].
  - rewrite E. apply (IH (Fixed.log LogInfo _ σ)).
  - destruct (Fixed_redundant_connects calls (Fixed.connect c σ)) as (_ & E & _); [auto|].
    unfold Fixed.run in E. rewrite E, E1, length_app. cbn. lia.
  - specialize (IH (Fixed.connect c σ)). unfold Fixed.run in IH. rewrite E1 in IH. done.
Qed.

End Connect.

Section Dispatch.

Context `{!Host}.

Lemma Robust_handleMessage_unknown data σ :
  unrecognized Robust_recognized (Robust.prop data "type") ->
  Robust.handleMessage data σ =
    Robust.emit "message" [data] (Robust.log LogWarn "⚠️ 알 수 없는 메시지 타입:" σ).
Proof.
  intros Hn. unfold Robust.handleMessage.
  destruct (Robust.prop data "type") as [| | | |s| | |]; try reflexivity.
  cbn zeta. refute_tags Hn. reflexivity.
Qed.

Lemma Fixed_handleMessage_unknown data σ :
  unrecognized Fixed_recognized (Fixed.prop data "type") ->
  Fixed.handleMessage data σ = Fixed.log LogWarn "⚠️ Unknown message type:" σ.
Proof.
  intros Hn. unfold Fixed.handleMessage.
  destruct (Fixed.prop data "type") as [| | | |s| | |]; try reflexivity.
  cbn zeta. refute_tags Hn. reflexivity.
Qed.

Lemma Enhanced_handleMessage_unknown data σ :
  unrecognized Enhanced_recognized (Enhanced.prop data "type") ->
  Enhanced.handleMessage data σ =
    Enhanced.emit "message" [data] (Enhanced.log LogWarn "⚠️ Unknown message type:" σ).
Proof.
  intros Hn. unfold Enhanced.handleMessage.
  destruct (Enhanced.prop data "type") as [| | | |s| | |]; try reflexivity.
  cbn zeta. refute_tags Hn. reflexivity.
Qed.

(** C9.  A frame that parses to a value whose [type] is none of the tags
    [handleMessage] has a case for: the robust service logs a warning and
    dispatches ['message'] with the parsed value; the fixed service logs a
    warning and dispatches nothing. *)
Theorem unknown_type_dispatch (textR textF : string) (dataR dataF tyR tyF : JSValue)
    (σr : Robust.Sys) (σf : Fixed.Sys) :
  JSON_parse textR = inr dataR -> get_prop dataR "type" = inr tyR ->
  unrecognized Robust_recognized tyR ->
  JSON_parse textF = inr dataF -> get_prop dataF "type" = inr tyF ->
  unrecognized Fixed_recognized tyF ->
  Robust.onmessage textR σr =
    Robust.emit "message" [dataR]
      (Robust.log LogWarn "⚠️ 알 수 없는 메시지 타입:"
         (Robust.log LogInfo "📨 WebSocket 메시지 수신:" σr)) /\
  emitted (Robust.onmessage textR σr).2 = emitted σr.2 ++ [("message", [dataR])] /\
  Fixed.onmessage textF σf =
    Fixed.log LogWarn "⚠️ Unknown message type:"
      (Fixed.log LogInfo "📨 WebSocket message received:" σf) /\
  emitted (Fixed.onmessage textF σf).2 = emitted σf.2.
Proof.
  intros HpR HtR HnR HpF HtF HnF.
  assert (ER : Robust.onmessage textR σr =
    Robust.emit "message" [dataR]
      (Robust.log LogWarn "⚠️ 알 수 없는 메시지 타입:"
         (Robust.log LogInfo "📨 WebSocket 메시지 수신:" σr))).
  { unfold Robust.onmessage. rewrite HpR, HtR.
    apply Robust_handleMessage_unknown. unfold Robust.prop. by rewrite HtR. }
  assert (EF : Fixed.onmessage textF σf =
    Fixed.log LogWarn "⚠️ Unknown message type:"
      (Fixed.log LogInfo "📨 WebSocket message received:" σf)).
  { unfold Fixed.onmessage. rewrite HpF, HtF.
    apply Fixed_handleMessage_unknown. unfold Fixed.prop. by rewrite HtF. }
  rewrite ER, EF. done.
Qed.

(** C7.  A frame that [JSON.parse] rejects: the enhanced service dispatches
    exactly one ['error'] event, carrying [Error('Message parse error: ...')],
    writes one console line and leaves its fields, the sockets and the timers
    unchanged; the robust and the fixed service write console lines and
    dispatch nothing. *)
Theorem malformed_frame (textE textR textF : string) (eE eR eF : Exn)
    (σe : Enhanced.Sys) (σr : Robust.Sys) (σf : Fixed.Sys) :
  JSON_parse textE = inl eE -> JSON_parse textR = inl eR -> JSON_parse textF = inl eF ->
  (Enhanced.onmessage textE σe).1 = σe.1 /\
  emitted (Enhanced.onmessage textE σe).2 =
    emitted σe.2 ++
      [("error", [JError (new_Error ("Message parse error: " +:+ exn_to_string eE))])] /\
  sockets (Enhanced.onmessage textE σe).2 = sockets σe.2 /\
  timers (Enhanced.onmessage textE σe).2 = timers σe.2 /\
  console (Enhanced.onmessage textE σe).2 =
    console σe.2 ++ [(LogError, "❌ WebSocket message parse error:")] /\
  Robust.onmessage textR σr =
    Robust.log LogInfo "📄 원본 데이터:" (Robust.log LogError "❌ 메시지 파싱 오류:" σr) /\
  emitted (Robust.onmessage textR σr).2 = emitted σr.2 /\
  Fixed.onmessage textF σf = Fixed.log LogError "❌ WebSocket message parse error:" σf /\
  emitted (Fixed.onmessage textF σf).2 = emitted σf.2.
Proof.
  intros HE HR HF.
  unfold Enhanced.onmessage, Robust.onmessage, Fixed.onmessage.
  rewrite HE, HR, HF. done.
Qed.

End Dispatch.

Section Send.

Context `{!Host}.

Lemma Robust_send_true data σ :
  (Robust.send data σ).1 = true ->
  exists i frame,
    Robust.open_socket σ = Some i /\
    JSON_stringify (JObj (Robust_message data σ)) = inr frame /\
    Robust.send data σ =
      (true, Robust.log LogInfo "📤 메시지 전송:" (Robust.env (socket_send i frame) σ)).
Proof.
  unfold Robust.send, Robust_message.
  destruct (Robust.open_socket σ) as [i|]; [|done].
  destruct (JSON_stringify _) as [e|frame]; [done|]. eauto.
Qed.

Lemma Fixed_send_true data σ :
  (Fixed.send data σ).1 = true ->
  exists i frame,
    Fixed.open_socket σ = Some i /\
    JSON_stringify (JObj (Fixed_message data σ)) = inr frame /\
    Fixed.send data σ =
      (true, Fixed.log LogInfo "📤 WebSocket message sent:" (Fixed.env (socket_send i frame) σ)).
Proof.
  unfold Fixed.send, Fixed_message.
  destruct (Fixed.open_socket σ) as [i|]; [|done].
  destruct (JSON_stringify _) as [e|frame]; [done|]. eauto.
Qed.

Lemma Robust_open_socket_Some σ i :
  Robust.open_socket σ = Some i -> exists k, sockets σ.2 !! i = Some k.
Proof.
  unfold Robust.open_socket. destruct (Robust.ws σ.1) as [j|]; [|done]. cbn.
  destruct (sockets σ.2 !! j) as [k|] eqn:E; [|done]. cbn.
  case_decide; [|done]. intros [= <-]. eauto.
Qed.

Lemma Fixed_open_socket_Some σ i :
  Fixed.open_socket σ = Some i -> exists k, sockets σ.2 !! i = Some k.
Proof.
  unfold Fixed.open_socket. destruct (Fixed.ws σ.1) as [j|]; [|done]. cbn.
  destruct (sockets σ.2 !! j) as [k|] eqn:E; [|done]. cbn.
  case_decide; [|done]. intros [= <-]. eauto.
Qed.

(** C8.  When [send] returns [true], one frame has been appended to the open
    socket: the serialisation of a fresh object with the payload's fields,
    followed by [timestamp] (the current time) and, in the robust service, by
    [client_id].  Every field of the payload other than [timestamp] and
    [client_id] is in the message with its value; the fixed service adds no
    [client_id].  The heap, hence the payload object, is unchanged. *)
Theorem outbound_message (data : nat) (σr : Robust.Sys) (σf : Fixed.Sys) :
  (Robust.send data σr).1 = true -> (Fixed.send data σf).1 = true ->
  (exists i k frame,
     sockets σr.2 !! i = Some k /\
     JSON_stringify (JObj (Robust_message data σr)) = inr frame /\
     sockets (Robust.send data σr).2.2 = <[i := {| sock_url := sock_url k;
       sock_protocol := sock_protocol k; readyState := readyState k;
       handlers := handlers k; sent := sent k ++ [frame]; closeCalls := closeCalls k |}]>
         (sockets σr.2)) /\
  (forall key v, obj_get key (spread (deref data σr.2)) = Some v ->
     key <> "timestamp" -> key <> "client_id" ->
     obj_get key (Robust_message data σr) = Some v) /\
  obj_get "timestamp" (Robust_message data σr) = Some (JStr (now σr.2)) /\
  obj_get "client_id" (Robust_message data σr) = Some (JStr (Robust.clientId σr.1)) /\
  heap (Robust.send data σr).2.2 = heap σr.2 /\
  (exists i k frame,
     sockets σf.2 !! i = Some k /\
     JSON_stringify (JObj (Fixed_message data σf)) = inr frame /\
     sockets (Fixed.send data σf).2.2 = <[i := {| sock_url := sock_url k;
       sock_protocol := sock_protocol k; readyState := readyState k;
       handlers := handlers k; sent := sent k ++ [frame]; closeCalls := closeCalls k |}]>
         (sockets σf.2)) /\
  (forall key v, obj_get key (spread (deref data σf.2)) = Some v ->
     key <> "timestamp" -> obj_get key (Fixed_message data σf) = Some v) /\
  obj_get "timestamp" (Fixed_message data σf) = Some (JStr (now σf.2)) /\
  obj_get "client_id" (Fixed_message data σf)
    = obj_get "client_id" (spread (deref data σf.2)) /\
  heap (Fixed.send data σf).2.2 = heap σf.2.
Proof.
  intros Hr Hf.
  destruct (Robust_send_true data σr Hr) as (i & frame & Ho & Hs & E).
  destruct (Fixed_send_true data σf Hf) as (j & frame' & Ho' & Hs' & E').
  destruct (Robust_open_socket_Some σr i Ho) as [k Hk].
  destruct (Fixed_open_socket_Some σf j Ho') as [k' Hk'].
  rewrite E, E'. split_and!.
  - exists i, k, frame. split_and!; [done..|]. cbn. by rewrite Hk.
  - intros key v Hg H1 H2. unfold Robust_message.
    rewrite !obj_get_set_ne by done. done.
  - unfold Robust_message. rewrite obj_get_set_ne by done. apply obj_get_set_eq.
  - apply obj_get_set_eq.
  - done.
  - exists j, k', frame'. split_and!; [done..|]. cbn. by rewrite Hk'.
  - intros key v Hg H1. unfold Fixed_message. rewrite obj_get_set_ne by done. done.
  - apply obj_get_set_eq.
  - unfold Fixed_message. by rewrite obj_get_set_ne.
  - done.
Qed.

End Send.

Section More.

Context {H C : Type}.

Lemma from_option_clear_next (w : World H C) (o : option nat) :
  next_timer (from_option (fun id => clear_timer id w) w o) = next_timer w.
Proof. by destruct o. Qed.

End More.

Lemma base_delay (d : Q) : Qmin (3000 * d ^ 0) 30000 == 3000.
Proof. reflexivity. Qed.

Section ResetOnOpen.

Context `{!Host}.

Lemma Fixed_send_state data σ : (Fixed.send data σ).2.1 = σ.1.
Proof. unfold Fixed.send. repeat case_match; done. Qed.

Lemma Fixed_onopen_resets σ : Fixed.retryCount (Fixed.onopen σ).1 = 0%Z.
Proof.
  unfold Fixed.onopen, Fixed.send_literal, alloc. cbn [fst snd].
  rewrite Fixed_send_state. rewrite Fixed_clearReconnectTimer_eq. done.
Qed.

Lemma Fixed_onopen_config σ :
  Fixed.reconnectInterval (Fixed.onopen σ).1 = Fixed.reconnectInterval σ.1 /\
  Fixed.maxRetryAttempts (Fixed.onopen σ).1 = Fixed.maxRetryAttempts σ.1.
Proof.
  unfold Fixed.onopen, Fixed.send_literal, alloc. cbn [fst snd].
  rewrite Fixed_send_state. rewrite Fixed_clearReconnectTimer_eq. done.
Qed.

(** In the fixed service an abnormal closure in a state whose counter has
    been reset schedules half the base interval. *)
Lemma Fixed_delay_when_reset chans code reason wasClean σ :
  code <> 1000%Z -> Fixed.retryCount σ.1 = 0%Z -> (0 < Fixed.maxRetryAttempts σ.1)%Z ->
  exists t,
    last (timers (Fixed.onclose chans code reason wasClean σ).2) = Some t /\
    callback t = Fixed.ReconnectCb chans /\
    delay t = (Fixed.reconnectInterval σ.1 * 2 ^ (-1))%Q /\
    Fixed.reconnectTimer (Fixed.onclose chans code reason wasClean σ).1
      = Some (timer_id t).
Proof.
  intros Hc Hr Hm. unfold Fixed.onclose.
  cbn [fst snd Fixed.this Fixed.emit Fixed.log Fixed.env Fixed.retryCount
       Fixed.maxRetryAttempts Fixed.set_isConnecting].
  rewrite Hr.
  destruct (Z.eqb_spec code 1000); [done|].
  destruct (Z.ltb_spec 0 (Fixed.maxRetryAttempts σ.1)); [|lia].
  cbn [negb andb]. rewrite Fixed_scheduleReconnect_eq.
  unfold Fixed.backoff_delay.
  cbn [fst snd Fixed.reconnectInterval Fixed.retryCount Fixed.set_isConnecting
       Fixed.set_reconnectTimer Fixed.reconnectTimer set_timer timers set_timers
       set_next_timer].
  rewrite last_snoc.
  eexists. split; [reflexivity|]. cbn [callback delay timer_id].
  split; [reflexivity|]. split; [cbn; by rewrite Hr|].
  repeat (cbn [next_timer console_write set_console dispatch set_emitted];
          rewrite from_option_clear_next).
  reflexivity.
Qed.

Lemma Fixed_first_delay_after_open chans code reason wasClean σ :
  code <> 1000%Z -> (0 < Fixed.maxRetryAttempts σ.1)%Z ->
  exists t,
    last (timers (Fixed.onclose chans code reason wasClean (Fixed.onopen σ)).2) = Some t /\
    callback t = Fixed.ReconnectCb chans /\
    delay t = (Fixed.reconnectInterval σ.1 * 2 ^ (-1))%Q /\
    Fixed.reconnectTimer (Fixed.onclose chans code reason wasClean (Fixed.onopen σ)).1
      = Some (timer_id t).
Proof.
  intros Hc Hm.
  destruct (Fixed_onopen_config σ) as [Hi Hmax].
  pose proof (Fixed_onopen_resets σ) as Hr.
  rewrite <- Hi. apply Fixed_delay_when_reset; [done|done|by rewrite Hmax].
Qed.

Lemma Robust_scheduleReconnect_config σ :
  Robust.reconnectInterval (Robust.scheduleReconnect σ).1 = Robust.reconnectInterval σ.1 /\
  Robust.reconnectAttempts (Robust.scheduleReconnect σ).1 = Robust.reconnectAttempts σ.1 /\
  Robust.maxReconnectInterval (Robust.scheduleReconnect σ).1 = Robust.maxReconnectInterval σ.1 /\
  Robust.reconnectDecay (Robust.scheduleReconnect σ).1 = Robust.reconnectDecay σ.1 /\
  Robust.maxReconnectAttempts (Robust.scheduleReconnect σ).1 = Robust.maxReconnectAttempts σ.1 /\
  Robust.clientId (Robust.scheduleReconnect σ).1 = Robust.clientId σ.1.
Proof.
  destruct (Z.leb_spec (Robust.maxReconnectAttempts σ.1) (Robust.reconnectAttempts σ.1)).
  - by rewrite scheduleReconnect_exhausted.
  - by rewrite scheduleReconnect_retry.
Qed.

Lemma Robust_connect_config chans σ :
  Robust.reconnectInterval (Robust.connect chans σ).1 = Robust.reconnectInterval σ.1 /\
  Robust.reconnectAttempts (Robust.connect chans σ).1 = Robust.reconnectAttempts σ.1 /\
  Robust.maxReconnectInterval (Robust.connect chans σ).1 = Robust.maxReconnectInterval σ.1 /\
  Robust.reconnectDecay (Robust.connect chans σ).1 = Robust.reconnectDecay σ.1 /\
  Robust.maxReconnectAttempts (Robust.connect chans σ).1 = Robust.maxReconnectAttempts σ.1 /\
  Robust.clientId (Robust.connect chans σ).1 = Robust.clientId σ.1.
Proof.
  destruct (Robust.isConnecting σ.1) eqn:Hc.
  { destruct (connect_noop chans σ) as [l1 E]; [auto|]. by rewrite E. }
  destruct (Robust.isConnected σ) eqn:Ho.
  { destruct (connect_noop chans σ) as [l2 E]; [auto|]. by rewrite E. }
  destruct (WebSocket_rejects (target σ.1 chans)) as [e|] eqn:Hurl.
  - unfold Robust.connect. rewrite Hc, Ho. unfold target in Hurl. cbn. rewrite Hurl.
    match goal with |- context [Robust.scheduleReconnect ?x] =>
      destruct (Robust_scheduleReconnect_config x) as (-> & -> & -> & -> & -> & ->) end.
    done.
  - by rewrite connect_creates.
Qed.

Lemma Robust_send_config data σ :
  Robust.reconnectInterval (Robust.send data σ).2.1 = Robust.reconnectInterval σ.1 /\
  Robust.reconnectAttempts (Robust.send data σ).2.1 = Robust.reconnectAttempts σ.1 /\
  Robust.maxReconnectInterval (Robust.send data σ).2.1 = Robust.maxReconnectInterval σ.1 /\
  Robust.reconnectDecay (Robust.send data σ).2.1 = Robust.reconnectDecay σ.1 /\
  Robust.maxReconnectAttempts (Robust.send data σ).2.1 = Robust.maxReconnectAttempts σ.1 /\
  Robust.clientId (Robust.send data σ).2.1 = Robust.clientId σ.1.
Proof.
  unfold Robust.send.
  destruct (Robust.open_socket σ); [by destruct (JSON_stringify _)|].
  cbn [fst snd]. case_match; [|done].
  match goal with |- context [Robust.connect ?c ?x] =>
    destruct (Robust_connect_config c x) as (-> & -> & -> & -> & -> & ->) end.
  done.
Qed.

Lemma Robust_onopen_resets σ :
  Robust.reconnectAttempts (Robust.onopen σ).1 = 0%Z /\
  Robust.reconnectInterval (Robust.onopen σ).1 = 3000%Q /\
  Robust.maxReconnectInterval (Robust.onopen σ).1 = Robust.maxReconnectInterval σ.1 /\
  Robust.reconnectDecay (Robust.onopen σ).1 = Robust.reconnectDecay σ.1 /\
  Robust.maxReconnectAttempts (Robust.onopen σ).1 = Robust.maxReconnectAttempts σ.1.
Proof.
  unfold Robust.onopen, Robust.send_literal, alloc. cbn [fst snd].
  match goal with |- context [Robust.send ?d ?x] =>
    destruct (Robust_send_config d x) as (-> & -> & -> & -> & -> & _) end.
  unfold Robust.startPingInterval. rewrite stopPingInterval_eq, clearReconnectTimer_eq.
  done.
Qed.

(** An abnormal closure in a state whose counter has been reset schedules
    the base delay. *)
Lemma Robust_delay_when_reset code reason wasClean σ :
  code <> 1000%Z -> Robust.shouldReconnect σ.1 = true ->
  Robust.reconnectAttempts σ.1 = 0%Z -> Robust.reconnectInterval σ.1 = 3000%Q ->
  Robust.maxReconnectInterval σ.1 = 30000%Q ->
  (0 < Robust.maxReconnectAttempts σ.1)%Z ->
  exists t,
    last (timers (Robust.onclose code reason wasClean σ).2) = Some t /\
    callback t = Robust.ReconnectCb /\ delay t == 3000 /\
    Robust.reconnectTimer (Robust.onclose code reason wasClean σ).1 = Some (timer_id t).
Proof.
  intros Hc Hsh Ha Hi Hcap Hm.
  rewrite onclose_abnormal by done.
  rewrite stopPingInterval_eq.
  rewrite scheduleReconnect_retry by (cbn; lia).
  unfold Robust.currentInterval.
  cbn [fst snd Robust.log Robust.emit Robust.this Robust.env Robust.reconnectInterval
       Robust.reconnectDecay Robust.reconnectAttempts Robust.maxReconnectInterval
       Robust.set_pingTimer Robust.set_isConnecting Robust.set_reconnectTimer
       Robust.reconnectTimer set_timer timers set_timers set_next_timer].
  rewrite Ha, Hi, Hcap, last_snoc.
  eexists. split; [reflexivity|]. cbn [callback delay timer_id].
  split; [reflexivity|]. split; [apply base_delay|].
  repeat (cbn [next_timer console_write set_console dispatch set_emitted];
          rewrite from_option_clear_next).
  reflexivity.
Qed.

(** In the robust service an abnormal closure that follows a successful open
    schedules the base delay. *)
Lemma Robust_first_delay_after_open code reason wasClean σ :
  code <> 1000%Z -> (0 < Robust.maxReconnectAttempts σ.1)%Z ->
  Robust.maxReconnectInterval σ.1 = 30000%Q ->
  Robust.shouldReconnect (Robust.onopen σ).1 = true ->
  exists t,
    last (timers (Robust.onclose code reason wasClean (Robust.onopen σ)).2) = Some t /\
    callback t = Robust.ReconnectCb /\ delay t == 3000 /\
    Robust.reconnectTimer (Robust.onclose code reason wasClean (Robust.onopen σ)).1
      = Some (timer_id t).
Proof.
  intros Hc Hm Hcap Hsh.
  destruct (Robust_onopen_resets σ) as (Ha & Hi & Hcap' & Hd & Hmax).
  apply Robust_delay_when_reset; try done; congruence.
Qed.

Lemma Enhanced_onopen_resets σ :
  Enhanced.reconnectAttempts (Enhanced.onopen σ).1 = 0%Z /\
  Enhanced.reconnectInterval (Enhanced.onopen σ).1 = Enhanced.reconnectInterval σ.1 /\
  Enhanced.maxReconnectAttempts (Enhanced.onopen σ).1 = Enhanced.maxReconnectAttempts σ.1 /\
  Enhanced.shouldReconnect (Enhanced.onopen σ).1 = Enhanced.shouldReconnect σ.1.
Proof.
  unfold Enhanced.onopen, Enhanced.startPingInterval, Enhanced.stopPingInterval,
    Enhanced.clearReconnectTimer.
  cbn. repeat case_match; done.
Qed.

Lemma Enhanced_base_delay : Qmin (5000 * (3 # 2) ^ (0 + 1 - 1)) 30000 == 5000.
Proof. reflexivity. Qed.

Lemma Enhanced_delay_when_reset code reason wasClean σ :
  code <> 1000%Z -> Enhanced.shouldReconnect σ.1 = true ->
  Enhanced.reconnectAttempts σ.1 = 0%Z -> Enhanced.reconnectInterval σ.1 = 5000%Q ->
  (0 < Enhanced.maxReconnectAttempts σ.1)%Z ->
  exists t,
    last (timers (Enhanced.onclose code reason wasClean σ).2) = Some t /\
    callback t = Enhanced.ReconnectCb /\ delay t == 5000.
Proof.
  intros Hc Hsh Ha Hi Hm.
  destruct σ as [s w]. cbn [fst snd] in *.
  unfold Enhanced.onclose, Enhanced.stopPingInterval, Enhanced.handleReconnection,
    Enhanced.clearReconnectTimer, Enhanced.backoff_delay.
  cbn [fst snd Enhanced.log Enhanced.emit Enhanced.this Enhanced.env
       Enhanced.set_isConnecting Enhanced.pingTimer].
  destruct (Z.eqb_spec code 1000); [done|].
  destruct (Enhanced.pingTimer s);
    cbn [fst snd Enhanced.log Enhanced.emit Enhanced.this Enhanced.env
         Enhanced.set_isConnecting Enhanced.set_pingTimer Enhanced.shouldReconnect
         Enhanced.reconnectAttempts Enhanced.maxReconnectAttempts Enhanced.reconnectTimer];
    rewrite Hsh, Ha;
    (destruct (Z.leb_spec (Enhanced.maxReconnectAttempts s) 0); [lia|]);
    cbn [negb andb orb];
    destruct (Enhanced.reconnectTimer s); cbn; rewrite last_snoc;
    (eexists; split; [reflexivity|]); cbn; (split; [done|]);
    rewrite Hi, ?Ha; apply Enhanced_base_delay.
Qed.

Lemma Enhanced_first_delay_after_open code reason wasClean σ :
  code <> 1000%Z -> (0 < Enhanced.maxReconnectAttempts σ.1)%Z ->
  Enhanced.reconnectInterval σ.1 = 5000%Q ->
  Enhanced.shouldReconnect σ.1 = true ->
  exists t,
    last (timers (Enhanced.onclose code reason wasClean (Enhanced.onopen σ)).2) = Some t /\
    callback t = Enhanced.ReconnectCb /\ delay t == 5000.
Proof.
  intros Hc Hm Hi Hsh.
  destruct (Enhanced_onopen_resets σ) as (Ha & Hi' & Hmax & Hsh').
  apply Enhanced_delay_when_reset; try done; congruence.
Qed.

End ResetOnOpen.

(** C6.  The fixed service connects and its socket opens, which resets
    [retryCount] to 0; the socket is then closed abnormally.  The one timer
    scheduled has delay [5000 * 2 ^ (0 - 1)], that is 2500 ms, and not the base
    delay of 5000 ms. *)
Lemma fixed_first_delay_is_half_base :
  Fixed.retryCount (@Fixed.run sample_host [Fixed.CallConnect ["analysis"; "alerts"];
                                            Fixed.EvOpen 0] fixed0).1 = 0%Z /\
  timers (@Fixed.run sample_host fixed_open_then_close fixed0).2 =
    [{| timer_id := 1; delay := 5000 # 2;
        callback := Fixed.ReconnectCb ["analysis"; "alerts"] |}] /\
  Fixed.reconnectInterval fixed0.1 = 5000%Q /\
  5000 # 2 == 2500 /\ ~ 5000 # 2 == 5000.
Proof. vm_compute. split_and!; try reflexivity. discriminate. Qed.

Section EnvironmentMore.

Context {H C : Type}.

Implicit Types (w : World H C).

Lemma from_option_clear_sublist w (o : option nat) :
  timers (from_option (fun id => clear_timer id w) w o) `sublist_of` timers w.
Proof. destruct o; cbn; [apply sublist_filter|done]. Qed.

(** Clearing the timer behind the handle removes every pending timer the
    handle tracks. *)
Lemma filter_tracked_cleared (P : C -> Prop) (Q : Timer C -> Prop)
    `{!forall t, Decision (Q t)} w o :
  (forall t, Q t -> P (callback t)) -> tracked P o w ->
  filter Q (timers (from_option (fun id => clear_timer id w) w o)) = [].
Proof.
  intros HQ Htr. apply elem_of_nil_inv. intros t [HP%HQ Ht]%list_elem_of_filter.
  destruct o as [id|]; cbn in Ht.
  - apply list_elem_of_filter in Ht as [Hne Ht]. specialize (Htr t Ht HP). congruence.
  - by specialize (Htr t Ht HP).
Qed.

Lemma tracked_sublist (P : C -> Prop) h w w' :
  timers w' `sublist_of` timers w -> tracked P h w -> tracked P h w'.
Proof. intros Hsub Htr t Ht. apply Htr. by eapply elem_of_sublist. Qed.

End EnvironmentMore.

Section OneTimer.

Context `{!Host}.

Lemma Robust_onclose_normal reason wasClean σ :
  next_timer (Robust.onclose 1000 reason wasClean σ).2 = next_timer σ.2 /\
  timers (Robust.onclose 1000 reason wasClean σ).2 `sublist_of` timers σ.2.
Proof.
  rewrite onclose_quiet by auto. rewrite stopPingInterval_eq. cbn.
  split.
  - by rewrite from_option_clear_next.
  - apply (from_option_clear_sublist (console_write LogInfo _ σ.2)).
Qed.

Lemma Robust_scheduleReconnect_pending σ :
  tracked (eq Robust.ReconnectCb) (Robust.reconnectTimer σ.1) σ.2 ->
  (Robust.reconnectAttempts σ.1 < Robust.maxReconnectAttempts σ.1)%Z ->
  next_timer (Robust.scheduleReconnect σ).2 = S (next_timer σ.2) /\
  Robust_pending_reconnect (Robust.scheduleReconnect σ).2
    = [{| timer_id := next_timer σ.2; delay := Robust.currentInterval σ.1;
          callback := Robust.ReconnectCb |}] /\
  Robust.reconnectTimer (Robust.scheduleReconnect σ).1 = Some (next_timer σ.2).
Proof.
  intros Hr Ha. rewrite scheduleReconnect_retry by done. cbn.
  rewrite from_option_clear_next. split; [done|]. split; [|done].
  unfold Robust_pending_reconnect. cbn. rewrite filter_app.
  match goal with |- ?l ++ _ = _ => assert (E : l = []) end.
  { by apply (filter_tracked_cleared (eq Robust.ReconnectCb)). }
  rewrite E. by rewrite filter_cons_True by done.
Qed.

Lemma Robust_onclose_schedules_one code reason wasClean σ :
  Inv σ -> code <> 1000%Z -> Robust.shouldReconnect σ.1 = true ->
  (Robust.reconnectAttempts σ.1 < Robust.maxReconnectAttempts σ.1)%Z ->
  next_timer (Robust.onclose code reason wasClean σ).2 = S (next_timer σ.2) /\
  Robust_pending_reconnect (Robust.onclose code reason wasClean σ).2
    = [{| timer_id := next_timer σ.2; delay := Robust.currentInterval σ.1;
          callback := Robust.ReconnectCb |}] /\
  Robust.reconnectTimer (Robust.onclose code reason wasClean σ).1 = Some (next_timer σ.2).
Proof.
  intros (Hwf & Hr & Hp) Hc Hs Ha.
  rewrite onclose_abnormal by done. rewrite stopPingInterval_eq.
  match goal with |- context [Robust.scheduleReconnect ?x] =>
    destruct (Robust_scheduleReconnect_pending x) as (E1 & E2 & E3) end.
  - eapply tracked_sublist; [|exact Hr]. cbn.
    apply (from_option_clear_sublist (console_write LogInfo _ σ.2)).
  - cbn. lia.
  - rewrite E1, E2, E3. cbn. by rewrite from_option_clear_next.
Qed.

Lemma Robust_at_most_one_pending σ :
  Inv σ -> (length (Robust_pending_reconnect σ.2) <= 1)%nat.
Proof.
  intros (Hwf & Hr & _).
  exact (tracked_at_most_one (eq Robust.ReconnectCb) _ _ Hwf Hr).
Qed.

Lemma Fixed_onclose_normal chans reason wasClean σ :
  next_timer (Fixed.onclose chans 1000 reason wasClean σ).2 = next_timer σ.2 /\
  timers (Fixed.onclose chans 1000 reason wasClean σ).2 = timers σ.2.
Proof. unfold Fixed.onclose. cbn. by case_match. Qed.

Lemma Fixed_scheduleReconnect_pending chans σ :
  tracked (fun c => Fixed.is_reconnect c = true) (Fixed.reconnectTimer σ.1) σ.2 ->
  next_timer (Fixed.scheduleReconnect chans σ).2 = S (next_timer σ.2) /\
  Fixed_pending_reconnect (Fixed.scheduleReconnect chans σ).2
    = [{| timer_id := next_timer σ.2; delay := Fixed.backoff_delay σ.1;
          callback := Fixed.ReconnectCb chans |}] /\
  Fixed.reconnectTimer (Fixed.scheduleReconnect chans σ).1 = Some (next_timer σ.2).
Proof.
  intros Hr. rewrite Fixed_scheduleReconnect_eq. cbn.
  rewrite from_option_clear_next. split; [done|]. split; [|done].
  unfold Fixed_pending_reconnect.
  cbn [snd timers set_timer set_timers set_next_timer console_write set_console].
  rewrite filter_app.
  match goal with |- ?l ++ _ = _ => assert (E : l = []) end.
  { by apply (filter_tracked_cleared (fun c => Fixed.is_reconnect c = true)). }
  rewrite E. by rewrite filter_cons_True by done.
Qed.

Lemma Fixed_onclose_abnormal chans code reason wasClean σ :
  code <> 1000%Z -> (Fixed.retryCount σ.1 < Fixed.maxRetryAttempts σ.1)%Z ->
  Fixed.onclose chans code reason wasClean σ =
    Fixed.scheduleReconnect chans
      (Fixed.emit "disconnected" []
         (Fixed.this (Fixed.set_isConnecting false)
            (Fixed.log LogInfo "🔌 WebSocket disconnected:" σ))).
Proof.
  intros Hc Ha. unfold Fixed.onclose.
  cbn [fst snd Fixed.this Fixed.emit Fixed.log Fixed.env Fixed.retryCount
       Fixed.maxRetryAttempts Fixed.set_isConnecting].
  destruct (Z.eqb_spec code 1000); [done|].
  by destruct (Z.ltb_spec (Fixed.retryCount σ.1) (Fixed.maxRetryAttempts σ.1)); [|lia].
Qed.

Lemma Fixed_onclose_schedules_one chans code reason wasClean σ :
  FInv σ -> code <> 1000%Z ->
  (Fixed.retryCount σ.1 < Fixed.maxRetryAttempts σ.1)%Z ->
  next_timer (Fixed.onclose chans code reason wasClean σ).2 = S (next_timer σ.2) /\
  Fixed_pending_reconnect (Fixed.onclose chans code reason wasClean σ).2
    = [{| timer_id := next_timer σ.2; delay := Fixed.backoff_delay σ.1;
          callback := Fixed.ReconnectCb chans |}] /\
  Fixed.reconnectTimer (Fixed.onclose chans code reason wasClean σ).1 = Some (next_timer σ.2).
Proof.
  intros (Hwf & Hr) Hc Ha.
  rewrite Fixed_onclose_abnormal by done.
  match goal with |- context [Fixed.scheduleReconnect chans ?x] =>
    destruct (Fixed_scheduleReconnect_pending chans x) as (E1 & E2 & E3) end.
  - exact Hr.
  - rewrite E1, E2, E3. done.
Qed.

Lemma Fixed_at_most_one_pending σ :
  FInv σ -> (length (Fixed_pending_reconnect σ.2) <= 1)%nat.
Proof.
  intros (Hwf & Hr).
  exact (tracked_at_most_one (fun c => Fixed.is_reconnect c = true) _ _ Hwf Hr).
Qed.

(** C5.  In every state a fresh service can reach: a close event with code
    1000 schedules no timer; a close event with another code, when attempts
    remain and (robust service) reconnection has not been switched off,
    leaves exactly one reconnect timer pending, the one just scheduled; and
    at most one reconnect timer is pending at any time. *)
Theorem close_schedules_at_most_one
    (base cid : string) (w0 : World () Robust.TimerCb) (es es' : list Robust.Event)
    (fbase fcid : string) (v0 : World (list string) Fixed.TimerCb)
    (fs fs' : list Fixed.Event) (chans : list string)
    (code : Z) (reason : string) (wasClean : bool) :
  timers w0 = [] -> timers v0 = [] -> code <> 1000%Z ->
  let σ := Robust.run es (Robust.new_service base cid, w0) in
  let σ' := Robust.run es' (Robust.new_service base cid, w0) in
  let φ := Fixed.run fs (Fixed.new_service fbase fcid, v0) in
  let φ' := Fixed.run fs' (Fixed.new_service fbase fcid, v0) in
  Robust.shouldReconnect σ'.1 = true ->
  (Robust.reconnectAttempts σ'.1 < Robust.maxReconnectAttempts σ'.1)%Z ->
  (Fixed.retryCount φ'.1 < Fixed.maxRetryAttempts φ'.1)%Z ->
  (next_timer (Robust.onclose 1000 reason wasClean σ).2 = next_timer σ.2 /\
   timers (Robust.onclose 1000 reason wasClean σ).2 `sublist_of` timers σ.2) /\
  (next_timer (Robust.onclose code reason wasClean σ').2 = S (next_timer σ'.2) /\
   Robust_pending_reconnect (Robust.onclose code reason wasClean σ').2
     = [{| timer_id := next_timer σ'.2; delay := Robust.currentInterval σ'.1;
           callback := Robust.ReconnectCb |}] /\
   Robust.reconnectTimer (Robust.onclose code reason wasClean σ').1
     = Some (next_timer σ'.2)) /\
  (length (Robust_pending_reconnect σ.2) <= 1)%nat /\
  (next_timer (Fixed.onclose chans 1000 reason wasClean φ).2 = next_timer φ.2 /\
   timers (Fixed.onclose chans 1000 reason wasClean φ).2 = timers φ.2) /\
  (next_timer (Fixed.onclose chans code reason wasClean φ').2 = S (next_timer φ'.2) /\
   Fixed_pending_reconnect (Fixed.onclose chans code reason wasClean φ').2
     = [{| timer_id := next_timer φ'.2; delay := Fixed.backoff_delay φ'.1;
           callback := Fixed.ReconnectCb chans |}] /\
   Fixed.reconnectTimer (Fixed.onclose chans code reason wasClean φ').1
     = Some (next_timer φ'.2)) /\
  (length (Fixed_pending_reconnect φ.2) <= 1)%nat.
Proof.
  intros Hw Hv Hc σ σ' φ φ' Hs Ha Hf.
  assert (Inv σ) by by apply Inv_run, Inv_initial.
  assert (Inv σ') by by apply Inv_run, Inv_initial.
  assert (FInv φ) by by apply FInv_run, FInv_initial.
  assert (FInv φ') by by apply FInv_run, FInv_initial.
  split; [apply Robust_onclose_normal|].
  split; [by apply Robust_onclose_schedules_one|].
  split; [by apply Robust_at_most_one_pending|].
  split; [apply Fixed_onclose_normal|].
  split; [by apply Fixed_onclose_schedules_one|].
  by apply Fixed_at_most_one_pending.
Qed.

End OneTimer.

Section EnvironmentClose.

Context {H C : Type}.

Implicit Types (w : World H C).

Lemma find_timer_None id w :
  (forall t, t ∈ timers w -> timer_id t <> id) -> find_timer id w = None.
Proof.
  intros Hn. unfold find_timer.
  destruct (list_find _ _) as [[i t]|] eqn:Hf; [|done].
  apply list_find_Some in Hf as (Hl & Hid & _).
  exfalso. eapply Hn; [|exact Hid]. by eapply list_elem_of_lookup_2.
Qed.

Lemma socket_close_timers i code reason w :
  timers (socket_close i code reason w) = timers w /\
  next_timer (socket_close i code reason w) = next_timer w /\
  length (sockets (socket_close i code reason w)) = length (sockets w).
Proof. split_and!; try done. apply length_update_socket. Qed.

End EnvironmentClose.

Section RobustDisconnect.

Context `{!Host}.

Import Robust.

Lemma disconnect_eq σ :
  disconnect σ =
    (set_reconnectAttempts 0 (set_isConnecting false (set_ws None (set_pingTimer None
       (set_reconnectTimer None (set_shouldReconnect false σ.1))))),
     from_option (fun i => socket_close i 1000 "Normal closure by client")
       id (ws σ.1)
       (from_option (fun id => clear_timer id
            (from_option (fun id => clear_timer id (console_write LogInfo "🔌 WebSocket 연결 해제" σ.2))
               (console_write LogInfo "🔌 WebSocket 연결 해제" σ.2) (reconnectTimer σ.1)))
          (from_option (fun id => clear_timer id (console_write LogInfo "🔌 WebSocket 연결 해제" σ.2))
             (console_write LogInfo "🔌 WebSocket 연결 해제" σ.2) (reconnectTimer σ.1))
          (pingTimer σ.1))).
Proof.
  unfold disconnect. rewrite clearReconnectTimer_eq, stopPingInterval_eq.
  destruct σ as [s w]. cbn. destruct (ws s) eqn:E; cbn; [done|].
  f_equal. destruct s; cbn in *. by subst.
Qed.

Lemma disconnect_idempotent σ :
  disconnect (disconnect σ) = log LogInfo "🔌 WebSocket 연결 해제" (disconnect σ).
Proof.
  rewrite (disconnect_eq (disconnect σ)). rewrite (disconnect_eq σ).
  unfold log, env. cbn [fst snd]. reflexivity.
Qed.

Lemma disconnect_state σ :
  shouldReconnect (disconnect σ).1 = false /\ reconnectTimer (disconnect σ).1 = None /\
  pingTimer (disconnect σ).1 = None /\ ws (disconnect σ).1 = None /\
  isConnecting (disconnect σ).1 = false.
Proof. by rewrite disconnect_eq. Qed.

Lemma disconnect_timers σ :
  timers (disconnect σ).2 `sublist_of` timers σ.2 /\
  next_timer (disconnect σ).2 = next_timer σ.2 /\
  length (sockets (disconnect σ).2) = length (sockets σ.2) /\
  (forall t, t ∈ timers (disconnect σ).2 ->
     reconnectTimer σ.1 <> Some (timer_id t) /\ pingTimer σ.1 <> Some (timer_id t)).
Proof.
  rewrite disconnect_eq. cbn [snd fst].
  set (w1 := console_write LogInfo "🔌 WebSocket 연결 해제" σ.2).
  set (w2 := from_option (fun id => clear_timer id w1) w1 (reconnectTimer σ.1)).
  set (w3 := from_option (fun id => clear_timer id w2) w2 (pingTimer σ.1)).
  assert (H3 : timers w3 `sublist_of` timers w2) by apply from_option_clear_sublist.
  assert (H2 : timers w2 `sublist_of` timers w1) by apply from_option_clear_sublist.
  assert (Hw : forall o, timers (from_option (fun i => socket_close i 1000 "Normal closure by client") id o w3) = timers w3
                      /\ next_timer (from_option (fun i => socket_close i 1000 "Normal closure by client") id o w3) = next_timer w3
                      /\ length (sockets (from_option (fun i => socket_close i 1000 "Normal closure by client") id o w3)) = length (sockets w3)).
  { intros [i|]; cbn [from_option]; [apply socket_close_timers|done]. }
  destruct (Hw (ws σ.1)) as (-> & -> & ->). split_and!.
  - by etrans.
  - unfold w3, w2. by rewrite !from_option_clear_next.
  - unfold w3, w2. by destruct (pingTimer σ.1), (reconnectTimer σ.1).
  - intros t Ht. split; intros E.
    + assert (Ht2 : t ∈ timers w2) by by eapply elem_of_sublist.
      unfold w2 in Ht2. rewrite E in Ht2. cbn in Ht2.
      apply list_elem_of_filter in Ht2 as [Hne _]. done.
    + unfold w3 in Ht. rewrite E in Ht. cbn in Ht.
      apply list_elem_of_filter in Ht as [Hne _]. done.
Qed.

(** After [disconnect] only timers of [forceReconnect] and of
    [testConnection] can be pending. *)
Lemma disconnect_cancels σ t :
  Inv σ -> t ∈ timers (disconnect σ).2 ->
  callback t = ForceReconnectCb \/ callback t = TestConnectionCb.
Proof.
  intros (_ & Hr & Hp) Ht.
  destruct (disconnect_timers σ) as (Hsub & _ & _ & Hne).
  destruct (Hne t Ht) as [H1 H2].
  assert (Ht0 : t ∈ timers σ.2) by by eapply elem_of_sublist.
  destruct (callback t) eqn:E; [| |by left|by right].
  - exfalso. apply H1, Hr; [done|]. by rewrite E.
  - exfalso. apply H2, Hp; [done|]. by rewrite E.
Qed.

Lemma disconnect_close_request σ i k :
  ws σ.1 = Some i -> sockets σ.2 !! i = Some k ->
  exists k', sockets (disconnect σ).2 !! i = Some k' /\
    closeCalls k' = closeCalls k ++ [(1000%Z, "Normal closure by client")] /\
    sent k' = sent k.
Proof.
  intros Hws Hk. rewrite disconnect_eq. cbn [snd]. rewrite Hws. cbn [from_option].
  set (w3 := from_option _ _ (pingTimer σ.1)).
  assert (Hs : sockets w3 = sockets σ.2).
  { unfold w3. by destruct (pingTimer σ.1), (reconnectTimer σ.1). }
  eexists. split.
  - apply lookup_update_socket_eq. by rewrite Hs.
  - done.
Qed.

Lemma reconnect_tick_stopped σ : shouldReconnect σ.1 = false -> reconnect_tick σ = σ.
Proof. intros Hs. unfold reconnect_tick. by rewrite Hs. Qed.

(** A reconnect timer that was pending before [disconnect] does nothing if
    its handle is fired afterwards: it has been cancelled. *)
Lemma fire_cancelled_timer σ t :
  Inv σ -> t ∈ timers σ.2 -> callback t = ReconnectCb ->
  fire_timer (timer_id t) (disconnect σ) = disconnect σ.
Proof.
  intros (_ & Hr & _) Ht Hc. unfold fire_timer.
  rewrite find_timer_None; [done|].
  intros t' Ht' Hid. destruct (disconnect_timers σ) as (_ & _ & _ & Hne).
  destruct (Hne t' Ht') as [H1 _]. apply H1. rewrite Hid. apply Hr; [done|]. by rewrite Hc.
Qed.

Lemma stopped_frame n (σ σ' : Sys) :
  shouldReconnect σ'.1 = shouldReconnect σ.1 ->
  length (sockets σ'.2) = length (sockets σ.2) ->
  timers σ'.2 = timers σ.2 ->
  Robust_stopped n σ -> Robust_stopped n σ'.
Proof. unfold Robust_stopped. intros -> -> ->. done. Qed.

Lemma stopped_clear n id σ : Robust_stopped n σ -> Robust_stopped n (env (clear_timer id) σ).
Proof.
  intros (Hs & Hn & Ht). split_and!; [done..|].
  intros t [_ Hin]%list_elem_of_filter. by apply Ht.
Qed.

Lemma stopped_set n cb d σ :
  cb <> ForceReconnectCb -> Robust_stopped n σ ->
  Robust_stopped n (σ.1, (set_timer cb d σ.2).2).
Proof.
  intros Hcb (Hs & Hn & Ht). split_and!; [done..|].
  intros t [Hin| ->%list_elem_of_singleton]%elem_of_app; [by apply Ht|done].
Qed.

Lemma stopped_clearReconnectTimer n σ :
  Robust_stopped n σ -> Robust_stopped n (clearReconnectTimer σ).
Proof.
  intros HK. rewrite clearReconnectTimer_eq.
  destruct (reconnectTimer σ.1) as [id|]; cbn [from_option].
  - apply (stopped_frame n (env (clear_timer id) σ)); [done..|]. by apply stopped_clear.
  - revert HK. by apply stopped_frame.
Qed.

Lemma stopped_stopPingInterval n σ :
  Robust_stopped n σ -> Robust_stopped n (stopPingInterval σ).
Proof.
  intros HK. rewrite stopPingInterval_eq.
  destruct (pingTimer σ.1) as [id|]; cbn [from_option].
  - apply (stopped_frame n (env (clear_timer id) σ)); [done..|]. by apply stopped_clear.
  - revert HK. by apply stopped_frame.
Qed.

Lemma stopped_startPingInterval n σ :
  Robust_stopped n σ -> Robust_stopped n (startPingInterval σ).
Proof.
  intros HK. unfold startPingInterval.
  apply stopped_stopPingInterval in HK. revert HK.
  generalize (stopPingInterval σ). intros σ1 HK.
  apply (stopped_frame n (σ1.1, (set_timer PingCb 30000 σ1.2).2)); [done..|].
  by apply stopped_set.
Qed.

Lemma stopped_send n data σ : Robust_stopped n σ -> Robust_stopped n (send data σ).2.
Proof.
  intros HK. unfold send. destruct (open_socket σ) as [i|].
  - destruct (JSON_stringify _); cbn [snd]; revert HK; apply stopped_frame; try done.
    cbn. apply length_update_socket.
  - cbn [snd fst log env this]. destruct HK as (Hs & ?). rewrite Hs. cbn [andb].
    apply (stopped_frame n σ); done.
Qed.

Lemma stopped_send_literal n fields σ :
  Robust_stopped n σ -> Robust_stopped n (send_literal fields σ).2.
Proof.
  intros HK. unfold send_literal, alloc. cbn [fst snd]. apply stopped_send.
  revert HK. by apply stopped_frame.
Qed.

Lemma stopped_ping_tick n σ : Robust_stopped n σ -> Robust_stopped n (ping_tick σ).
Proof.
  intros HK. unfold ping_tick. destruct (isConnected σ).
  - by apply stopped_send_literal.
  - apply stopped_stopPingInterval. revert HK. by apply stopped_frame.
Qed.

Lemma stopped_handleMessage n data σ :
  Robust_stopped n σ -> Robust_stopped n (handleMessage data σ).
Proof.
  destruct (handleMessage_frame data σ) as (E1 & E2 & E3 & _).
  apply stopped_frame; by rewrite ?E1, ?E2.
Qed.

Lemma stopped_onopen n σ : Robust_stopped n σ -> Robust_stopped n (onopen σ).
Proof.
  intros HK. unfold onopen.
  apply stopped_send_literal, stopped_startPingInterval, stopped_clearReconnectTimer.
  revert HK. by apply stopped_frame.
Qed.

Lemma stopped_onmessage n text σ : Robust_stopped n σ -> Robust_stopped n (onmessage text σ).
Proof.
  intros HK. unfold onmessage.
  destruct (JSON_parse text) as [e|data]; [revert HK; by apply stopped_frame|].
  destruct (get_prop data "type"); [revert HK; by apply stopped_frame|].
  apply stopped_handleMessage. revert HK. by apply stopped_frame.
Qed.

Lemma stopped_onerror n error σ : Robust_stopped n σ -> Robust_stopped n (onerror error σ).
Proof.
  intros HK. unfold onerror. cbn [fst snd log emit env this shouldReconnect set_isConnecting].
  destruct HK as (Hs & Hn & Ht). rewrite Hs. by split_and!.
Qed.

Lemma stopped_onclose n code reason wasClean σ :
  Robust_stopped n σ -> Robust_stopped n (onclose code reason wasClean σ).
Proof.
  intros HK. rewrite onclose_quiet by (left; apply HK).
  assert (HK' : Robust_stopped n (stopPingInterval (this (set_isConnecting false)
                  (log LogInfo "🔌 WebSocket 연결 종료:" σ)))).
  { apply stopped_stopPingInterval. revert HK. by apply stopped_frame. }
  revert HK'. by apply stopped_frame.
Qed.

Lemma stopped_disconnect n σ : Robust_stopped n σ -> Robust_stopped n (disconnect σ).
Proof.
  intros (Hs & Hn & Ht).
  destruct (disconnect_timers σ) as (Hsub & _ & Hlen & _).
  destruct (disconnect_state σ) as (Hs' & _).
  split_and!; [done|congruence|].
  intros t Hin. apply Ht. by eapply elem_of_sublist.
Qed.

Lemma stopped_fire_timer n id σ : Robust_stopped n σ -> Robust_stopped n (fire_timer id σ).
Proof.
  intros HK. unfold fire_timer.
  destruct (find_timer id σ.2) as [t|] eqn:Hf; [|done].
  apply find_timer_Some in Hf as [Hin _].
  destruct (callback t) eqn:E.
  - rewrite reconnect_tick_stopped by apply HK. by apply stopped_clear.
  - by apply stopped_ping_tick.
  - destruct HK as (_ & _ & Ht). by destruct (Ht t Hin).
  - by apply stopped_clear.
Qed.

Lemma stopped_deliver n i enabled after handler σ :
  (forall σ', Robust_stopped n σ' -> Robust_stopped n (handler σ')) ->
  Robust_stopped n σ -> Robust_stopped n (deliver i enabled after handler σ).
Proof.
  intros Hh HK. unfold deliver.
  destruct (sockets σ.2 !! i) as [k|] eqn:Hk; [|done].
  destruct (enabled (readyState k)); [|done].
  assert (HK' : Robust_stopped n
            (env (update_socket i (fun k0 => set_readyState (after (readyState k0)) k0)) σ)).
  { revert HK. apply stopped_frame; try done. cbn. apply length_update_socket. }
  destruct (handlers k); [by apply Hh|done].
Qed.

Lemma stopped_step n e σ :
  Robust_host_event e -> Robust_stopped n σ -> Robust_stopped n (step e σ).
Proof.
  intros He HK.
  destruct e as [i|i text|i error|i code reason wasClean|id|t|v|chans| |data| | ];
    cbn [step]; try (by destruct He).
  - apply stopped_deliver; auto using stopped_onopen.
  - apply stopped_deliver; auto using stopped_onmessage.
  - apply stopped_deliver; auto using stopped_onerror.
  - apply stopped_deliver; auto using stopped_onclose.
  - by apply stopped_fire_timer.
  - by apply stopped_disconnect.
  - by apply stopped_send.
Qed.

Lemma stopped_run n es σ :
  Forall Robust_host_event es -> Robust_stopped n σ -> Robust_stopped n (run es σ).
Proof.
  revert σ. induction es as [|e es IH]; intros σ Hall HK; [done|].
  apply Forall_cons in Hall as [He Hall]. cbn. apply IH; [done|]. by apply stopped_step.
Qed.

End RobustDisconnect.

Section FixedDisconnect.

Context `{!Host}.

Import Fixed.

Lemma Fixed_disconnect_eq σ :
  disconnect σ =
    (set_isConnecting false (set_ws None (set_retryCount (maxRetryAttempts σ.1)
       (set_reconnectTimer None σ.1))),
     from_option (fun i => socket_close i 1000 "Normal closure") id (ws σ.1)
       (from_option (fun id => clear_timer id (console_write LogInfo "🔌 Disconnecting WebSocket" σ.2))
          (console_write LogInfo "🔌 Disconnecting WebSocket" σ.2) (reconnectTimer σ.1))).
Proof.
  unfold disconnect. rewrite Fixed_clearReconnectTimer_eq.
  destruct σ as [s w]. cbn. destruct (ws s) eqn:E; cbn; [done|].
  f_equal. destruct s; cbn in *. by subst.
Qed.

Lemma Fixed_disconnect_idempotent σ :
  disconnect (disconnect σ) = log LogInfo "🔌 Disconnecting WebSocket" (disconnect σ).
Proof.
  rewrite (Fixed_disconnect_eq (disconnect σ)). rewrite (Fixed_disconnect_eq σ).
  unfold log, env. cbn [fst snd]. reflexivity.
Qed.

Lemma Fixed_disconnect_state σ :
  retryCount (disconnect σ).1 = maxRetryAttempts σ.1 /\
  maxRetryAttempts (disconnect σ).1 = maxRetryAttempts σ.1 /\
  reconnectTimer (disconnect σ).1 = None /\
  ws (disconnect σ).1 = None /\ isConnecting (disconnect σ).1 = false.
Proof. by rewrite Fixed_disconnect_eq. Qed.

Lemma Fixed_disconnect_timers σ :
  timers (disconnect σ).2 `sublist_of` timers σ.2 /\
  next_timer (disconnect σ).2 = next_timer σ.2 /\
  length (sockets (disconnect σ).2) = length (sockets σ.2) /\
  (forall t, t ∈ timers (disconnect σ).2 -> reconnectTimer σ.1 <> Some (timer_id t)).
Proof.
  rewrite Fixed_disconnect_eq. cbn [snd fst].
  set (w1 := console_write LogInfo "🔌 Disconnecting WebSocket" σ.2).
  set (w2 := from_option (fun id => clear_timer id w1) w1 (reconnectTimer σ.1)).
  assert (H2 : timers w2 `sublist_of` timers w1) by apply from_option_clear_sublist.
  assert (Hw : forall o, timers (from_option (fun i => socket_close i 1000 "Normal closure") id o w2) = timers w2
                      /\ next_timer (from_option (fun i => socket_close i 1000 "Normal closure") id o w2) = next_timer w2
                      /\ length (sockets (from_option (fun i => socket_close i 1000 "Normal closure") id o w2)) = length (sockets w2)).
  { intros [i|]; cbn [from_option]; [apply socket_close_timers|done]. }
  destruct (Hw (ws σ.1)) as (-> & -> & ->). split_and!.
  - done.
  - unfold w2. by rewrite from_option_clear_next.
  - unfold w2. by destruct (reconnectTimer σ.1).
  - intros t Ht E. unfold w2 in Ht. rewrite E in Ht. cbn in Ht.
    apply list_elem_of_filter in Ht as [Hne _]. done.
Qed.

(** After [disconnect] no timer of [scheduleReconnect] is pending. *)
Lemma Fixed_disconnect_cancels σ t :
  FInv σ -> t ∈ timers (disconnect σ).2 -> is_reconnect (callback t) = false.
Proof.
  intros (_ & Hr) Ht.
  destruct (Fixed_disconnect_timers σ) as (Hsub & _ & _ & Hne).
  assert (Ht0 : t ∈ timers σ.2) by by eapply elem_of_sublist.
  destruct (is_reconnect (callback t)) eqn:E; [|done].
  exfalso. apply (Hne t Ht), Hr; done.
Qed.

Lemma Fixed_disconnect_close_request σ i k :
  ws σ.1 = Some i -> sockets σ.2 !! i = Some k ->
  exists k', sockets (disconnect σ).2 !! i = Some k' /\
    closeCalls k' = closeCalls k ++ [(1000%Z, "Normal closure")] /\
    sent k' = sent k.
Proof.
  intros Hws Hk. rewrite Fixed_disconnect_eq. cbn [snd]. rewrite Hws. cbn [from_option].
  set (w2 := from_option _ _ (reconnectTimer σ.1)).
  assert (Hs : sockets w2 = sockets σ.2).
  { unfold w2. by destruct (reconnectTimer σ.1). }
  eexists. split.
  - apply lookup_update_socket_eq. by rewrite Hs.
  - done.
Qed.

Lemma Fixed_reconnect_tick_stopped chans σ :
  (maxRetryAttempts σ.1 <= retryCount σ.1)%Z -> reconnect_tick chans σ = σ.
Proof.
  intros Hs. unfold reconnect_tick.
  by rewrite (proj2 (Z.ltb_ge _ _)) by done.
Qed.

Lemma Fixed_fire_cancelled_timer σ t :
  FInv σ -> t ∈ timers σ.2 -> is_reconnect (callback t) = true ->
  fire_timer (timer_id t) (disconnect σ) = disconnect σ.
Proof.
  intros (_ & Hr) Ht Hc. unfold fire_timer.
  rewrite find_timer_None; [done|].
  intros t' Ht' Hid. destruct (Fixed_disconnect_timers σ) as (_ & _ & _ & Hne).
  apply (Hne t' Ht'). rewrite Hid. by apply Hr.
Qed.

Lemma Fixed_stopped_frame n (σ σ' : Sys) :
  retryCount σ'.1 = retryCount σ.1 -> maxRetryAttempts σ'.1 = maxRetryAttempts σ.1 ->
  sockets σ'.2 = sockets σ.2 ->
  Fixed_stopped n σ -> Fixed_stopped n σ'.
Proof. unfold Fixed_stopped, none_connecting. intros -> -> ->. done. Qed.

(** A change to one socket that does not make it connecting. *)
Lemma Fixed_stopped_update n i f (σ : Sys) :
  (forall k, readyState k <> CONNECTING -> readyState (f k) <> CONNECTING) ->
  Fixed_stopped n σ -> Fixed_stopped n (env (update_socket i f) σ).
Proof.
  intros Hf (Hs & Hn & Hc). split_and!; [done| |].
  - cbn [env snd]. by rewrite length_update_socket.
  - unfold none_connecting in *. cbn.
    destruct (sockets σ.2 !! i) as [k|] eqn:Hk; [|done].
    apply Forall_insert; [done|]. apply Hf.
    by eapply (proj1 (Forall_lookup _ _) Hc).
Qed.

Lemma Fixed_stopped_send n data σ : Fixed_stopped n σ -> Fixed_stopped n (send data σ).2.
Proof.
  intros HK. unfold send. destruct (open_socket σ) as [i|].
  - destruct (JSON_stringify _); cbn [snd]; [revert HK; by apply Fixed_stopped_frame|].
    apply (Fixed_stopped_frame n (env (socket_send i s) σ)); try done.
    by apply Fixed_stopped_update.
  - revert HK. by apply Fixed_stopped_frame.
Qed.

Lemma Fixed_stopped_handleMessage n data σ :
  Fixed_stopped n σ -> Fixed_stopped n (handleMessage data σ).
Proof.
  destruct (Fixed_handleMessage_frame data σ) as (E1 & E2 & _).
  apply Fixed_stopped_frame; by rewrite ?E1, ?E2.
Qed.

Lemma Fixed_stopped_onmessage n text σ :
  Fixed_stopped n σ -> Fixed_stopped n (onmessage text σ).
Proof.
  intros HK. unfold onmessage.
  destruct (JSON_parse text) as [e|data]; [revert HK; by apply Fixed_stopped_frame|].
  destruct (get_prop data "type"); [revert HK; by apply Fixed_stopped_frame|].
  apply Fixed_stopped_handleMessage. revert HK. by apply Fixed_stopped_frame.
Qed.

Lemma Fixed_stopped_onerror n chans error σ :
  Fixed_stopped n σ -> Fixed_stopped n (onerror chans error σ).
Proof. by apply Fixed_stopped_frame. Qed.

Lemma Fixed_stopped_onclose n chans code reason wasClean σ :
  Fixed_stopped n σ -> Fixed_stopped n (onclose chans code reason wasClean σ).
Proof.
  intros (Hs & Hn & Hc). unfold onclose.
  cbn [fst snd log emit env this retryCount maxRetryAttempts set_isConnecting].
  rewrite (proj2 (Z.ltb_ge _ _)) by done. rewrite andb_false_r.
  rewrite (proj2 (Z.leb_le _ _)) by done. done.
Qed.

Lemma Fixed_stopped_handleConnectionError n message chans σ :
  Fixed_stopped n σ -> Fixed_stopped n (handleConnectionError message chans σ).
Proof.
  intros (Hs & Hn & Hc). unfold handleConnectionError.
  cbn [fst snd log emit env this retryCount maxRetryAttempts set_isConnecting set_retryCount].
  rewrite (proj2 (Z.ltb_ge _ _)) by lia. split_and!; cbn; [lia|done|done].
Qed.

(** [ws.close] makes no socket connecting. *)
Lemma none_connecting_close {A B : Type} i code reason (w : World A B) :
  none_connecting w -> none_connecting (socket_close i code reason w).
Proof.
  unfold none_connecting. intros Hc. cbn.
  destruct (sockets w !! i) as [k|] eqn:Hk; [|done].
  apply Forall_insert; [done|]. cbn. by destruct (readyState k).
Qed.

Lemma Fixed_stopped_disconnect n σ : Fixed_stopped n σ -> Fixed_stopped n (disconnect σ).
Proof.
  intros (Hs & Hn & Hc).
  destruct (Fixed_disconnect_timers σ) as (_ & _ & Hlen & _).
  destruct (Fixed_disconnect_state σ) as (E1 & E2 & _).
  split_and!; [rewrite E1, E2; lia|congruence|].
  rewrite Fixed_disconnect_eq. cbn [snd].
  set (w2 := from_option _ _ (reconnectTimer σ.1)).
  assert (H2 : none_connecting w2).
  { unfold w2, none_connecting. by destruct (reconnectTimer σ.1). }
  destruct (ws σ.1); cbn [from_option]; [by apply none_connecting_close|done].
Qed.

Lemma Fixed_stopped_fire_timer n id σ :
  Fixed_stopped n σ -> Fixed_stopped n (fire_timer id σ).
Proof.
  intros HK. unfold fire_timer.
  destruct (find_timer id σ.2) as [t|]; [|done].
  assert (HK' : Fixed_stopped n (env (clear_timer id) σ)).
  { revert HK. by apply Fixed_stopped_frame. }
  destruct (callback t).
  - rewrite Fixed_reconnect_tick_stopped; [done|apply HK'].
  - by apply Fixed_stopped_handleConnectionError.
Qed.

Lemma Fixed_stopped_deliver n i enabled after handler σ :
  (forall r, r <> CONNECTING -> after r <> CONNECTING) ->
  (forall chans σ', Fixed_stopped n σ' -> Fixed_stopped n (handler chans σ')) ->
  Fixed_stopped n σ -> Fixed_stopped n (deliver i enabled after handler σ).
Proof.
  intros Ha Hh HK. unfold deliver.
  destruct (sockets σ.2 !! i) as [k|] eqn:Hk; [|done].
  destruct (enabled (readyState k)); [|done].
  assert (HK' : Fixed_stopped n
            (env (update_socket i (fun k0 => set_readyState (after (readyState k0)) k0)) σ)).
  { revert HK. apply Fixed_stopped_update. intros k0 Hk0. cbn. by apply Ha. }
  destruct (handlers k); [by apply Hh|done].
Qed.

(** No socket can open once none is connecting. *)
Lemma Fixed_stopped_open n i σ : Fixed_stopped n σ -> step (EvOpen i) σ = σ.
Proof.
  intros (_ & _ & Hc). cbn [step]. unfold deliver.
  destruct (sockets σ.2 !! i) as [k|] eqn:Hk; [|done].
  rewrite bool_decide_eq_false_2; [done|].
  by eapply (proj1 (Forall_lookup _ _) Hc).
Qed.

Lemma Fixed_stopped_step n e σ :
  Fixed_host_event e -> Fixed_stopped n σ -> Fixed_stopped n (step e σ).
Proof.
  intros He HK.
  destruct e as [i|i text|i error|i code reason wasClean|id|t|v|chans| |data| ];
    try (by destruct He).
  - by rewrite (Fixed_stopped_open n).
  - apply Fixed_stopped_deliver; auto using Fixed_stopped_onmessage.
  - apply Fixed_stopped_deliver; auto using Fixed_stopped_onerror.
  - apply Fixed_stopped_deliver; auto using Fixed_stopped_onclose.
  - by apply Fixed_stopped_fire_timer.
  - by apply Fixed_stopped_disconnect.
  - by apply Fixed_stopped_send.
Qed.

Lemma Fixed_stopped_run n es σ :
  Forall Fixed_host_event es -> Fixed_stopped n σ -> Fixed_stopped n (run es σ).
Proof.
  revert σ. induction es as [|e es IH]; intros σ Hall HK; [done|].
  apply Forall_cons in Hall as [He Hall]. cbn. apply IH; [done|]. by apply Fixed_stopped_step.
Qed.

End FixedDisconnect.


(** [send] on a service that never connected opens a socket. *)
Lemma send_when_idle_connects :
  Robust.open_socket robust_idle = None /\
  (@Robust.send sample_host 0 robust_idle).1 = false /\
  Robust.ws robust_idle.1 = None /\
  Robust.ws (@Robust.send sample_host 0 robust_idle).2.1 = Some 0%nat /\
  Robust.isConnecting robust_idle.1 = false /\
  Robust.isConnecting (@Robust.send sample_host 0 robust_idle).2.1 = true /\
  length (sockets robust_idle.2) = 0%nat /\
  length (sockets (@Robust.send sample_host 0 robust_idle).2.2) = 1%nat.
Proof. vm_compute. done. Qed.

(** After [disconnect] an abnormal closure is reported for the socket being
    closed: attempts remain, and no reconnect is scheduled. *)
Lemma close_after_disconnect_schedules_nothing :
  let σ := @Robust.step sample_host (Robust.EvClose 0 1006 EmptyString false)
             robust_disconnected in
  (1006 =? 1000)%Z = false /\
  Robust.reconnectAttempts robust_disconnected.1 = 0%Z /\
  Robust.maxReconnectAttempts robust_disconnected.1 = 10%Z /\
  emitted σ.2 = emitted robust_disconnected.2 ++ [disconnected_event 1006] /\
  timers σ.2 = [] /\ Robust.reconnectTimer σ.1 = None.
Proof. vm_compute. done. Qed.

Lemma close_schedules_at_most_one_witness :
  let es := [Robust.CallConnect ["analysis"; "alerts"]; Robust.EvOpen 0] in
  let fs := [Fixed.CallConnect ["analysis"; "alerts"]; Fixed.EvOpen 0] in
  let σ := @Robust.run sample_host es robust0 in
  let φ := @Fixed.run sample_host fs fixed0 in
  Robust_pending_reconnect (Robust.onclose 1006 EmptyString false σ).2
    = [{| timer_id := next_timer σ.2; delay := Robust.currentInterval σ.1;
          callback := Robust.ReconnectCb |}] /\
  Fixed_pending_reconnect (Fixed.onclose ["analysis"; "alerts"] 1006 EmptyString false φ).2
    = [{| timer_id := next_timer φ.2; delay := Fixed.backoff_delay φ.1;
          callback := Fixed.ReconnectCb ["analysis"; "alerts"] |}] /\
  timers (Fixed.onclose ["analysis"; "alerts"] 1000 EmptyString false φ).2 = timers φ.2.
Proof.
  intros es fs σ φ.
  destruct (@close_schedules_at_most_one sample_host "ws://localhost:8002/ws" "airiss-client"
              fresh_world es es "ws://localhost:8002/ws" "react-client" fresh_world fs fs
              ["analysis"; "alerts"] 1006%Z EmptyString false)
    as (_ & (_ & HR & _) & _ & (_ & HN) & (_ & HF & _) & _).
  - reflexivity.
  - reflexivity.
  - discriminate.
  - vm_compute. reflexivity.
  - vm_compute. reflexivity.
  - vm_compute. reflexivity.
  - split_and!; assumption.
Defined.

(** A frame that does not parse reaches the robust service: two console
    lines, and no event for the subscribers. *)
Lemma robust_parse_failure_is_silent :
  @JSON_parse sample_host "oops" = inl syntax_error /\
  emitted (@Robust.onmessage sample_host "oops" robust0).2 = emitted robust0.2 /\
  console (@Robust.onmessage sample_host "oops" robust0).2
    = [(LogError, "❌ 메시지 파싱 오류:"); (LogInfo, "📄 원본 데이터:")] /\
  emitted (@Fixed.onmessage sample_host "oops" fixed0).2 = emitted fixed0.2.
Proof. vm_compute. done. Qed.

Lemma malformed_frame_witness :
  emitted (@Enhanced.onmessage sample_host "oops" enhanced0).2 =
    emitted enhanced0.2 ++
      [("error", [JError (new_Error ("Message parse error: " +:+ exn_to_string syntax_error))])] /\
  (@Enhanced.onmessage sample_host "oops" enhanced0).1 = enhanced0.1 /\
  emitted (@Robust.onmessage sample_host "oops" robust0).2 = emitted robust0.2.
Proof.
  destruct (@malformed_frame sample_host "oops" "oops" "oops"
              syntax_error syntax_error syntax_error enhanced0 robust0 fixed0)
    as (H1 & H2 & _ & _ & _ & _ & H7 & _); try reflexivity.
  split_and!; assumption.
Defined.

(** The fixed service sends a payload without the client identity; the
    robust one replaces a [timestamp] the payload brought along. *)
Lemma fixed_message_lacks_client_id :
  (@Fixed.send sample_host 1 (fixed_open ping_payload)).1 = true /\
  obj_get "client_id" (Fixed_message 1 (fixed_open ping_payload)) = None /\
  (frames_written (@Fixed.send sample_host 1 (fixed_open ping_payload)).2.2
     = frames_written (fixed_open ping_payload).2
       ++ [render (JObj [("type", JStr "ping");
                         ("timestamp", JStr "2025-01-01T00:00:00.000Z")])]) /\
  (@Robust.send sample_host 1 (robust_open stamped_payload)).1 = true /\
  obj_get "timestamp" (spread (deref 1 (robust_open stamped_payload).2))
    = Some (JStr "1999-12-31T23:59:59.000Z") /\
  obj_get "timestamp" (Robust_message 1 (robust_open stamped_payload))
    = Some (JStr "2025-01-01T00:00:00.000Z").
Proof. vm_compute. done. Qed.

Lemma outbound_message_witness :
  obj_get "type" (Robust_message 1 (robust_open ping_payload)) = Some (JStr "ping") /\
  obj_get "client_id" (Robust_message 1 (robust_open ping_payload))
    = Some (JStr (Robust.clientId (robust_open ping_payload).1)) /\
  heap (@Robust.send sample_host 1 (robust_open ping_payload)).2.2
    = heap (robust_open ping_payload).2 /\
  heap (@Fixed.send sample_host 1 (fixed_open ping_payload)).2.2
    = heap (fixed_open ping_payload).2.
Proof.
  destruct (@outbound_message sample_host 1%nat (robust_open ping_payload)
              (fixed_open ping_payload))
    as (_ & Hkeep & _ & Hid & Hheap & _ & _ & _ & _ & Hfheap).
  - vm_compute. reflexivity.
  - vm_compute. reflexivity.
  - split_and!; try assumption.
    apply Hkeep; [reflexivity|discriminate|discriminate].
Defined.

(** A frame of type [heartbeat] reaches the fixed service: it is logged and
    no event is dispatched. *)
Lemma fixed_drops_unknown_type :
  @JSON_parse sample_host (render unknown_frame) = inr unknown_frame /\
  get_prop unknown_frame "type" = inr (JStr "heartbeat") /\
  bool_decide ("heartbeat" ∈ Fixed_recognized) = false /\
  emitted (@Fixed.onmessage sample_host (render unknown_frame) fixed0).2 = [] /\
  console (@Fixed.onmessage sample_host (render unknown_frame) fixed0).2
    = [(LogInfo, "📨 WebSocket message received:"); (LogWarn, "⚠️ Unknown message type:")].
Proof. vm_compute. done. Qed.

Lemma unknown_type_dispatch_witness :
  emitted (@Robust.onmessage sample_host (render unknown_frame) robust0).2
    = emitted robust0.2 ++ [("message", [unknown_frame])] /\
  emitted (@Fixed.onmessage sample_host (render unknown_frame) fixed0).2 = emitted fixed0.2.
Proof.
  destruct (@unknown_type_dispatch sample_host (render unknown_frame) (render unknown_frame)
              unknown_frame unknown_frame (JStr "heartbeat") (JStr "heartbeat")
              robust0 fixed0)
    as (_ & HR & _ & HF).
  - vm_compute. reflexivity.
  - reflexivity.
  - intros s [= <-]. apply (bool_decide_eq_false_1 ("heartbeat" ∈ Robust_recognized)).
    vm_compute. reflexivity.
  - vm_compute. reflexivity.
  - reflexivity.
  - intros s [= <-]. apply (bool_decide_eq_false_1 ("heartbeat" ∈ Fixed_recognized)).
    vm_compute. reflexivity.
  - split; assumption.
Defined.

Section RobustTimers.

Context `{!Host}.

(** X1. The timers of the heartbeat and of [scheduleReconnect] are tracked.
    In every state the robust service reaches from a freshly loaded page by
    calls to [connect], [disconnect], [send], [forceReconnect] and
    [testConnection], socket events and timer firings, the pending timers
    have distinct handles, a pending heartbeat interval is the one behind
    [this.pingTimer] and a pending reconnect timer the one behind
    [this.reconnectTimer]; hence at most one of each is pending.  The timers
    of [forceReconnect] and of [testConnection] are stored nowhere and are
    not among them. *)
Theorem robust_timers_are_tracked (base cid : string) (w0 : World () Robust.TimerCb)
    (es : list Robust.Event) :
  timers w0 = [] ->
  let σ := Robust.run es (Robust.new_service base cid, w0) in
  NoDup (timer_id <$> timers σ.2) /\
  (forall t, t ∈ timers σ.2 -> callback t = Robust.PingCb ->
     Robust.pingTimer σ.1 = Some (timer_id t)) /\
  (forall t, t ∈ timers σ.2 -> callback t = Robust.ReconnectCb ->
     Robust.reconnectTimer σ.1 = Some (timer_id t)) /\
  (length (Robust_pending_ping σ.2) <= 1)%nat /\
  (length (Robust_pending_reconnect σ.2) <= 1)%nat.
Proof.
  intros Hw σ.
  assert (HI : Inv σ) by (apply Inv_run, Inv_initial, Hw).
  destruct HI as ([Hlt Hnd] & Hr & Hp). split_and!.
  - exact Hnd.
  - intros t Ht Hc. by apply Hp.
  - intros t Ht Hc. by apply Hr.
  - exact (tracked_at_most_one (eq Robust.PingCb) _ _ (conj Hlt Hnd) Hp).
  - exact (tracked_at_most_one (eq Robust.ReconnectCb) _ _ (conj Hlt Hnd) Hr).
Qed.

End RobustTimers.

(** Connect, open, close abnormally, let the reconnect timer fire, open
    again: one heartbeat interval is pending, the second one. *)
Lemma robust_timers_are_tracked_witness :
  let es := [Robust.CallConnect ["analysis"; "alerts"]; Robust.EvOpen 0;
             Robust.EvClose 0 1006 EmptyString false; Robust.EvTimer 2;
             Robust.EvOpen 1] in
  let σ := @Robust.run sample_host es robust0 in
  (length (Robust_pending_ping σ.2) <= 1)%nat /\
  (length (Robust_pending_reconnect σ.2) <= 1)%nat /\
  timer_id <$> timers σ.2 = [3%nat].
Proof.
  intros es σ.
  destruct (@robust_timers_are_tracked sample_host "ws://localhost:8002/ws" "airiss-client"
              fresh_world es eq_refl) as (_ & _ & _ & Hp & Hr).
  split_and!; [exact Hp|exact Hr|].
  vm_compute. reflexivity.
Defined.

Section RobustConnectFailure.

Context `{!Host}.

Import Robust.

Lemma connect_rejected chans σ e :
  isConnecting σ.1 = false -> isConnected σ = false ->
  WebSocket_rejects (target σ.1 chans) = Some e ->
  connect chans σ =
    scheduleReconnect
      (set_isConnecting false
         (set_shouldReconnect true (set_channels chans (set_isConnecting true σ.1))),
       dispatch "error" [JError e]
         (console_write LogError "❌ WebSocket 생성 실패:"
            (console_write LogInfo "🔄 재연결 시도:"
               (console_write LogInfo "📡 채널:"
                  (console_write LogInfo "🔌 WebSocket 연결 시도:" σ.2))))).
Proof.
  intros Hc Ho Hurl. unfold connect. rewrite Hc, Ho. unfold target in Hurl.
  cbn. rewrite Hurl. reflexivity.
Qed.

(** [connect] never switches reconnection off. *)
Lemma connect_keeps_reconnecting chans σ :
  shouldReconnect σ.1 = true -> shouldReconnect (connect chans σ).1 = true.
Proof.
  intros Hs.
  destruct (isConnecting σ.1) eqn:Hc.
  { destruct (connect_noop chans σ) as [l E]; [auto|]. by rewrite E. }
  destruct (isConnected σ) eqn:Ho.
  { destruct (connect_noop chans σ) as [l E]; [auto|]. by rewrite E. }
  destruct (WebSocket_rejects (target σ.1 chans)) as [e|] eqn:Hurl.
  - rewrite (connect_rejected _ _ e) by done.
    match goal with |- context [scheduleReconnect ?x] =>
      destruct (scheduleReconnect_frame x) as (_ & _ & _ & -> & _) end.
    done.
  - by rewrite connect_creates.
Qed.

Lemma send_keeps_reconnecting data σ :
  shouldReconnect σ.1 = true -> shouldReconnect (send data σ).2.1 = true.
Proof.
  intros Hs. unfold send.
  destruct (open_socket σ); [by destruct (JSON_stringify _)|].
  cbn [fst snd]. case_match; [|done]. by apply connect_keeps_reconnecting.
Qed.

Lemma onopen_keeps_reconnecting σ :
  shouldReconnect σ.1 = true -> shouldReconnect (onopen σ).1 = true.
Proof.
  intros Hs. unfold onopen, send_literal, alloc. cbn [fst snd].
  apply send_keeps_reconnecting.
  unfold startPingInterval. rewrite stopPingInterval_eq, clearReconnectTimer_eq. done.
Qed.

End RobustConnectFailure.

Section AfterOpen.

Context `{!Host}.

(** X3. The first reconnect after a successful open waits for the base delay:
    when a socket has opened and is then closed abnormally, the robust
    service schedules its reconnect after 3000 ms and the enhanced service
    after 5000 ms, whatever the number of failures before the open. *)
Theorem first_delay_after_open_is_base (code : Z) (reason : string) (wasClean : bool)
    (σr : Robust.Sys) (σe : Enhanced.Sys) :
  code <> 1000%Z ->
  Robust.shouldReconnect σr.1 = true -> (0 < Robust.maxReconnectAttempts σr.1)%Z ->
  Robust.maxReconnectInterval σr.1 = 30000%Q ->
  Enhanced.shouldReconnect σe.1 = true -> (0 < Enhanced.maxReconnectAttempts σe.1)%Z ->
  Enhanced.reconnectInterval σe.1 = 5000%Q ->
  (Robust.reconnectAttempts (Robust.onopen σr).1 = 0%Z /\
   exists t,
     last (timers (Robust.onclose code reason wasClean (Robust.onopen σr)).2) = Some t /\
     callback t = Robust.ReconnectCb /\ delay t == 3000 /\
     Robust.reconnectTimer (Robust.onclose code reason wasClean (Robust.onopen σr)).1
       = Some (timer_id t)) /\
  (Enhanced.reconnectAttempts (Enhanced.onopen σe).1 = 0%Z /\
   exists t,
     last (timers (Enhanced.onclose code reason wasClean (Enhanced.onopen σe)).2) = Some t /\
     callback t = Enhanced.ReconnectCb /\ delay t == 5000).
Proof.
  intros Hc Hrs Hrm Hrcap Hes Hem Hei. split; split.
  - apply Robust_onopen_resets.
  - apply Robust_first_delay_after_open; try done. by apply onopen_keeps_reconnecting.
  - apply Enhanced_onopen_resets.
  - by apply Enhanced_first_delay_after_open.
Qed.

End AfterOpen.

(** Three failures, then a socket that opens and is closed abnormally. *)
Lemma first_delay_after_open_is_base_witness :
  let σr := @Robust.run sample_host
              [Robust.CallConnect ["analysis"]; Robust.EvClose 0 1006 EmptyString false;
               Robust.EvTimer 1; Robust.EvClose 1 1006 EmptyString false;
               Robust.EvTimer 2] robust0 in
  Robust.reconnectAttempts σr.1 = 2%Z /\
  Robust.reconnectAttempts (@Robust.onopen sample_host σr).1 = 0%Z /\
  exists t,
    last (timers (Robust.onclose 1006 EmptyString false (@Robust.onopen sample_host σr)).2)
      = Some t /\ delay t == 3000.
Proof.
  intros σr.
  destruct (@first_delay_after_open_is_base sample_host 1006%Z EmptyString false σr enhanced0)
    as ((H0 & t & Ht & _ & Hd & _) & _);
    try (vm_compute; reflexivity); [discriminate|].
  split; [vm_compute; reflexivity|]. split; [exact H0|]. exists t. split; assumption.
Defined.

Section Inbound.

Context `{!Host}.

Lemma Enhanced_handleMessage_frame data σ :
  (Enhanced.handleMessage data σ).1 = σ.1 /\
  sockets (Enhanced.handleMessage data σ).2 = sockets σ.2 /\
  timers (Enhanced.handleMessage data σ).2 = timers σ.2 /\
  next_timer (Enhanced.handleMessage data σ).2 = next_timer σ.2 /\
  heap (Enhanced.handleMessage data σ).2 = heap σ.2.
Proof. unfold Enhanced.handleMessage. repeat case_match; done. Qed.

Lemma Robust_handleMessage_events data σ :
  emitted (Robust.handleMessage data σ).2 = emitted σ.2 \/
  exists ev, emitted (Robust.handleMessage data σ).2 = emitted σ.2 ++ [ev].
Proof. unfold Robust.handleMessage. repeat case_match; cbn; eauto. Qed.

Lemma Fixed_handleMessage_events data σ :
  emitted (Fixed.handleMessage data σ).2 = emitted σ.2 \/
  exists ev, emitted (Fixed.handleMessage data σ).2 = emitted σ.2 ++ [ev].
Proof. unfold Fixed.handleMessage. repeat case_match; cbn; eauto. Qed.

Lemma Enhanced_handleMessage_events data σ :
  emitted (Enhanced.handleMessage data σ).2 = emitted σ.2 \/
  exists ev, emitted (Enhanced.handleMessage data σ).2 = emitted σ.2 ++ [ev].
Proof. unfold Enhanced.handleMessage. repeat case_match; cbn; eauto. Qed.

(** X4. Whatever text arrives, an inbound frame changes nothing of the
    connection: the fields of the service, the sockets, the pending timers
    and the heap are as before in all three services, and at most one event
    is dispatched for the frame. *)
Theorem inbound_frame_is_inert (text : string)
    (σr : Robust.Sys) (σf : Fixed.Sys) (σe : Enhanced.Sys) :
  ((Robust.onmessage text σr).1 = σr.1 /\
   sockets (Robust.onmessage text σr).2 = sockets σr.2 /\
   timers (Robust.onmessage text σr).2 = timers σr.2 /\
   heap (Robust.onmessage text σr).2 = heap σr.2 /\
   (emitted (Robust.onmessage text σr).2 = emitted σr.2 \/
    exists ev, emitted (Robust.onmessage text σr).2 = emitted σr.2 ++ [ev])) /\
  ((Fixed.onmessage text σf).1 = σf.1 /\
   sockets (Fixed.onmessage text σf).2 = sockets σf.2 /\
   timers (Fixed.onmessage text σf).2 = timers σf.2 /\
   heap (Fixed.onmessage text σf).2 = heap σf.2 /\
   (emitted (Fixed.onmessage text σf).2 = emitted σf.2 \/
    exists ev, emitted (Fixed.onmessage text σf).2 = emitted σf.2 ++ [ev])) /\
  ((Enhanced.onmessage text σe).1 = σe.1 /\
   sockets (Enhanced.onmessage text σe).2 = sockets σe.2 /\
   timers (Enhanced.onmessage text σe).2 = timers σe.2 /\
   heap (Enhanced.onmessage text σe).2 = heap σe.2 /\
   (emitted (Enhanced.onmessage text σe).2 = emitted σe.2 \/
    exists ev, emitted (Enhanced.onmessage text σe).2 = emitted σe.2 ++ [ev])).
Proof.
  split; [|split].
  - unfold Robust.onmessage.
    destruct (JSON_parse text) as [e|data]; [cbn; eauto 10|].
    destruct (get_prop data "type"); [cbn; eauto 10|].
    match goal with |- context [Robust.handleMessage ?d ?x] =>
      destruct (handleMessage_frame d x) as (-> & -> & -> & _ & -> & _);
      destruct (Robust_handleMessage_events d x) as [->|[ev ->]] end;
      cbn; eauto 10.
  - unfold Fixed.onmessage.
    destruct (JSON_parse text) as [e|data]; [cbn; eauto 10|].
    destruct (get_prop data "type"); [cbn; eauto 10|].
    match goal with |- context [Fixed.handleMessage ?d ?x] =>
      destruct (Fixed_handleMessage_frame d x) as (-> & -> & -> & _ & -> & _);
      destruct (Fixed_handleMessage_events d x) as [->|[ev ->]] end;
      cbn; eauto 10.
  - unfold Enhanced.onmessage.
    destruct (JSON_parse text) as [e|data]; [cbn; eauto 10|].
    destruct (get_prop data "type"); [cbn; eauto 10|].
    match goal with |- context [Enhanced.handleMessage ?d ?x] =>
      destruct (Enhanced_handleMessage_frame d x) as (-> & -> & -> & _ & ->);
      destruct (Enhanced_handleMessage_events d x) as [->|[ev ->]] end;
      cbn; eauto 10.
Qed.

End Inbound.

Section SendFailure.

Context `{!Host}.

Lemma Robust_isConnected_open σ :
  Robust.isConnected σ = true -> exists i, Robust.open_socket σ = Some i.
Proof. intros [i Hi]%bool_decide_eq_true. eauto. Qed.

Lemma Fixed_isConnected_open σ :
  Fixed.isConnected σ = true -> exists i, Fixed.open_socket σ = Some i.
Proof. intros [i Hi]%bool_decide_eq_true. eauto. Qed.

Lemma Enhanced_isConnected_open σ :
  Enhanced.isConnected σ = true -> exists i, Enhanced.open_socket σ = Some i.
Proof. intros [i Hi]%bool_decide_eq_true. eauto. Qed.

End SendFailure.

Section Status.

Context `{!Host}.

(** X6. [isConnected()] and [getConnectionStatus()] agree in all three services:
    the first returns [true] exactly when the second returns ['connected'],
    and the status is ['disconnected'] exactly when the service holds no
    socket, as it does after [disconnect()]. *)
Theorem status_agrees_with_isConnected
    (σr : Robust.Sys) (σf : Fixed.Sys) (σe : Enhanced.Sys) :
  ((Robust.isConnected σr = true <-> Robust.getConnectionStatus σr = "connected") /\
   (Robust.ws σr.1 = None <-> Robust.getConnectionStatus σr = "disconnected") /\
   Robust.getConnectionStatus (Robust.disconnect σr) = "disconnected" /\
   Robust.isConnected (Robust.disconnect σr) = false) /\
  ((Fixed.isConnected σf = true <-> Fixed.getConnectionStatus σf = "connected") /\
   (Fixed.ws σf.1 = None <-> Fixed.getConnectionStatus σf = "disconnected") /\
   Fixed.getConnectionStatus (Fixed.disconnect σf) = "disconnected" /\
   Fixed.isConnected (Fixed.disconnect σf) = false) /\
  ((Enhanced.isConnected σe = true <-> Enhanced.getConnectionStatus σe = "connected") /\
   (Enhanced.ws σe.1 = None <-> Enhanced.getConnectionStatus σe = "disconnected") /\
   Enhanced.getConnectionStatus (Enhanced.disconnect σe) = "disconnected" /\
   Enhanced.isConnected (Enhanced.disconnect σe) = false).
Proof.
  split; [|split].
  - split_and!.
    + unfold Robust.isConnected, Robust.open_socket, Robust.getConnectionStatus.
      destruct (Robust.ws σr.1) as [i|]; cbn;
        [destruct (sockets σr.2 !! i) as [k|]; cbn; [destruct (readyState k); cbn|]|];
        status_leaf.
    + unfold Robust.getConnectionStatus.
      destruct (Robust.ws σr.1) as [i|]; [|done].
      destruct (sockets σr.2 !! i) as [k|]; [destruct (readyState k)|]; done.
    + destruct (disconnect_state σr) as (_ & _ & _ & Hws & _).
      unfold Robust.getConnectionStatus. by rewrite Hws.
    + destruct (disconnect_state σr) as (_ & _ & _ & Hws & _).
      by apply isConnected_no_socket.
  - split_and!.
    + unfold Fixed.isConnected, Fixed.open_socket, Fixed.getConnectionStatus.
      destruct (Fixed.ws σf.1) as [i|]; cbn;
        [destruct (sockets σf.2 !! i) as [k|]; cbn; [destruct (readyState k); cbn|]|];
        status_leaf.
    + unfold Fixed.getConnectionStatus.
      destruct (Fixed.ws σf.1) as [i|]; [|done].
      destruct (sockets σf.2 !! i) as [k|]; [destruct (readyState k)|]; done.
    + destruct (Fixed_disconnect_state σf) as (_ & _ & _ & Hws & _).
      unfold Fixed.getConnectionStatus. by rewrite Hws.
    + destruct (Fixed_disconnect_state σf) as (_ & _ & _ & Hws & _).
      by apply Fixed_isConnected_no_socket.
  - assert (Hws : Enhanced.ws (Enhanced.disconnect σe).1 = None).
    { unfold Enhanced.disconnect, Enhanced.stopPingInterval, Enhanced.clearReconnectTimer.
      cbn. repeat case_match; done. }
    split_and!.
    + unfold Enhanced.isConnected, Enhanced.open_socket, Enhanced.getConnectionStatus.
      destruct (Enhanced.ws σe.1) as [i|]; cbn;
        [destruct (sockets σe.2 !! i) as [k|]; cbn; [destruct (readyState k); cbn|]|];
        status_leaf.
    + unfold Enhanced.getConnectionStatus.
      destruct (Enhanced.ws σe.1) as [i|]; [|done].
      destruct (sockets σe.2 !! i) as [k|]; [destruct (readyState k)|]; done.
    + unfold Enhanced.getConnectionStatus. by rewrite Hws.
    + unfold Enhanced.isConnected, Enhanced.open_socket. by rewrite Hws.
Qed.

End Status.

Section FixedGivesUp.

Context `{!Host}.

Import Fixed.

Lemma Fixed_onclose_exhausted chans code reason wasClean σ :
  (maxRetryAttempts σ.1 <= retryCount σ.1)%Z ->
  onclose chans code reason wasClean σ =
    (set_isConnecting false σ.1,
     dispatch "maxRetriesReached" []
       (console_write LogError "❌ Max retry attempts reached. Please check server status."
          (dispatch "disconnected" []
             (console_write LogInfo "🔌 WebSocket disconnected:" σ.2)))).
Proof.
  intros Hge. unfold onclose.
  cbn [fst snd log emit env this retryCount maxRetryAttempts set_isConnecting].
  rewrite (proj2 (Z.ltb_ge _ _)) by done. rewrite andb_false_r.
  rewrite (proj2 (Z.leb_le _ _)) by done. reflexivity.
Qed.

(** X7. Once the retry budget of the fixed service is used up, every close event
    is answered with ['disconnected'] followed by ['maxRetriesReached'] and
    schedules nothing, whatever the close code.  [disconnect()] uses the
    budget up, so the normal closure it asks for is reported to the
    subscribers as ['maxRetriesReached'] too. *)
Theorem fixed_close_after_disconnect_reports_max_retries
    (chans : list string) (code : Z) (reason : string) (wasClean : bool) (σ φ : Sys) :
  (maxRetryAttempts σ.1 <= retryCount σ.1)%Z ->
  (emitted (onclose chans code reason wasClean σ).2
     = emitted σ.2 ++ [("disconnected", []); ("maxRetriesReached", [])] /\
   timers (onclose chans code reason wasClean σ).2 = timers σ.2 /\
   sockets (onclose chans code reason wasClean σ).2 = sockets σ.2 /\
   retryCount (onclose chans code reason wasClean σ).1 = retryCount σ.1) /\
  (emitted (onclose chans 1000 reason wasClean (disconnect φ)).2
     = emitted φ.2 ++ [("disconnected", []); ("maxRetriesReached", [])] /\
   timers (onclose chans 1000 reason wasClean (disconnect φ)).2 = timers (disconnect φ).2).
Proof.
  intros Hge. split.
  - rewrite Fixed_onclose_exhausted by done. cbn. by rewrite <- app_assoc.
  - destruct (Fixed_disconnect_state φ) as (E1 & E2 & _).
    assert (He : emitted (disconnect φ).2 = emitted φ.2).
    { rewrite Fixed_disconnect_eq. cbn. by destruct (ws φ.1), (reconnectTimer φ.1). }
    assert (Hψ : (maxRetryAttempts (disconnect φ).1 <= retryCount (disconnect φ).1)%Z)
      by (rewrite E1, E2; lia).
    revert He Hψ. generalize (disconnect φ). intros ψ He Hψ.
    rewrite Fixed_onclose_exhausted by done. cbn. by rewrite <- app_assoc, He.
Qed.

End FixedGivesUp.

(** The application connects, the socket opens, the application disconnects,
    and the browser reports the normal closure. *)
Lemma fixed_close_after_disconnect_reports_max_retries_witness :
  let φ := @Fixed.run sample_host
             [Fixed.CallConnect ["analysis"; "alerts"]; Fixed.EvOpen 0] fixed0 in
  emitted (Fixed.onclose ["analysis"; "alerts"] 1000 EmptyString true (Fixed.disconnect φ)).2
    = emitted φ.2 ++ [("disconnected", []); ("maxRetriesReached", [])] /\
  emitted (@Fixed.run sample_host
             [Fixed.CallConnect ["analysis"; "alerts"]; Fixed.EvOpen 0;
              Fixed.CallDisconnect; Fixed.EvClose 0 1000 EmptyString true] fixed0).2
    = [("connected", []); ("disconnected", []); ("maxRetriesReached", [])].
Proof.
  intros φ.
  destruct (@fixed_close_after_disconnect_reports_max_retries
              ["analysis"; "alerts"] 1000%Z EmptyString true (Fixed.disconnect φ) φ)
    as (_ & H2 & _).
  - vm_compute. discriminate.
  - split; [exact H2|]. vm_compute. reflexivity.
Defined.

Section EnvironmentFind.

Context {H C : Type}.

Implicit Types (w : World H C) (t : Timer C).

(** The timer set last is found under its handle when the handle is fresh. *)
Lemma find_timer_last w l t :
  timers w = l ++ [t] -> (forall t', t' ∈ l -> timer_id t' <> timer_id t) ->
  find_timer (timer_id t) w = Some t.
Proof.
  intros Hw Hfresh. unfold find_timer. rewrite Hw.
  rewrite list_find_app_r.
  - cbn. by rewrite decide_True.
  - apply list_find_None, Forall_forall. intros t' Ht'. by apply Hfresh.
Qed.

Lemma filter_all {A : Type} (P : A -> Prop) `{!forall x, Decision (P x)} (l : list A) :
  (forall x, x ∈ l -> P x) -> filter P l = l.
Proof.
  induction l as [|x l IH]; intros HP; [done|].
  rewrite filter_cons_True by (apply HP; left).
  f_equal. apply IH. intros y Hy. apply HP. by right.
Qed.

Lemma clear_timer_last w l t :
  timers w = l ++ [t] -> (forall t', t' ∈ l -> timer_id t' <> timer_id t) ->
  timers (clear_timer (timer_id t) w) = l.
Proof.
  intros Hw Hfresh. cbn. rewrite Hw, filter_app, filter_cons_False, filter_nil, app_nil_r
    by (intros Hn; by apply Hn).
  apply filter_all. intros t' Ht'. by apply Hfresh.
Qed.

End EnvironmentFind.

Section ForceReconnect.

Context `{!Host}.

Import Robust.

Lemma disconnect_keeps σ :
  url (disconnect σ).1 = url σ.1 /\ clientId (disconnect σ).1 = clientId σ.1 /\
  channels (disconnect σ).1 = channels σ.1 /\ reconnectAttempts (disconnect σ).1 = 0%Z /\
  timers (disconnect (log LogInfo "🔄 강제 재연결 시도" σ)).2 = timers (disconnect σ).2 /\
  sockets (disconnect (log LogInfo "🔄 강제 재연결 시도" σ)).2 = sockets (disconnect σ).2.
Proof.
  rewrite !disconnect_eq. cbn.
  split_and!; try done; by destruct (ws σ.1), (pingTimer σ.1), (reconnectTimer σ.1).
Qed.

(** X8. [forceReconnect()] is [disconnect()] followed, one second later, by
    [connect(this.channels)].  In every state the service can reach,
    [forceReconnect] leaves it disconnected (no socket handle, reconnection
    off, the old socket asked to close with code 1000) with one new timer of
    1000 ms; when that timer fires, and the constructor accepts the address,
    exactly one new socket is opened for the same client id and channels,
    the service is connecting and reconnecting again, and the attempt
    counter starts from 0. *)
Theorem force_reconnect_reopens (base cid : string) (w0 : World () TimerCb)
    (es : list Event) :
  timers w0 = [] ->
  let σ := run es (new_service base cid, w0) in
  let σ1 := forceReconnect σ in
  let σ2 := step (EvTimer (next_timer σ.2)) σ1 in
  WebSocket_rejects (url σ.1 +:+ "/" +:+ clientId σ.1 +:+ "?channels=" +:+
                       String.concat "," (channels σ.1)) = None ->
  (shouldReconnect σ1.1 = false /\ ws σ1.1 = None /\
   sockets σ1.2 = sockets (disconnect σ).2 /\
   timers σ1.2 = timers (disconnect σ).2 ++
     [{| timer_id := next_timer σ.2; delay := 1000; callback := ForceReconnectCb |}]) /\
  (ws σ2.1 = Some (length (sockets σ.2)) /\
   sockets σ2.2 = sockets (disconnect σ).2 ++
     [set_handlers () (new_socket (url σ.1 +:+ "/" +:+ clientId σ.1 +:+ "?channels=" +:+
                                     String.concat "," (channels σ.1)))] /\
   isConnecting σ2.1 = true /\ shouldReconnect σ2.1 = true /\
   channels σ2.1 = channels σ.1 /\ reconnectAttempts σ2.1 = 0%Z /\
   timers σ2.2 = timers (disconnect σ).2).
Proof.
  intros Hw σ σ1 σ2 Hurl.
  assert (HI : Inv σ) by (apply Inv_run, Inv_initial, Hw).
  set (σ' := log LogInfo "🔄 강제 재연결 시도" σ).
  assert (HI' : Inv (disconnect σ')).
  { apply Inv_disconnect. revert HI. by apply Inv_frame. }
  destruct (disconnect_keeps σ) as (Ku & Kc & Kch & Ka & Kt & Ks).
  destruct (disconnect_keeps σ') as (Ku' & Kc' & Kch' & Ka' & _ & _).
  destruct (disconnect_state σ') as (D1 & D2 & D3 & D4 & D5).
  destruct (disconnect_timers σ') as (_ & Dn & Dl & _).
  destruct (disconnect_timers σ) as (_ & _ & Dl0 & _).
  fold σ' in Kt, Ks.
  assert (E1 : σ1 = ((disconnect σ').1, (set_timer ForceReconnectCb 1000 (disconnect σ').2).2))
    by reflexivity.
  clearbody σ1. subst σ1. clear Ku Kc Ka.
  revert HI' Ku' Kc' Kch' Ka' D1 D2 D3 D4 D5 Dn Dl Kt Ks σ2.
  generalize (disconnect σ'). intros ψ.
  revert Kch Dl0. generalize (disconnect σ). intros δ Kch Dl0.
  intros HI' Ku' Kc' Kch' Ka' D1 D2 D3 D4 D5 Dn Dl Kt Ks σ2.
  cbn in Ku', Kc', Kch', Dn, Dl.
  split.
  - cbn. rewrite Dn, Kt, Ks. done.
  - destruct HI' as ([Hlt _] & _).
    set (t := {| timer_id := next_timer ψ.2; delay := 1000%Q; callback := ForceReconnectCb |}).
    assert (Hfresh : forall t', t' ∈ timers ψ.2 -> timer_id t' <> timer_id t).
    { intros t' Ht'. specialize (Hlt _ Ht'). cbn. lia. }
    assert (Hfind : find_timer (next_timer σ.2)
                      (set_timer ForceReconnectCb 1000 ψ.2).2 = Some t).
    { rewrite <- Dn.
      exact (find_timer_last (set_timer ForceReconnectCb 1000 ψ.2).2 (timers ψ.2) t eq_refl Hfresh). }
    assert (Hclear : timers (clear_timer (next_timer σ.2)
                               (set_timer ForceReconnectCb 1000 ψ.2).2) = timers ψ.2).
    { rewrite <- Dn.
      exact (clear_timer_last (set_timer ForceReconnectCb 1000 ψ.2).2 (timers ψ.2) t eq_refl Hfresh). }
    unfold σ2. cbn [step]. unfold fire_timer. cbn [snd fst]. rewrite Hfind. cbn [callback t].
    match goal with |- context [connect ?c ?x] => set (σc := x) end.
    assert (Hc1 : σc.1 = ψ.1) by reflexivity.
    assert (Hcs : sockets σc.2 = sockets ψ.2) by reflexivity.
    assert (Hct : timers σc.2 = timers ψ.2) by exact Hclear.
    clearbody σc.
    rewrite connect_creates.
    + cbn. unfold target. rewrite Hcs, Hct, Hc1, Kch', Ks, Kt, Ku', Kc', Ka'.
      split_and!; try done. by rewrite <- Ks, Dl.
    + by rewrite Hc1.
    + apply isConnected_no_socket. by rewrite Hc1.
    + unfold target. rewrite Hc1, Kch', Ku', Kc'. exact Hurl.
Qed.

End ForceReconnect.

(** The application forces a reconnect of an open connection. *)
Lemma force_reconnect_reopens_witness :
  let σ := @Robust.run sample_host
             [Robust.CallConnect ["analysis"; "alerts"]; Robust.EvOpen 0] robust0 in
  let σ2 := @Robust.step sample_host (Robust.EvTimer (next_timer σ.2))
              (Robust.forceReconnect σ) in
  Robust.ws σ2.1 = Some 1%nat /\ Robust.isConnecting σ2.1 = true /\
  Robust.channels σ2.1 = ["analysis"; "alerts"] /\ length (sockets σ2.2) = 2%nat.
Proof.
  intros σ σ2.
  destruct (@force_reconnect_reopens sample_host "ws://localhost:8002/ws" "airiss-client"
              fresh_world
              [Robust.CallConnect ["analysis"; "alerts"]; Robust.EvOpen 0]
              eq_refl eq_refl)
    as (_ & Hws & Hs & Hc & _ & Hch & _).
  split_and!; [exact Hws|exact Hc|exact Hch|].
  vm_compute. reflexivity.
Defined.

Section Heartbeat.

Context `{!Host}.

Import Robust.

Lemma ping_tick_closed σ :
  isConnected σ = false ->
  ping_tick σ = stopPingInterval (log LogWarn "⚠️ Ping 중단 - WebSocket 연결 없음" σ).
Proof. intros Ho. unfold ping_tick. by rewrite Ho. Qed.

Lemma ping_tick_open σ i k frame :
  open_socket σ = Some i -> sockets σ.2 !! i = Some k ->
  JSON_stringify (Robust_ping_message σ) = inr frame ->
  ping_tick σ =
    (σ.1,
     console_write LogInfo "📤 메시지 전송:"
       (socket_send i frame
          (set_heap (heap σ.2 ++ [JObj [("type", JStr "ping");
                                        ("timestamp", JStr (now σ.2))]]) σ.2))).
Proof.
  intros Ho Hk Hs. unfold ping_tick, isConnected. rewrite Ho.
  rewrite bool_decide_eq_true_2 by eauto.
  unfold send_literal, alloc. cbn [fst snd]. unfold send.
  assert (Ho' : open_socket (σ.1, set_heap (heap σ.2 ++ [JObj [("type", JStr "ping");
                  ("timestamp", JStr (now σ.2))]]) σ.2) = Some i) by exact Ho.
  rewrite Ho'. unfold deref. cbn [fst snd heap set_heap now].
  rewrite lookup_app_r, Nat.sub_diag by done. cbn [lookup list_lookup default spread].
  unfold Robust_ping_message in Hs.
  replace (obj_set "client_id" _ _) with
    [("type", JStr "ping"); ("timestamp", JStr (now σ.2));
     ("client_id", JStr (clientId σ.1))] by (vm_compute; reflexivity).
  rewrite Hs. reflexivity.
Qed.

(** X9. The heartbeat.  When the 30 s interval fires in a state the service can
    reach: if the socket is open (and the message serialises), exactly one
    frame [{type: 'ping', timestamp, client_id}] is written to it, and the
    service and its timers stay as they are, so the interval goes on; if the
    socket is not open, the interval cancels itself, nothing is written, no
    socket is created and no event is dispatched: a heartbeat never starts a
    reconnect. *)
Theorem heartbeat_tick (base cid : string) (w0 : World () TimerCb) (es : list Event)
    (id : nat) (t : Timer TimerCb) :
  timers w0 = [] ->
  let σ := run es (new_service base cid, w0) in
  let σ' := step (EvTimer id) σ in
  find_timer id σ.2 = Some t -> callback t = PingCb ->
  (forall i k frame,
     open_socket σ = Some i -> sockets σ.2 !! i = Some k ->
     JSON_stringify (Robust_ping_message σ) = inr frame ->
     σ'.1 = σ.1 /\ timers σ'.2 = timers σ.2 /\ emitted σ'.2 = emitted σ.2 /\
     sockets σ'.2 = <[i := {| sock_url := sock_url k; sock_protocol := sock_protocol k;
                              readyState := readyState k; handlers := handlers k;
                              sent := sent k ++ [frame]; closeCalls := closeCalls k |}]>
                      (sockets σ.2)) /\
  (isConnected σ = false ->
     pingTimer σ'.1 = None /\ Robust_pending_ping σ'.2 = [] /\
     (forall t', t' ∈ timers σ'.2 -> timer_id t' <> id) /\
     sockets σ'.2 = sockets σ.2 /\ emitted σ'.2 = emitted σ.2 /\
     ws σ'.1 = ws σ.1 /\ isConnecting σ'.1 = isConnecting σ.1).
Proof.
  intros Hw σ σ' Hfind Hcb.
  assert (HI : Inv σ) by (apply Inv_run, Inv_initial, Hw).
  assert (E : σ' = ping_tick σ).
  { unfold σ'. cbn [step]. unfold fire_timer. by rewrite Hfind, Hcb. }
  clearbody σ'. subst σ'. clear Hw. clearbody σ.
  split.
  - intros i k frame Ho Hk Hs. rewrite (ping_tick_open σ i k frame) by done.
    cbn. split_and!; try done. by rewrite Hk.
  - intros Ho. rewrite ping_tick_closed by done. rewrite stopPingInterval_eq.
    destruct HI as (_ & _ & Hp).
    apply find_timer_Some in Hfind as [Hin Hid].
    assert (Hpt : pingTimer σ.1 = Some id).
    { rewrite <- Hid. apply Hp; [done|]. by rewrite Hcb. }
    cbn [fst snd log env pingTimer set_pingTimer].
    split_and!; try done.
    + apply (filter_tracked_cleared (eq PingCb)); [done|].
      intros t' Ht' Hc'. by apply Hp.
    + rewrite Hpt. cbn. intros t' [Hne _]%list_elem_of_filter. done.
    + by destruct (pingTimer σ.1).
    + by destruct (pingTimer σ.1).
Qed.

End Heartbeat.

(** The heartbeat fires on an open connection, and again after the socket
    has been closed normally by the server. *)
Lemma heartbeat_tick_witness :
  let σ := @Robust.run sample_host
             [Robust.CallConnect ["analysis"; "alerts"]; Robust.EvOpen 0] robust0 in
  let σ' := @Robust.step sample_host (Robust.EvTimer 1) σ in
  timers σ'.2 = timers σ.2 /\ σ'.1 = σ.1 /\
  length (frames_written σ'.2) = 2%nat.
Proof.
  intros σ σ'.
  destruct (@heartbeat_tick sample_host "ws://localhost:8002/ws" "airiss-client" fresh_world
              [Robust.CallConnect ["analysis"; "alerts"]; Robust.EvOpen 0] 1%nat
              {| timer_id := 1; delay := 30000; callback := Robust.PingCb |}
              eq_refl eq_refl eq_refl) as [Hopen _].
  destruct (Hopen 0%nat (default (new_socket EmptyString) (sockets σ.2 !! 0%nat))
              (render (Robust_ping_message σ)))
    as (H1 & H2 & _); try (vm_compute; reflexivity).
  split_and!; [exact H2|exact H1|]. vm_compute. reflexivity.
Defined.

Section EmitterRegistration.

Context {Cb : Type} `{!EqDecision Cb} {Store : Type}.

Variable call :
  Cb -> list JSValue -> gmap string (list Cb) * Store ->
  gmap string (list Cb) * Store * option Exn.

Import SimpleEventEmitter.

Lemma registered_on event cb (st : St Cb Store) e' :
  registered e' (on event cb st)
    = if decide (e' = event) then registered event st ++ [cb] else registered e' st.
Proof.
  unfold registered, on. cbn [listeners].
  destruct (decide (e' = event)) as [->|Hne].
  - rewrite lookup_insert_eq. cbn.
    destruct (listeners st !! event) eqn:E; cbn; [by rewrite E|].
    by rewrite lookup_insert_eq.
  - rewrite lookup_insert_ne by done.
    destruct (listeners st !! event); [done|]. by rewrite lookup_insert_ne.
Qed.

Lemma registered_off event cb (st : St Cb Store) e' :
  registered e' (off event cb st)
    = if decide (e' = event) then filter (fun c => c <> cb) (registered event st)
      else registered e' st.
Proof.
  unfold registered, off.
  destruct (listeners st !! event) as [cbs|] eqn:E; cbn [listeners].
  - destruct (decide (e' = event)) as [->|Hne].
    + by rewrite lookup_insert_eq.
    + by rewrite lookup_insert_ne.
  - destruct (decide (e' = event)) as [->|Hne]; [|done]. by rewrite E.
Qed.

(** [emit] invokes the registered callbacks, and nothing else. *)
Lemma emit_calls_registered event args (st : St Cb Store) :
  exists outcomes,
    length outcomes = length (registered event st) /\
    calls (emit call event args st).1
      = calls st ++ invocations args (registered event st) outcomes.
Proof.
  unfold emit, registered.
  destruct (listeners st !! event) as [cbs|]; cbn [default].
  - destruct (forEach_invoke_total call event args cbs st) as (os & Hl & _ & Hc & _).
    eauto.
  - exists []. cbn. by rewrite app_nil_r.
Qed.

(** X10. Registration.  [on] appends: the callbacks of an event are invoked in
    the order of their registration and as many times as they were
    registered, the one registered last being invoked last; the
    registrations of other events are not touched. *)
Theorem on_registers_last (event : string) (cb : Cb) (args : list JSValue)
    (st : St Cb Store) :
  own_key event ->
  registered event (on event cb st) = registered event st ++ [cb] /\
  (forall e', e' <> event -> registered e' (on event cb st) = registered e' st) /\
  exists outcomes o,
    length outcomes = length (registered event st) /\
    calls (emit call event args (on event cb st)).1
      = calls st ++ invocations args (registered event st) outcomes ++ [(cb, args, o)].
Proof.
  intros _. split_and!.
  - rewrite registered_on. by rewrite decide_True.
  - intros e' Hne. rewrite registered_on. by rewrite decide_False.
  - destruct (emit_calls_registered event args (on event cb st)) as (os & Hl & Hc).
    rewrite registered_on, decide_True in Hl, Hc by done.
    rewrite length_app in Hl. cbn in Hl.
    destruct (exists_last (l := os)) as (os' & o & ->).
    { intros ->. cbn in Hl. lia. }
    rewrite length_app in Hl. cbn in Hl.
    exists os', o. split; [lia|]. rewrite Hc. cbn [calls on]. f_equal.
    unfold invocations. rewrite zip_with_app by lia. done.
Qed.

(** X11. Removal.  [off] removes every registration of the callback for the
    event, not only one, keeps the other callbacks in order and touches no
    other event; a later [emit] of the event does not invoke the callback.
    For an event without registrations [off] does nothing. *)
Theorem off_removes_every_registration (event : string) (cb : Cb)
    (args : list JSValue) (st : St Cb Store) :
  own_key event ->
  registered event (off event cb st) = filter (fun c => c <> cb) (registered event st) /\
  (cb ∉ registered event (off event cb st)) /\
  (forall e', e' <> event -> registered e' (off event cb st) = registered e' st) /\
  (listeners st !! event = None -> off event cb st = st) /\
  (cb ∉ registered event st ->
     registered event (off event cb (on event cb st)) = registered event st) /\
  exists invoked,
    calls (emit call event args (off event cb st)).1 = calls st ++ invoked /\
    forall r, r ∈ invoked -> r.1.1 <> cb.
Proof.
  intros _.
  assert (E : registered event (off event cb st)
              = filter (fun c => c <> cb) (registered event st)).
  { rewrite registered_off. by rewrite decide_True. }
  assert (Hnot : cb ∉ registered event (off event cb st)).
  { rewrite E. intros [Hne _]%list_elem_of_filter. done. }
  split_and!; try done.
  - intros e' Hne. rewrite registered_off. by rewrite decide_False.
  - intros Hn. unfold off. by rewrite Hn.
  - intros Hcb. rewrite registered_off, decide_True, registered_on, decide_True by done.
    rewrite filter_app, filter_cons_False, filter_nil, app_nil_r by (intros Hn; by apply Hn).
    apply filter_all. intros c Hc ->. done.
  - destruct (emit_calls_registered event args (off event cb st)) as (os & Hl & Hc).
    assert (Hcalls : calls (off event cb st) = calls st).
    { unfold off. by destruct (listeners st !! event). }
    rewrite Hcalls in Hc.
    eexists. split; [exact Hc|].
    intros r Hr. unfold invocations in Hr.
    apply elem_of_lookup_zip_with in Hr as (i & c & o & -> & Hi & _).
    cbn. intros ->. apply Hnot. by eapply list_elem_of_lookup_2.
Qed.

(** X12. [removeAllListeners(event)] forgets the registrations of that event
    only; called without an argument, or with the empty string (which
    [if (event)] takes for a missing argument), it forgets the registrations
    of every event.  Emitting an event without registrations does
    nothing. *)
Theorem removeAllListeners_forgets (event : string) (args : list JSValue)
    (st : St Cb Store) :
  own_key event -> event <> EmptyString ->
  (registered event (removeAllListeners (Some event) st) = [] /\
   (forall e', e' <> event ->
      registered e' (removeAllListeners (Some event) st) = registered e' st) /\
   emit call event args (removeAllListeners (Some event) st)
     = (removeAllListeners (Some event) st, None)) /\
  (forall e', own_key e' ->
     registered e' (removeAllListeners None st) = [] /\
     emit call e' args (removeAllListeners None st) = (removeAllListeners None st, None)) /\
  removeAllListeners (Some EmptyString) st = removeAllListeners None st.
Proof.
  intros _ Hne. split_and!.
  - unfold registered, removeAllListeners.
    rewrite (proj2 (String.eqb_neq _ _)) by done. cbn. by rewrite lookup_delete_eq.
  - intros e' He'. unfold registered, removeAllListeners.
    rewrite (proj2 (String.eqb_neq _ _)) by done. cbn. by rewrite lookup_delete_ne.
  - unfold emit, removeAllListeners.
    rewrite (proj2 (String.eqb_neq _ _)) by done. cbn. by rewrite lookup_delete_eq.
  - intros e' _. unfold registered, emit, removeAllListeners. cbn.
    by rewrite lookup_empty.
  - done.
Qed.

End EmitterRegistration.

Lemma progress_is_own_key : own_key "progress".
Proof.
  apply (bool_decide_eq_false_1 ("progress" ∈ Object_prototype_members)).
  vm_compute. reflexivity.
Qed.

(** A fourth callback is registered after the three of the sample. *)
Lemma on_registers_last_witness :
  registered "progress" (SimpleEventEmitter.on "progress" 7%nat sample_emitter)
    = [0%nat; 1%nat; 2%nat; 7%nat] /\
  exists outcomes o,
    length outcomes = 3%nat /\
    SimpleEventEmitter.calls
      (SimpleEventEmitter.emit sample_call "progress" [JNum 5]
         (SimpleEventEmitter.on "progress" 7%nat sample_emitter)).1
      = [] ++ invocations [JNum 5] [0%nat; 1%nat; 2%nat] outcomes ++ [(7%nat, [JNum 5], o)].
Proof.
  destruct (on_registers_last sample_call "progress" 7%nat [JNum 5] sample_emitter
              progress_is_own_key) as (H1 & _ & H3).
  split; [exact H1|exact H3].
Defined.

(** The callback 1 is registered twice and removed once. *)
Lemma off_removes_every_registration_witness :
  let st := SimpleEventEmitter.on "progress" 1%nat sample_emitter in
  registered "progress" st = [0%nat; 1%nat; 2%nat; 1%nat] /\
  registered "progress" (SimpleEventEmitter.off "progress" 1%nat st) = [0%nat; 2%nat].
Proof.
  intros st.
  destruct (off_removes_every_registration sample_call "progress" 1%nat [JNum 5] st
              progress_is_own_key) as (H1 & _).
  split; [vm_compute; reflexivity|]. rewrite H1. vm_compute. reflexivity.
Defined.

Lemma removeAllListeners_forgets_witness :
  registered "progress" (SimpleEventEmitter.removeAllListeners (Some "progress") sample_emitter)
    = [] /\
  SimpleEventEmitter.removeAllListeners (Some EmptyString) sample_emitter
    = SimpleEventEmitter.removeAllListeners None sample_emitter.
Proof.
  destruct (removeAllListeners_forgets sample_call "progress" [JNum 5] sample_emitter
              progress_is_own_key) as ((H1 & _) & _ & H3); [discriminate|].
  split; [exact H1|exact H3].
Defined.

Section EnhancedInvariant.

Context `{!Host}.

Import Enhanced.

Lemma EInv_frame (σ σ' : Sys) :
  reconnectTimer σ'.1 = reconnectTimer σ.1 -> pingTimer σ'.1 = pingTimer σ.1 ->
  timers σ'.2 = timers σ.2 -> next_timer σ'.2 = next_timer σ.2 ->
  EInv σ -> EInv σ'.
Proof.
  unfold EInv, timers_wf, tracked. intros -> -> -> ->. done.
Qed.

Lemma EInv_clearReconnectTimer σ :
  EInv σ -> EInv (clearReconnectTimer σ) /\ tracked (eq ReconnectCb) None (clearReconnectTimer σ).2.
Proof.
  destruct σ as [s w]. intros (Hwf & Hr & Hp). unfold clearReconnectTimer, EInv. cbn in *.
  destruct (reconnectTimer s) as [id|] eqn:E; cbn.
  - split; [split_and!|]; auto using timers_wf_clear, tracked_clear, tracked_clear_other.
  - rewrite E. auto.
Qed.

Lemma EInv_stopPingInterval σ :
  EInv σ -> EInv (stopPingInterval σ) /\ tracked (eq PingCb) None (stopPingInterval σ).2.
Proof.
  destruct σ as [s w]. intros (Hwf & Hr & Hp). unfold stopPingInterval, EInv. cbn in *.
  destruct (pingTimer s) as [id|] eqn:E; cbn.
  - split; [split_and!|]; auto using timers_wf_clear, tracked_clear, tracked_clear_other.
  - rewrite E. auto.
Qed.

Lemma EInv_handleReconnection σ : EInv σ -> EInv (handleReconnection σ).
Proof.
  intros HI. unfold handleReconnection.
  case_match; [revert HI; by apply EInv_frame|].
  destruct (EInv_clearReconnectTimer σ HI) as [(Hwf & Hr & Hp) Hn].
  destruct (clearReconnectTimer σ) as [s w]. cbn in *.
  split_and!; cbn.
  - by apply (timers_wf_set ReconnectCb _ (console_write _ _ w)).
  - by apply (tracked_set _ ReconnectCb _ (console_write _ _ w)).
  - by apply (tracked_set_other _ _ ReconnectCb _ (console_write _ _ w)).
Qed.

Lemma EInv_startPingInterval σ : EInv σ -> EInv (startPingInterval σ).
Proof.
  intros HI. unfold startPingInterval.
  destruct (EInv_stopPingInterval σ HI) as [(Hwf & Hr & Hp) Hn].
  destruct (stopPingInterval σ) as [s w]. cbn in *.
  split_and!; cbn.
  - by apply (timers_wf_set PingCb).
  - by apply (tracked_set_other _ _ PingCb).
  - by apply (tracked_set _ PingCb).
Qed.

Lemma EInv_connect chans σ : EInv σ -> EInv (connect chans σ).
Proof.
  intros HI. unfold connect, new_WebSocket, setupEventHandlers.
  repeat case_match; simplify_eq/=; try (revert HI; by apply EInv_frame).
  apply EInv_handleReconnection. revert HI. by apply EInv_frame.
Qed.

Lemma EInv_send data σ : EInv σ -> EInv (send data σ).2.
Proof.
  intros HI. unfold send.
  repeat case_match; simplify_eq/=; revert HI; by apply EInv_frame.
Qed.

Lemma EInv_ping σ : EInv σ -> EInv (ping σ).
Proof.
  intros HI. unfold ping, send_literal, alloc. cbn. apply EInv_send.
  revert HI. by apply EInv_frame.
Qed.

Lemma EInv_reconnect_tick σ : EInv σ -> EInv (reconnect_tick σ).
Proof.
  intros HI. unfold reconnect_tick. case_match; [|done].
  apply EInv_connect. revert HI. by apply EInv_frame.
Qed.

Lemma EInv_handleMessage data σ : EInv σ -> EInv (handleMessage data σ).
Proof.
  destruct (Enhanced_handleMessage_frame data σ) as (E1 & _ & E2 & E3 & _).
  apply EInv_frame; by rewrite ?E1.
Qed.

Lemma EInv_onopen σ : EInv σ -> EInv (onopen σ).
Proof.
  intros HI. unfold onopen. apply EInv_startPingInterval.
  apply EInv_clearReconnectTimer. revert HI. by apply EInv_frame.
Qed.

Lemma EInv_onmessage text σ : EInv σ -> EInv (onmessage text σ).
Proof.
  intros HI. unfold onmessage.
  repeat case_match; try (revert HI; by apply EInv_frame).
  apply EInv_handleMessage. revert HI. by apply EInv_frame.
Qed.

Lemma EInv_onerror error σ : EInv σ -> EInv (onerror error σ).
Proof.
  intros HI. unfold onerror.
  case_match; [apply EInv_handleReconnection|]; revert HI; by apply EInv_frame.
Qed.

Lemma EInv_onclose code reason wasClean σ : EInv σ -> EInv (onclose code reason wasClean σ).
Proof.
  intros HI. unfold onclose.
  assert (HI' : EInv (stopPingInterval (this (set_isConnecting false)
                       (log LogInfo "🔌 WebSocket disconnected:" σ)))).
  { apply EInv_stopPingInterval. revert HI. by apply EInv_frame. }
  case_match; [apply EInv_handleReconnection|]; revert HI'; by apply EInv_frame.
Qed.

Lemma EInv_disconnect σ : EInv σ -> EInv (disconnect σ).
Proof.
  intros HI. unfold disconnect.
  assert (HI' : EInv (stopPingInterval (clearReconnectTimer
                 (this (set_shouldReconnect false) (log LogInfo "🔌 Disconnecting WebSocket" σ))))).
  { apply EInv_stopPingInterval, EInv_clearReconnectTimer. revert HI. by apply EInv_frame. }
  case_match; revert HI'; by apply EInv_frame.
Qed.

Lemma EInv_clear_timer id σ : EInv σ -> EInv (env (clear_timer id) σ).
Proof.
  destruct σ as [s w]. intros (Hwf & Hr & Hp).
  split_and!; cbn; auto using timers_wf_clear, tracked_clear_other.
Qed.

Lemma EInv_fire_timer id σ : EInv σ -> EInv (fire_timer id σ).
Proof.
  intros HI. unfold fire_timer. repeat case_match; try done;
    first [ by apply EInv_reconnect_tick, EInv_clear_timer
          | by apply EInv_ping ].
Qed.

Lemma EInv_deliver i enabled after handler σ :
  (forall σ', EInv σ' -> EInv (handler σ')) -> EInv σ -> EInv (deliver i enabled after handler σ).
Proof.
  intros Hh HI. unfold deliver. repeat case_match; try done;
    try apply Hh; revert HI; by apply EInv_frame.
Qed.

Lemma EInv_step e σ : EInv σ -> EInv (step e σ).
Proof.
  intros HI. destruct e; cbn [step].
  - apply EInv_deliver; auto using EInv_onopen.
  - apply EInv_deliver; auto using EInv_onmessage.
  - apply EInv_deliver; auto using EInv_onerror.
  - apply EInv_deliver; auto using EInv_onclose.
  - by apply EInv_fire_timer.
  - revert HI. by apply EInv_frame.
  - revert HI. by apply EInv_frame.
  - by apply EInv_connect.
  - by apply EInv_disconnect.
  - by apply EInv_send.
  - revert HI. by apply EInv_frame.
  - revert HI. by apply EInv_frame.
Qed.

Lemma EInv_run es σ : EInv σ -> EInv (run es σ).
Proof.
  revert σ. induction es as [|e es IH]; intros σ HI; [done|].
  cbn. apply IH, EInv_step, HI.
Qed.

Lemma EInv_initial base cid w : timers w = [] -> EInv (new_service base cid, w).
Proof.
  intros Hw. split_and!; cbn.
  - split; rewrite Hw; [set_solver|constructor].
  - intros t. rewrite Hw. set_solver.
  - intros t. rewrite Hw. set_solver.
Qed.

End EnhancedInvariant.

Section EnhancedEquations.

Context `{!Host}.

Import Enhanced.

Lemma Enhanced_set_reconnectTimer_id s : set_reconnectTimer (reconnectTimer s) s = s.
Proof. by destruct s. Qed.

Lemma Enhanced_set_pingTimer_id s : set_pingTimer (pingTimer s) s = s.
Proof. by destruct s. Qed.

Lemma Enhanced_clearReconnectTimer_eq σ :
  clearReconnectTimer σ =
    (set_reconnectTimer None σ.1,
     from_option (fun id => clear_timer id σ.2) σ.2 (reconnectTimer σ.1)).
Proof.
  destruct σ as [s w]. unfold clearReconnectTimer. cbn.
  destruct (reconnectTimer s) eqn:E; cbn; [done|].
  by rewrite <- E, Enhanced_set_reconnectTimer_id.
Qed.

Lemma Enhanced_stopPingInterval_eq σ :
  stopPingInterval σ =
    (set_pingTimer None σ.1,
     from_option (fun id => clear_timer id σ.2) σ.2 (pingTimer σ.1)).
Proof.
  destruct σ as [s w]. unfold stopPingInterval. cbn.
  destruct (pingTimer s) eqn:E; cbn; [done|].
  by rewrite <- E, Enhanced_set_pingTimer_id.
Qed.

Lemma Enhanced_handleReconnection_retry σ :
  shouldReconnect σ.1 = true ->
  (reconnectAttempts σ.1 < maxReconnectAttempts σ.1)%Z ->
  handleReconnection σ =
    (set_reconnectTimer (Some (next_timer σ.2))
       (set_reconnectAttempts (reconnectAttempts σ.1 + 1) σ.1),
     (set_timer ReconnectCb
        (Qmin (reconnectInterval σ.1 * (3 # 2) ^ (reconnectAttempts σ.1 + 1 - 1)) 30000)
        (console_write LogInfo "🔄 Scheduling reconnect attempt"
           (from_option (fun id => clear_timer id σ.2) σ.2 (reconnectTimer σ.1)))).2).
Proof.
  intros Hs Hlt. unfold handleReconnection. rewrite Hs.
  destruct (Z.leb_spec (maxReconnectAttempts σ.1) (reconnectAttempts σ.1)); [lia|].
  cbn [negb orb]. rewrite Enhanced_clearReconnectTimer_eq. destruct σ as [s w].
  cbn. destruct (reconnectTimer s); by destruct s.
Qed.

Lemma Enhanced_handleReconnection_stop σ :
  shouldReconnect σ.1 = false \/ (maxReconnectAttempts σ.1 <= reconnectAttempts σ.1)%Z ->
  handleReconnection σ =
    emit "maxReconnectAttemptsReached" []
      (log LogInfo "🚫 Max reconnection attempts reached or reconnection disabled" σ).
Proof.
  intros Hstop. unfold handleReconnection.
  destruct Hstop as [->|Hge]; [done|].
  rewrite (proj2 (Z.leb_le _ _)) by done. by rewrite orb_true_r.
Qed.

Lemma Enhanced_handleReconnection_pending σ :
  tracked (eq ReconnectCb) (reconnectTimer σ.1) σ.2 ->
  shouldReconnect σ.1 = true ->
  (reconnectAttempts σ.1 < maxReconnectAttempts σ.1)%Z ->
  next_timer (handleReconnection σ).2 = S (next_timer σ.2) /\
  Enhanced_pending_reconnect (handleReconnection σ).2
    = [{| timer_id := next_timer σ.2;
          delay := Qmin (reconnectInterval σ.1 * (3 # 2) ^ (reconnectAttempts σ.1 + 1 - 1)) 30000;
          callback := ReconnectCb |}] /\
  reconnectTimer (handleReconnection σ).1 = Some (next_timer σ.2) /\
  reconnectAttempts (handleReconnection σ).1 = (reconnectAttempts σ.1 + 1)%Z.
Proof.
  intros Hr Hs Ha. rewrite Enhanced_handleReconnection_retry by done. cbn.
  rewrite from_option_clear_next. split; [done|]. split; [|done].
  unfold Enhanced_pending_reconnect. cbn. rewrite filter_app.
  match goal with |- ?l ++ _ = _ => assert (E : l = []) end.
  { by apply (filter_tracked_cleared (eq ReconnectCb)). }
  rewrite E. by rewrite filter_cons_True by done.
Qed.

Lemma Enhanced_isConnected_no_socket σ : ws σ.1 = None -> isConnected σ = false.
Proof. intros Hw. unfold isConnected, open_socket. by rewrite Hw. Qed.

Lemma Enhanced_connect_noop chans σ :
  isConnecting σ.1 = true \/ isConnected σ = true ->
  connect chans σ = log LogInfo "🔌 WebSocket already connected or connecting" σ.
Proof.
  intros Hor. unfold connect.
  destruct Hor as [-> | ->]; [done|]. by rewrite orb_true_r.
Qed.

Lemma Enhanced_connect_creates chans σ :
  isConnecting σ.1 = false -> isConnected σ = false ->
  WebSocket_rejects (Enhanced_target σ.1 chans) = None ->
  connect chans σ =
    (set_ws (Some (length (sockets σ.2)))
       (set_shouldReconnect true (set_currentChannels chans (set_isConnecting true σ.1))),
     set_sockets (fun l => l ++ [set_handlers () (new_socket (Enhanced_target σ.1 chans))])
       (console_write LogInfo "📡 Channels:"
          (console_write LogInfo "📊 Client ID:"
             (console_write LogInfo "🔌 Connecting to WebSocket:" σ.2)))).
Proof.
  intros Hc Ho Hurl. unfold connect. rewrite Hc, Ho. unfold Enhanced_target in Hurl.
  cbn. rewrite Hurl. unfold setupEventHandlers, env, this. cbn [fst snd ws set_ws].
  f_equal. erewrite update_socket_Some; [|cbn; by apply list_lookup_middle].
  unfold set_sockets. cbn. f_equal.
  rewrite insert_app_r_alt by lia. by rewrite Nat.sub_diag.
Qed.

Lemma Enhanced_connect_sockets chans σ :
  (length (sockets (connect chans σ).2) <= S (length (sockets σ.2)))%nat /\
  (isConnecting (connect chans σ).1 = true \/ length (sockets (connect chans σ).2) = length (sockets σ.2)).
Proof.
  destruct (isConnecting σ.1) eqn:Hc.
  { rewrite Enhanced_connect_noop by auto. cbn. split; [lia|auto]. }
  destruct (isConnected σ) eqn:Ho.
  { rewrite Enhanced_connect_noop by auto. cbn. split; [lia|auto]. }
  destruct (WebSocket_rejects (Enhanced_target σ.1 chans)) as [e|] eqn:Hurl.
  - unfold connect. rewrite Hc, Ho. unfold Enhanced_target in Hurl. cbn. rewrite Hurl.
    match goal with |- context [handleReconnection ?x] => set (σ1 := x) end.
    assert (Hs : sockets (handleReconnection σ1).2 = sockets σ.2).
    { unfold handleReconnection. case_match; [done|].
      rewrite Enhanced_clearReconnectTimer_eq. cbn.
      unfold σ1. cbn. by destruct (reconnectTimer σ.1). }
    rewrite Hs. split; [lia|auto].
  - rewrite Enhanced_connect_creates by done. cbn. rewrite length_app. cbn. split; [lia|auto].
Qed.

End EnhancedEquations.

Section EnhancedBasics.

Context `{!Host}.

(** X13. In the enhanced service [send] on a socket that is not open returns
    [false], writes no frame, and dispatches one ['error'] event carrying
    [Error('WebSocket not connected')]; unlike the robust service it starts no
    reconnection: the service, the sockets and the timers are unchanged. *)
Theorem enhanced_send_while_not_open (data : nat) (σ : Enhanced.Sys) :
  Enhanced.isConnected σ = false ->
  (Enhanced.send data σ).1 = false /\
  (Enhanced.send data σ).2.1 = σ.1 /\
  sockets (Enhanced.send data σ).2.2 = sockets σ.2 /\
  timers (Enhanced.send data σ).2.2 = timers σ.2 /\
  heap (Enhanced.send data σ).2.2 = heap σ.2 /\
  emitted (Enhanced.send data σ).2.2
    = emitted σ.2 ++ [("error", [JError (new_Error "WebSocket not connected")])].
Proof.
  intros Ho. unfold Enhanced.send.
  destruct (Enhanced.open_socket σ) as [i|] eqn:E; [|done].
  unfold Enhanced.isConnected in Ho. rewrite E in Ho.
  apply bool_decide_eq_false in Ho. destruct Ho. eauto.
Qed.

(** X14. The enhanced service forwards what it does not recognise: a frame that
    parses to a value whose [type] is none of the tags [handleMessage] has a
    case for is logged with a warning and dispatched, unchanged, as one
    ['message'] event. *)
Theorem enhanced_unknown_type_is_forwarded (text : string) (data ty : JSValue)
    (σ : Enhanced.Sys) :
  JSON_parse text = inr data -> get_prop data "type" = inr ty ->
  unrecognized Enhanced_recognized ty ->
  Enhanced.onmessage text σ =
    Enhanced.emit "message" [data]
      (Enhanced.log LogWarn "⚠️ Unknown message type:"
         (Enhanced.log LogInfo "📨 WebSocket message received:" σ)) /\
  emitted (Enhanced.onmessage text σ).2 = emitted σ.2 ++ [("message", [data])].
Proof.
  intros Hp Ht Hn. unfold Enhanced.onmessage. rewrite Hp, Ht.
  rewrite Enhanced_handleMessage_unknown; [done|].
  unfold Enhanced.prop. by rewrite Ht.
Qed.

End EnhancedBasics.

Lemma enhanced_send_while_not_open_witness :
  (@Enhanced.send sample_host 0 enhanced0).1 = false /\
  sockets (@Enhanced.send sample_host 0 enhanced0).2.2 = [] /\
  emitted (@Enhanced.send sample_host 0 enhanced0).2.2
    = [("error", [JError (new_Error "WebSocket not connected")])].
Proof.
  destruct (@enhanced_send_while_not_open sample_host 0%nat enhanced0 eq_refl)
    as (H1 & _ & H3 & _ & _ & H6).
  split_and!; [exact H1|exact H3|exact H6].
Defined.

Lemma enhanced_unknown_type_is_forwarded_witness :
  emitted (@Enhanced.onmessage sample_host (render unknown_frame) enhanced0).2
    = emitted enhanced0.2 ++ [("message", [unknown_frame])].
Proof.
  destruct (@enhanced_unknown_type_is_forwarded sample_host (render unknown_frame)
              unknown_frame (JStr "heartbeat") enhanced0) as [_ H2].
  - vm_compute. reflexivity.
  - reflexivity.
  - intros s [= <-]. apply (bool_decide_eq_false_1 ("heartbeat" ∈ Enhanced_recognized)).
    vm_compute. reflexivity.
  - exact H2.
Defined.

Section EnhancedReconnection.

Context `{!Host}.

Import Enhanced.

Lemma Enhanced_onerror_schedules error σ :
  EInv σ -> shouldReconnect σ.1 = true ->
  (reconnectAttempts σ.1 < maxReconnectAttempts σ.1)%Z ->
  next_timer (onerror error σ).2 = S (next_timer σ.2) /\
  Enhanced_pending_reconnect (onerror error σ).2
    = [{| timer_id := next_timer σ.2;
          delay := Qmin (reconnectInterval σ.1 * (3 # 2) ^ (reconnectAttempts σ.1 + 1 - 1)) 30000;
          callback := ReconnectCb |}] /\
  reconnectAttempts (onerror error σ).1 = (reconnectAttempts σ.1 + 1)%Z /\
  shouldReconnect (onerror error σ).1 = true /\
  reconnectInterval (onerror error σ).1 = reconnectInterval σ.1 /\
  maxReconnectAttempts (onerror error σ).1 = maxReconnectAttempts σ.1 /\
  exists ev, emitted (onerror error σ).2 = emitted σ.2 ++ [("error", [ev])].
Proof.
  intros (Hwf & Hr & Hp) Hs Ha. unfold onerror.
  cbn [fst snd log emit env this shouldReconnect set_isConnecting]. rewrite Hs.
  match goal with |- context [handleReconnection ?x] =>
    destruct (Enhanced_handleReconnection_pending x) as (E1 & E2 & E3 & E4);
      [exact Hr|exact Hs|exact Ha|];
    rewrite E1, E2, E4; rewrite (Enhanced_handleReconnection_retry x) by done
  end.
  cbn. split_and!; try done.
  eexists. by destruct (reconnectTimer σ.1).
Qed.

Lemma Enhanced_onclose_schedules code reason wasClean σ :
  EInv σ -> shouldReconnect σ.1 = true -> code <> 1000%Z ->
  (reconnectAttempts σ.1 < maxReconnectAttempts σ.1)%Z ->
  next_timer (onclose code reason wasClean σ).2 = S (next_timer σ.2) /\
  Enhanced_pending_reconnect (onclose code reason wasClean σ).2
    = [{| timer_id := next_timer σ.2;
          delay := Qmin (reconnectInterval σ.1 * (3 # 2) ^ (reconnectAttempts σ.1 + 1 - 1)) 30000;
          callback := ReconnectCb |}] /\
  reconnectAttempts (onclose code reason wasClean σ).1 = (reconnectAttempts σ.1 + 1)%Z /\
  Enhanced_pending_ping (onclose code reason wasClean σ).2 = [].
Proof.
  intros (Hwf & Hr & Hp) Hs Hc Ha. unfold onclose.
  rewrite Enhanced_stopPingInterval_eq.
  cbn [fst snd log emit env this shouldReconnect set_isConnecting set_pingTimer pingTimer].
  rewrite Hs. rewrite (proj2 (Z.eqb_neq _ _)) by done. cbn [negb andb].
  match goal with |- context [handleReconnection ?x] => set (σ1 := x) end.
  assert (Hsub : timers σ1.2 `sublist_of` timers σ.2).
  { unfold σ1. cbn. apply (from_option_clear_sublist (console_write LogInfo _ σ.2)). }
  assert (Hn : next_timer σ1.2 = next_timer σ.2).
  { unfold σ1. cbn. by rewrite from_option_clear_next. }
  assert (Hping : filter (fun t => PingCb = callback t) (timers σ1.2) = []).
  { unfold σ1. cbn.
    apply (filter_tracked_cleared (eq PingCb) _ (console_write LogInfo _ σ.2)); done. }
  destruct (Enhanced_handleReconnection_pending σ1) as (E1 & E2 & E3 & E4);
    [by eapply tracked_sublist|done|done|].
  rewrite E1, E2, E4, Hn. split_and!; try done.
  rewrite Enhanced_handleReconnection_retry by done.
  unfold Enhanced_pending_ping. cbn. rewrite filter_app.
  rewrite filter_cons_False, filter_nil, app_nil_r by done.
  apply elem_of_nil_inv. intros t [Hcb Ht]%list_elem_of_filter.
  assert (Ht1 : t ∈ timers σ1.2).
  { eapply elem_of_sublist; [exact Ht|]. apply from_option_clear_sublist. }
  assert (Hin : t ∈ filter (fun t => PingCb = callback t) (timers σ1.2))
    by (apply list_elem_of_filter; done).
  rewrite Hping in Hin. by apply elem_of_nil in Hin.
Qed.

(** X16. In the enhanced service both [onerror] and [onclose] go through
    [handleReconnection], which counts an attempt each time.  A connection
    failure that the browser reports as an error event followed by an
    abnormal close event therefore uses up two attempts: the timer scheduled
    by the error is replaced by the one scheduled by the close, one reconnect
    timer stays pending, and its delay is the one of the second attempt. *)
Theorem enhanced_error_then_close_counts_twice (base cid : string)
    (w0 : World () TimerCb) (es : list Event) (error : JSValue)
    (code : Z) (reason : string) (wasClean : bool) :
  timers w0 = [] ->
  let σ := run es (new_service base cid, w0) in
  let σ1 := onerror error σ in
  let σ2 := onclose code reason wasClean σ1 in
  shouldReconnect σ.1 = true -> code <> 1000%Z ->
  (reconnectAttempts σ.1 + 1 < maxReconnectAttempts σ.1)%Z ->
  reconnectAttempts σ1.1 = (reconnectAttempts σ.1 + 1)%Z /\
  Enhanced_pending_reconnect σ1.2
    = [{| timer_id := next_timer σ.2;
          delay := Qmin (reconnectInterval σ.1 * (3 # 2) ^ (reconnectAttempts σ.1 + 1 - 1)) 30000;
          callback := ReconnectCb |}] /\
  reconnectAttempts σ2.1 = (reconnectAttempts σ.1 + 2)%Z /\
  Enhanced_pending_reconnect σ2.2
    = [{| timer_id := S (next_timer σ.2);
          delay := Qmin (reconnectInterval σ.1 * (3 # 2) ^ (reconnectAttempts σ.1 + 2 - 1)) 30000;
          callback := ReconnectCb |}].
Proof.
  intros Hw σ σ1 σ2 Hs Hc Ha.
  assert (HI : EInv σ) by (apply EInv_run, EInv_initial, Hw).
  assert (HI1 : EInv σ1) by by apply EInv_onerror.
  destruct (Enhanced_onerror_schedules error σ HI Hs) as (N1 & P1 & A1 & S1 & I1 & M1 & _);
    [lia|].
  fold σ1 in N1, P1, A1, S1, I1, M1, HI1.
  destruct (Enhanced_onclose_schedules code reason wasClean σ1 HI1 S1 Hc) as (N2 & P2 & A2 & _);
    [rewrite A1, M1; lia|].
  fold σ2 in N2, P2, A2.
  clearbody σ2 σ1 σ.
  rewrite A2, P2, P1, N1, I1, A1. split_and!; [done|done|lia|].
  by replace (reconnectAttempts σ.1 + 1 + 1 - 1)%Z
    with (reconnectAttempts σ.1 + 2 - 1)%Z by lia.
Qed.

End EnhancedReconnection.

(** A connection attempt fails with an error event and then a close event. *)
Lemma enhanced_error_then_close_counts_twice_witness :
  let σ := @Enhanced.run sample_host [Enhanced.CallConnect ["analysis"]] enhanced0 in
  let σ2 := Enhanced.onclose 1006 EmptyString false (Enhanced.onerror JNull σ) in
  Enhanced.reconnectAttempts σ.1 = 0%Z /\ Enhanced.reconnectAttempts σ2.1 = 2%Z /\
  Enhanced_pending_reconnect σ2.2
    = [{| timer_id := 2; delay := Qmin (5000 * (3 # 2) ^ (0 + 2 - 1)) 30000;
          callback := Enhanced.ReconnectCb |}].
Proof.
  intros σ σ2.
  destruct (@enhanced_error_then_close_counts_twice sample_host "ws://localhost:8002/ws"
              "react-client" fresh_world [Enhanced.CallConnect ["analysis"]] JNull
              1006%Z EmptyString false eq_refl eq_refl) as (_ & _ & H3 & H4).
  - discriminate.
  - vm_compute. reflexivity.
  - split_and!; [reflexivity|exact H3|exact H4].
Defined.

Section EnhancedDisconnect.

Context `{!Host}.

Import Enhanced.

Lemma Enhanced_disconnect_eq σ :
  disconnect σ =
    (set_reconnectAttempts 0 (set_isConnecting false (set_ws None (set_pingTimer None
       (set_reconnectTimer None (set_shouldReconnect false σ.1))))),
     from_option (fun i => socket_close i 1000 "Normal closure")
       id (ws σ.1)
       (from_option (fun id => clear_timer id
            (from_option (fun id => clear_timer id (console_write LogInfo "🔌 Disconnecting WebSocket" σ.2))
               (console_write LogInfo "🔌 Disconnecting WebSocket" σ.2) (reconnectTimer σ.1)))
          (from_option (fun id => clear_timer id (console_write LogInfo "🔌 Disconnecting WebSocket" σ.2))
             (console_write LogInfo "🔌 Disconnecting WebSocket" σ.2) (reconnectTimer σ.1))
          (pingTimer σ.1))).
Proof.
  unfold disconnect. rewrite Enhanced_clearReconnectTimer_eq, Enhanced_stopPingInterval_eq.
  destruct σ as [s w]. cbn. destruct (ws s) eqn:E; cbn; [done|].
  f_equal. destruct s; cbn in *. by subst.
Qed.

Lemma Enhanced_disconnect_idempotent σ :
  disconnect (disconnect σ) = log LogInfo "🔌 Disconnecting WebSocket" (disconnect σ).
Proof.
  rewrite (Enhanced_disconnect_eq (disconnect σ)). rewrite (Enhanced_disconnect_eq σ).
  unfold log, env. cbn [fst snd]. reflexivity.
Qed.

Lemma Enhanced_disconnect_state σ :
  shouldReconnect (disconnect σ).1 = false /\ reconnectTimer (disconnect σ).1 = None /\
  pingTimer (disconnect σ).1 = None /\ ws (disconnect σ).1 = None /\
  isConnecting (disconnect σ).1 = false /\ reconnectAttempts (disconnect σ).1 = 0%Z.
Proof. by rewrite Enhanced_disconnect_eq. Qed.

Lemma Enhanced_disconnect_timers σ :
  timers (disconnect σ).2 `sublist_of` timers σ.2 /\
  length (sockets (disconnect σ).2) = length (sockets σ.2) /\
  (forall t, t ∈ timers (disconnect σ).2 ->
     reconnectTimer σ.1 <> Some (timer_id t) /\ pingTimer σ.1 <> Some (timer_id t)).
Proof.
  rewrite Enhanced_disconnect_eq. cbn [snd fst].
  set (w1 := console_write LogInfo "🔌 Disconnecting WebSocket" σ.2).
  set (w2 := from_option (fun id => clear_timer id w1) w1 (reconnectTimer σ.1)).
  set (w3 := from_option (fun id => clear_timer id w2) w2 (pingTimer σ.1)).
  assert (H3 : timers w3 `sublist_of` timers w2) by apply from_option_clear_sublist.
  assert (H2 : timers w2 `sublist_of` timers w1) by apply from_option_clear_sublist.
  assert (Hw : forall o, timers (from_option (fun i => socket_close i 1000 "Normal closure") id o w3) = timers w3
                      /\ length (sockets (from_option (fun i => socket_close i 1000 "Normal closure") id o w3)) = length (sockets w3)).
  { intros [i|]; cbn [from_option]; [|done]. split; [done|apply length_update_socket]. }
  destruct (Hw (ws σ.1)) as (-> & ->). split_and!.
  - by etrans.
  - unfold w3, w2. by destruct (pingTimer σ.1), (reconnectTimer σ.1).
  - intros t Ht. split; intros E.
    + assert (Ht2 : t ∈ timers w2) by by eapply elem_of_sublist.
      unfold w2 in Ht2. rewrite E in Ht2. cbn in Ht2.
      apply list_elem_of_filter in Ht2 as [Hne _]. done.
    + unfold w3 in Ht. rewrite E in Ht. cbn in Ht.
      apply list_elem_of_filter in Ht as [Hne _]. done.
Qed.

(** After [disconnect] no timer is pending. *)
Lemma Enhanced_disconnect_cancels σ : EInv σ -> timers (disconnect σ).2 = [].
Proof.
  intros (_ & Hr & Hp). apply elem_of_nil_inv. intros t Ht.
  destruct (Enhanced_disconnect_timers σ) as (Hsub & _ & Hne).
  destruct (Hne t Ht) as [H1 H2].
  assert (Ht0 : t ∈ timers σ.2) by by eapply elem_of_sublist.
  destruct (callback t) eqn:E.
  - apply H1, Hr; [done|]. by rewrite E.
  - apply H2, Hp; [done|]. by rewrite E.
Qed.

Lemma Enhanced_disconnect_close_request σ i k :
  ws σ.1 = Some i -> sockets σ.2 !! i = Some k ->
  exists k', sockets (disconnect σ).2 !! i = Some k' /\
    closeCalls k' = closeCalls k ++ [(1000%Z, "Normal closure")] /\
    sent k' = sent k.
Proof.
  intros Hws Hk. rewrite Enhanced_disconnect_eq. cbn [snd]. rewrite Hws. cbn [from_option].
  set (w3 := from_option _ _ (pingTimer σ.1)).
  assert (Hs : sockets w3 = sockets σ.2).
  { unfold w3. by destruct (pingTimer σ.1), (reconnectTimer σ.1). }
  eexists. split.
  - apply lookup_update_socket_eq. by rewrite Hs.
  - done.
Qed.

Lemma Enhanced_stopped_frame n (σ σ' : Sys) :
  shouldReconnect σ'.1 = shouldReconnect σ.1 ->
  length (sockets σ'.2) = length (sockets σ.2) ->
  Enhanced_stopped n σ -> Enhanced_stopped n σ'.
Proof. unfold Enhanced_stopped. intros -> ->. done. Qed.

Lemma Enhanced_stopped_send n data σ :
  Enhanced_stopped n σ -> Enhanced_stopped n (send data σ).2.
Proof.
  unfold send. destruct (open_socket σ) as [i|].
  - destruct (JSON_stringify _); cbn [snd]; apply Enhanced_stopped_frame; try done.
    cbn. apply length_update_socket.
  - by apply Enhanced_stopped_frame.
Qed.

Lemma Enhanced_stopped_ping n σ : Enhanced_stopped n σ -> Enhanced_stopped n (ping σ).
Proof.
  intros HK. unfold ping, send_literal, alloc. cbn [fst snd]. apply Enhanced_stopped_send.
  revert HK. by apply Enhanced_stopped_frame.
Qed.

Lemma Enhanced_stopped_onopen n σ : Enhanced_stopped n σ -> Enhanced_stopped n (onopen σ).
Proof.
  unfold onopen, startPingInterval.
  rewrite Enhanced_stopPingInterval_eq, Enhanced_clearReconnectTimer_eq.
  apply Enhanced_stopped_frame; [done|]. cbn.
  by destruct (pingTimer σ.1), (reconnectTimer σ.1).
Qed.

Lemma Enhanced_stopped_onmessage n text σ :
  Enhanced_stopped n σ -> Enhanced_stopped n (onmessage text σ).
Proof.
  intros HK. unfold onmessage.
  destruct (JSON_parse text) as [e|data]; [revert HK; by apply Enhanced_stopped_frame|].
  destruct (get_prop data "type"); [revert HK; by apply Enhanced_stopped_frame|].
  match goal with |- context [handleMessage ?d ?x] =>
    destruct (Enhanced_handleMessage_frame d x) as (E1 & E2 & _) end.
  revert HK. apply Enhanced_stopped_frame; by rewrite ?E1, ?E2.
Qed.

Lemma Enhanced_stopped_onerror n error σ :
  Enhanced_stopped n σ -> Enhanced_stopped n (onerror error σ).
Proof.
  intros [Hs Hn]. unfold onerror.
  cbn [fst snd log emit env this shouldReconnect set_isConnecting]. rewrite Hs. done.
Qed.

Lemma Enhanced_stopped_onclose n code reason wasClean σ :
  Enhanced_stopped n σ -> Enhanced_stopped n (onclose code reason wasClean σ).
Proof.
  intros [Hs Hn]. unfold onclose. rewrite Enhanced_stopPingInterval_eq.
  cbn [fst snd log emit env this shouldReconnect set_isConnecting set_pingTimer].
  rewrite Hs. cbn [andb]. split; [done|]. cbn. by destruct (pingTimer σ.1).
Qed.

Lemma Enhanced_stopped_disconnect n σ :
  Enhanced_stopped n σ -> Enhanced_stopped n (disconnect σ).
Proof.
  intros [Hs Hn]. destruct (Enhanced_disconnect_timers σ) as (_ & Hlen & _).
  destruct (Enhanced_disconnect_state σ) as (Hs' & _). split; [done|congruence].
Qed.

Lemma Enhanced_stopped_fire_timer n id σ :
  Enhanced_stopped n σ -> Enhanced_stopped n (fire_timer id σ).
Proof.
  intros HK. unfold fire_timer.
  destruct (find_timer id σ.2) as [t|]; [|done].
  destruct (callback t).
  - unfold reconnect_tick. cbn [fst snd env]. destruct HK as [Hs Hn]. rewrite Hs.
    split; done.
  - by apply Enhanced_stopped_ping.
Qed.

Lemma Enhanced_stopped_deliver n i enabled after handler σ :
  (forall σ', Enhanced_stopped n σ' -> Enhanced_stopped n (handler σ')) ->
  Enhanced_stopped n σ -> Enhanced_stopped n (deliver i enabled after handler σ).
Proof.
  intros Hh HK. unfold deliver.
  destruct (sockets σ.2 !! i) as [k|] eqn:Hk; [|done].
  destruct (enabled (readyState k)); [|done].
  assert (HK' : Enhanced_stopped n
            (env (update_socket i (fun k0 => set_readyState (after (readyState k0)) k0)) σ)).
  { revert HK. apply Enhanced_stopped_frame; try done. cbn. apply length_update_socket. }
  destruct (handlers k); [by apply Hh|done].
Qed.

Lemma Enhanced_stopped_step n e σ :
  Enhanced_host_event e -> Enhanced_stopped n σ -> Enhanced_stopped n (step e σ).
Proof.
  intros He HK.
  destruct e as [i|i text|i error|i code reason wasClean|id|t|v|chans| |data| | ];
    cbn [step]; try (by destruct He).
  - apply Enhanced_stopped_deliver; auto using Enhanced_stopped_onopen.
  - apply Enhanced_stopped_deliver; auto using Enhanced_stopped_onmessage.
  - apply Enhanced_stopped_deliver; auto using Enhanced_stopped_onerror.
  - apply Enhanced_stopped_deliver; auto using Enhanced_stopped_onclose.
  - by apply Enhanced_stopped_fire_timer.
  - by apply Enhanced_stopped_disconnect.
  - by apply Enhanced_stopped_send.
  - destruct HK as [Hs Hn]. by split.
Qed.

Lemma Enhanced_stopped_run n es σ :
  Forall Enhanced_host_event es -> Enhanced_stopped n σ -> Enhanced_stopped n (run es σ).
Proof.
  revert σ. induction es as [|e es IH]; intros σ Hall HK; [done|].
  apply Forall_cons in Hall as [He Hall]. cbn. apply IH; [done|].
  by apply Enhanced_stopped_step.
Qed.

(** X17. [disconnect()] of the enhanced service is final.  In every state the
    service can reach it switches reconnection off, resets the attempt
    counter, leaves no timer pending at all (the reconnect timer and the
    heartbeat are the only timers there are), and asks the current socket to
    close with code 1000; a second [disconnect()] only repeats the console
    line; and whatever the sockets, the timers and the application do
    afterwards, short of calling [connect] or [enableReconnect], no socket is
    created. *)
Theorem enhanced_disconnect_is_final (base cid : string) (w0 : World () TimerCb)
    (es later : list Event) :
  timers w0 = [] -> Forall Enhanced_host_event later ->
  let σ := run es (new_service base cid, w0) in
  shouldReconnect (disconnect σ).1 = false /\
  ws (disconnect σ).1 = None /\ reconnectAttempts (disconnect σ).1 = 0%Z /\
  timers (disconnect σ).2 = [] /\
  (forall i k, ws σ.1 = Some i -> sockets σ.2 !! i = Some k ->
     exists k', sockets (disconnect σ).2 !! i = Some k' /\
       closeCalls k' = closeCalls k ++ [(1000%Z, "Normal closure")] /\
       sent k' = sent k) /\
  disconnect (disconnect σ) = log LogInfo "🔌 Disconnecting WebSocket" (disconnect σ) /\
  length (sockets (run later (disconnect σ)).2) = length (sockets σ.2).
Proof.
  intros Hw Hlater σ.
  assert (HI : EInv σ) by (apply EInv_run, EInv_initial, Hw).
  destruct (Enhanced_disconnect_state σ) as (R1 & _ & _ & R4 & _ & R6).
  destruct (Enhanced_disconnect_timers σ) as (_ & Rlen & _).
  split_and!; try done.
  - by apply Enhanced_disconnect_cancels.
  - apply Enhanced_disconnect_close_request.
  - apply Enhanced_disconnect_idempotent.
  - assert (HS : Enhanced_stopped (length (sockets σ.2)) (disconnect σ)) by done.
    apply (Enhanced_stopped_run _ later) in HS; [|done]. apply HS.
Qed.

End EnhancedDisconnect.

Lemma enhanced_disconnect_is_final_witness :
  let es := [Enhanced.CallConnect ["analysis"; "alerts"]; Enhanced.EvOpen 0;
             Enhanced.EvClose 0 1006 EmptyString false] in
  let later := [Enhanced.EvTimer 2; Enhanced.EvError 0 JNull; Enhanced.CallSend 0] in
  let σ := @Enhanced.run sample_host es enhanced0 in
  length (timers σ.2) = 1%nat /\ timers (Enhanced.disconnect σ).2 = [] /\
  length (sockets (@Enhanced.run sample_host later (Enhanced.disconnect σ)).2)
    = length (sockets σ.2).
Proof.
  intros es later σ.
  destruct (@enhanced_disconnect_is_final sample_host "ws://localhost:8002/ws" "react-client"
              fresh_world es later eq_refl) as (_ & _ & _ & H4 & _ & _ & H7).
  - repeat (constructor; [exact I|]). constructor.
  - split_and!; [vm_compute; reflexivity|exact H4|exact H7].
Defined.

Section EnhancedSwitch.

Context `{!Host}.

Import Enhanced.

(** X18. [disableReconnect()] stops the automatic reconnection of the enhanced
    service without cancelling anything: the pending timers stay, close and
    error events schedule nothing more, and the callback of a reconnect timer
    that fires does nothing.  The switch does not survive a [connect]: a
    call that goes on to open a socket turns reconnection on again. *)
Theorem enhanced_disable_reconnect (code : Z) (reason : string) (wasClean : bool)
    (error : JSValue) (chans : list string) (σ : Sys) :
  let σ' := disableReconnect σ in
  timers σ'.2 = timers σ.2 /\
  (next_timer (onclose code reason wasClean σ').2 = next_timer σ.2 /\
   timers (onclose code reason wasClean σ').2 `sublist_of` timers σ.2) /\
  (next_timer (onerror error σ').2 = next_timer σ.2 /\
   timers (onerror error σ').2 = timers σ.2) /\
  reconnect_tick σ' = σ' /\
  (isConnecting σ.1 = false -> isConnected σ = false ->
   WebSocket_rejects (Enhanced_target σ.1 chans) = None ->
   shouldReconnect (connect chans σ').1 = true).
Proof.
  intros σ'. split_and!; try done.
  - unfold onclose. rewrite Enhanced_stopPingInterval_eq. cbn. by rewrite from_option_clear_next.
  - unfold onclose. rewrite Enhanced_stopPingInterval_eq. cbn.
    apply (from_option_clear_sublist (console_write LogInfo _ σ.2)).
  - intros Hc Ho Hurl. rewrite Enhanced_connect_creates; done.
Qed.

End EnhancedSwitch.

Section FixedErrors.

Context `{!Host}.

Import Fixed.

Lemma Fixed_scheduleReconnect_emitted chans σ :
  emitted (scheduleReconnect chans σ).2 = emitted σ.2 /\
  retryCount (scheduleReconnect chans σ).1 = retryCount σ.1 /\
  isConnecting (scheduleReconnect chans σ).1 = isConnecting σ.1 /\
  maxRetryAttempts (scheduleReconnect chans σ).1 = maxRetryAttempts σ.1.
Proof.
  rewrite Fixed_scheduleReconnect_eq. cbn. by destruct (reconnectTimer σ.1).
Qed.

Lemma Fixed_handleConnectionError_eq message chans σ :
  handleConnectionError message chans σ =
    let σ1 := (set_retryCount (retryCount σ.1 + 1) (set_isConnecting false σ.1),
               dispatch "error"
                 [Fixed_error_info message (retryCount σ.1 + 1) (maxRetryAttempts σ.1) (now σ.2)]
                 (console_write LogError "❌ Connection error" σ.2)) in
    if (retryCount σ.1 + 1 <? maxRetryAttempts σ.1)%Z then scheduleReconnect chans σ1 else σ1.
Proof. reflexivity. Qed.

(** X19. Socket errors of the fixed service are handled on the next turn of the
    event loop.  [onerror] only sets a timer of 0 ms.  When that timer fires,
    the retry counter goes up by one and one ['error'] event is dispatched
    with the attempt number; then, if the counter is still below
    [maxRetryAttempts], one reconnect timer is pending, with delay
    [reconnectInterval * 2 ^ (retryCount - 1)] for the new counter (5000 ms
    after the first error, 10000 ms after the second), and otherwise nothing
    is scheduled. *)
Theorem fixed_error_is_handled_later (base cid : string)
    (w0 : World (list string) TimerCb) (es : list Event)
    (chans : list string) (error : JSValue) :
  timers w0 = [] ->
  let σ := run es (new_service base cid, w0) in
  let σ1 := onerror chans error σ in
  let σ2 := step (EvTimer (next_timer σ.2)) σ1 in
  (σ1.1 = σ.1 /\ emitted σ1.2 = emitted σ.2 /\ sockets σ1.2 = sockets σ.2 /\
   timers σ1.2 = timers σ.2 ++
     [{| timer_id := next_timer σ.2; delay := 0;
         callback := DeferredErrorCb "WebSocket connection error" chans |}]) /\
  (retryCount σ2.1 = (retryCount σ.1 + 1)%Z /\ isConnecting σ2.1 = false /\
   sockets σ2.2 = sockets σ.2 /\
   emitted σ2.2 = emitted σ.2 ++
     [("error", [Fixed_error_info "WebSocket connection error" (retryCount σ.1 + 1)
                   (maxRetryAttempts σ.1) (now σ.2)])]) /\
  ((retryCount σ.1 + 1 < maxRetryAttempts σ.1)%Z ->
   Fixed_pending_reconnect σ2.2
     = [{| timer_id := S (next_timer σ.2);
           delay := reconnectInterval σ.1 * 2 ^ (retryCount σ.1 + 1 - 1);
           callback := ReconnectCb chans |}]) /\
  ((maxRetryAttempts σ.1 <= retryCount σ.1 + 1)%Z -> timers σ2.2 = timers σ.2).
Proof.
  intros Hw σ σ1 σ2.
  assert (HI : FInv σ) by (apply FInv_run, FInv_initial, Hw).
  clearbody σ. clear Hw. destruct HI as ([Hlt Hnd] & Hr).
  set (t := {| timer_id := next_timer σ.2; delay := 0%Q;
               callback := DeferredErrorCb "WebSocket connection error" chans |}).
  assert (Hfresh : forall t', t' ∈ timers σ.2 -> timer_id t' <> timer_id t).
  { intros t' Ht'. specialize (Hlt _ Ht'). cbn. lia. }
  assert (Hfind : find_timer (next_timer σ.2) σ1.2 = Some t).
  { exact (find_timer_last σ1.2 (timers σ.2) t eq_refl Hfresh). }
  assert (Hclear : timers (clear_timer (next_timer σ.2) σ1.2) = timers σ.2).
  { exact (clear_timer_last σ1.2 (timers σ.2) t eq_refl Hfresh). }
  split; [done|].
  assert (E2 : σ2 = handleConnectionError "WebSocket connection error" chans
                      (env (clear_timer (next_timer σ.2)) σ1)).
  { unfold σ2. cbn [step]. unfold fire_timer. by rewrite Hfind. }
  clearbody σ2. subst σ2.
  set (σc := env (clear_timer (next_timer σ.2)) σ1).
  assert (Hc1 : σc.1 = σ.1) by reflexivity.
  assert (Hct : timers σc.2 = timers σ.2) by exact Hclear.
  assert (Hcn : next_timer σc.2 = S (next_timer σ.2)) by reflexivity.
  assert (Hce : emitted σc.2 = emitted σ.2) by reflexivity.
  assert (Hcs : sockets σc.2 = sockets σ.2) by reflexivity.
  assert (Hcw : now σc.2 = now σ.2) by reflexivity.
  clearbody σc. clear Hfind Hclear. clearbody σ1.
  rewrite Fixed_handleConnectionError_eq. cbn zeta. rewrite Hc1, Hcw.
  destruct (Z.ltb_spec (retryCount σ.1 + 1) (maxRetryAttempts σ.1)) as [Hlt'|Hge].
  - match goal with |- context [scheduleReconnect chans ?x] =>
      destruct (Fixed_scheduleReconnect_emitted chans x) as (-> & -> & -> & _);
      destruct (Fixed_scheduleReconnect_frame chans x) as (-> & _);
      destruct (Fixed_scheduleReconnect_pending chans x) as (_ & -> & _)
    end.
    { cbn. intros t' Ht' Hc'. apply Hr; [|done]. by rewrite <- Hct. }
    cbn. rewrite Hce, Hcs, Hcn. split_and!; try done. intros ?. lia.
  - cbn. rewrite Hce, Hcs, Hct. split_and!; try done. intros ?. lia.
Qed.

End FixedErrors.

(** The first connection runs into an error. *)
Lemma fixed_error_is_handled_later_witness :
  let σ := @Fixed.run sample_host [Fixed.CallConnect ["analysis"]] fixed0 in
  let σ2 := @Fixed.step sample_host (Fixed.EvTimer (next_timer σ.2))
              (Fixed.onerror ["analysis"] JNull σ) in
  Fixed.retryCount σ2.1 = 1%Z /\
  Fixed_pending_reconnect σ2.2
    = [{| timer_id := 2; delay := 5000 * 2 ^ (0 + 1 - 1);
          callback := Fixed.ReconnectCb ["analysis"] |}].
Proof.
  intros σ σ2.
  destruct (@fixed_error_is_handled_later sample_host "ws://localhost:8002/ws" "react-client"
              fresh_world [Fixed.CallConnect ["analysis"]] ["analysis"] JNull eq_refl)
    as (_ & (H1 & _) & H3 & _).
  split; [exact H1|]. apply H3. vm_compute. reflexivity.
Defined.

Section RobustNotifications.

Context `{!Host}.

Import Robust.

Lemma send_literal_open fields σ i frame :
  open_socket σ = Some i ->
  JSON_stringify (JObj (obj_set "client_id" (JStr (clientId σ.1))
                          (obj_set "timestamp" (JStr (now σ.2)) fields))) = inr frame ->
  send_literal fields σ =
    (true,
     (σ.1, console_write LogInfo "📤 메시지 전송:"
             (socket_send i frame (set_heap (heap σ.2 ++ [JObj fields]) σ.2)))).
Proof.
  intros Ho Hs. unfold send_literal, alloc. cbn [fst snd]. unfold send.
  assert (Ho' : open_socket (σ.1, set_heap (heap σ.2 ++ [JObj fields]) σ.2) = Some i)
    by exact Ho.
  rewrite Ho'.
  assert (Hd : deref (length (heap σ.2)) (set_heap (heap σ.2 ++ [JObj fields]) σ.2)
               = JObj fields).
  { unfold deref. cbn [heap set_heap]. by rewrite lookup_app_r, Nat.sub_diag. }
  cbn [fst snd]. rewrite Hd.
  change (spread (JObj fields)) with fields.
  change (now (set_heap (heap σ.2 ++ [JObj fields]) σ.2)) with (now σ.2).
  rewrite Hs. reflexivity.
Qed.

(** X20. [notifyAnalysisStart] and [subscribeToChannel] on an open connection
    write exactly one frame each: the serialisation of the literal's fields
    followed by [timestamp] and [client_id]; the service, its timers and the
    dispatched events are unchanged.  On a connection that is not open they
    write nothing. *)
Theorem robust_notifications_write_one_frame (jobId channel : string) (σ : Sys)
    (i : nat) (k : Socket ()) (f1 f2 : string) :
  open_socket σ = Some i -> sockets σ.2 !! i = Some k ->
  JSON_stringify (Robust_analysis_start_message jobId σ) = inr f1 ->
  JSON_stringify (Robust_subscribe_message channel σ) = inr f2 ->
  ((notifyAnalysisStart jobId σ).1 = σ.1 /\
   sockets (notifyAnalysisStart jobId σ).2 = <[i := with_frame f1 k]> (sockets σ.2) /\
   timers (notifyAnalysisStart jobId σ).2 = timers σ.2 /\
   emitted (notifyAnalysisStart jobId σ).2 = emitted σ.2) /\
  ((subscribeToChannel channel σ).1 = σ.1 /\
   sockets (subscribeToChannel channel σ).2 = <[i := with_frame f2 k]> (sockets σ.2) /\
   timers (subscribeToChannel channel σ).2 = timers σ.2 /\
   emitted (subscribeToChannel channel σ).2 = emitted σ.2) /\
  (forall σ0 : Sys, open_socket σ0 = None ->
     frames_written (notifyAnalysisStart jobId σ0).2 = frames_written σ0.2 /\
     frames_written (subscribeToChannel channel σ0).2 = frames_written σ0.2).
Proof.
  intros Ho Hk H1 H2. split_and!.
  - unfold notifyAnalysisStart. by rewrite (send_literal_open _ σ i f1).
  - unfold notifyAnalysisStart. rewrite (send_literal_open _ σ i f1) by done.
    cbn. by rewrite Hk.
  - unfold notifyAnalysisStart. by rewrite (send_literal_open _ σ i f1).
  - unfold notifyAnalysisStart. by rewrite (send_literal_open _ σ i f1).
  - unfold subscribeToChannel. by rewrite (send_literal_open _ σ i f2).
  - unfold subscribeToChannel. rewrite (send_literal_open _ σ i f2) by done.
    cbn. by rewrite Hk.
  - unfold subscribeToChannel. by rewrite (send_literal_open _ σ i f2).
  - unfold subscribeToChannel. by rewrite (send_literal_open _ σ i f2).
  - intros σ0 Hn.
    assert (Hlit : forall fields,
              frames_written (send_literal fields σ0).2.2 = frames_written σ0.2).
    { intros fields. unfold send_literal, alloc. cbn [fst snd].
      set (σa := (σ0.1, set_heap (heap σ0.2 ++ [JObj fields]) σ0.2)).
      assert (Ha : open_socket σa = None) by exact Hn.
      rewrite send_closed by done. cbn [snd].
      destruct (shouldReconnect σa.1 && negb (isConnecting σa.1)); [|done].
      match goal with |- context [connect ?c ?x] =>
        destruct (connect_frames c x) as [-> _] end.
      done. }
    split; apply Hlit.
Qed.

End RobustNotifications.

Lemma robust_notifications_write_one_frame_witness :
  let σ := robust_open ping_payload in
  sockets (@Robust.notifyAnalysisStart sample_host "job-42" σ).2
    = <[0%nat := with_frame (render (Robust_analysis_start_message "job-42" σ))
                   (default (new_socket EmptyString) (sockets σ.2 !! 0%nat))]> (sockets σ.2) /\
  timers (@Robust.subscribeToChannel sample_host "alerts" σ).2 = timers σ.2.
Proof.
  intros σ.
  destruct (@robust_notifications_write_one_frame sample_host "job-42" "alerts" σ 0%nat
              (default (new_socket EmptyString) (sockets σ.2 !! 0%nat))
              (render (Robust_analysis_start_message "job-42" σ))
              (render (Robust_subscribe_message "alerts" σ)))
    as ((_ & H2 & _) & (_ & _ & H3 & _) & _); try (vm_compute; reflexivity).
  split; [exact H2|exact H3].
Defined.

Section FixedNoBackoff.

Context `{!Host}.

Hypothesis constructor_accepts : forall url, WebSocket_rejects url = None.

Import Fixed.

Lemma uncounted_frame r (σ σ' : Sys) :
  retryCount σ'.1 = retryCount σ.1 ->
  reconnectInterval σ'.1 = reconnectInterval σ.1 /\
  maxRetryAttempts σ'.1 = maxRetryAttempts σ.1 ->
  timers σ'.2 `sublist_of` timers σ.2 ->
  Fixed_uncounted r σ -> Fixed_uncounted r σ'.
Proof.
  intros E1 [E2 E3] Hsub (H1 & [H2 H2'] & H3). split_and!; [congruence..|].
  intros t Ht. apply H3. by eapply elem_of_sublist.
Qed.

Lemma uncounted_connect r chans σ :
  Fixed_uncounted r σ -> Fixed_uncounted r (connect chans σ).
Proof using constructor_accepts.
  destruct (isConnecting σ.1) eqn:Hc.
  { rewrite Fixed_connect_noop by auto. by apply uncounted_frame. }
  destruct (isConnected σ) eqn:Ho.
  { rewrite Fixed_connect_noop by auto. by apply uncounted_frame. }
  rewrite Fixed_connect_creates by auto. by apply uncounted_frame.
Qed.

Lemma uncounted_send r data σ : Fixed_uncounted r σ -> Fixed_uncounted r (send data σ).2.
Proof.
  unfold send. destruct (open_socket σ); [destruct (JSON_stringify _)|];
    by apply uncounted_frame.
Qed.

Lemma uncounted_onopen r σ : Fixed_uncounted r σ -> Fixed_uncounted r (onopen σ).
Proof.
  intros (H1 & [H2 H2'] & H3). unfold onopen, send_literal, alloc. cbn [fst snd].
  apply uncounted_send. rewrite Fixed_clearReconnectTimer_eq.
  split_and!; [done..|]. cbn. intros t Ht. apply H3.
  eapply elem_of_sublist; [exact Ht|].
  apply (from_option_clear_sublist (dispatch "connected" [] (console_write LogInfo _ σ.2))).
Qed.

Lemma uncounted_onmessage r text σ :
  Fixed_uncounted r σ -> Fixed_uncounted r (onmessage text σ).
Proof.
  intros HK. unfold onmessage.
  destruct (JSON_parse text) as [e|data]; [revert HK; by apply uncounted_frame|].
  destruct (get_prop data "type"); [revert HK; by apply uncounted_frame|].
  match goal with |- context [handleMessage ?d ?x] =>
    destruct (Fixed_handleMessage_frame d x) as (E1 & _ & E3 & _) end.
  revert HK. apply uncounted_frame; by rewrite ?E1, ?E3.
Qed.

Lemma uncounted_onclose r chans code reason wasClean σ :
  Fixed_uncounted r σ -> Fixed_uncounted r (onclose chans code reason wasClean σ).
Proof.
  intros (H1 & [H2 H2'] & H3). unfold onclose.
  cbn [fst snd log emit env this retryCount maxRetryAttempts set_isConnecting].
  destruct (negb (code =? 1000)%Z && (retryCount σ.1 <? maxRetryAttempts σ.1)%Z).
  - rewrite Fixed_scheduleReconnect_eq. unfold backoff_delay. cbn.
    rewrite H1, H2. split_and!; [done..|].
    intros t [Ht| ->%list_elem_of_singleton]%elem_of_app; [|done].
    apply H3. eapply elem_of_sublist; [exact Ht|].
    apply (from_option_clear_sublist
             (dispatch "disconnected" [] (console_write LogInfo _ σ.2))).
  - destruct (maxRetryAttempts σ.1 <=? retryCount σ.1)%Z; by split_and!.
Qed.

Lemma uncounted_fire_timer r id σ :
  Fixed_uncounted r σ -> Fixed_uncounted r (fire_timer id σ).
Proof using constructor_accepts.
  intros HK. unfold fire_timer.
  destruct (find_timer id σ.2) as [t|] eqn:Hf; [|done].
  apply find_timer_Some in Hf as [Hin _].
  assert (HK' : Fixed_uncounted r (env (clear_timer id) σ)).
  { revert HK. apply uncounted_frame; [done..|]. apply sublist_filter. }
  destruct (callback t) eqn:E.
  - unfold reconnect_tick. case_match; [|done].
    apply uncounted_connect. revert HK'. by apply uncounted_frame.
  - destruct HK as (_ & _ & H3). destruct (H3 t Hin) as [Hr _].
    rewrite E in Hr. done.
Qed.

Lemma uncounted_deliver r i enabled after handler σ :
  (forall chans σ', Fixed_uncounted r σ' -> Fixed_uncounted r (handler chans σ')) ->
  Fixed_uncounted r σ -> Fixed_uncounted r (deliver i enabled after handler σ).
Proof.
  intros Hh HK. unfold deliver.
  destruct (sockets σ.2 !! i) as [k|] eqn:Hk; [|done].
  destruct (enabled (readyState k)); [|done].
  assert (HK' : Fixed_uncounted r
            (env (update_socket i (fun k0 => set_readyState (after (readyState k0)) k0)) σ)).
  { revert HK. by apply uncounted_frame. }
  destruct (handlers k); [by apply Hh|done].
Qed.

Lemma uncounted_step r e σ :
  Fixed_close_only e -> Fixed_uncounted r σ -> Fixed_uncounted r (step e σ).
Proof using constructor_accepts.
  intros He HK.
  destruct e as [i|i text|i error|i code reason wasClean|id|t|v|chans| |data| ];
    cbn [step]; try (by destruct He).
  - apply uncounted_deliver; auto using uncounted_onopen.
  - apply uncounted_deliver; auto using uncounted_onmessage.
  - apply uncounted_deliver; auto using uncounted_onclose.
  - by apply uncounted_fire_timer.
  - by apply uncounted_connect.
  - by apply uncounted_send.
  - destruct HK as (H1 & [H2 H2'] & H3). by split_and!.
Qed.

Lemma uncounted_run r es σ :
  Forall Fixed_close_only es -> Fixed_uncounted r σ -> Fixed_uncounted r (run es σ).
Proof using constructor_accepts.
  revert σ. induction es as [|e es IH]; intros σ Hall HK; [done|].
  apply Forall_cons in Hall as [He Hall]. cbn. apply IH; [done|]. by apply uncounted_step.
Qed.

(** X21. The fixed service never backs off from a server that only closes
    connections.  When the [WebSocket] constructor never throws, in every run
    from a fresh service without error events and without [disconnect],
    whatever is connected, opened, closed and retried,
    the retry counter stays at 0, so the retry budget is never used up, and
    every reconnect timer there is waits for [5000 * 2 ^ (0 - 1)], that is
    2500 ms. *)
Theorem fixed_close_path_never_backs_off (base cid : string)
    (w0 : World (list string) TimerCb) (es : list Event) :
  timers w0 = [] -> Forall Fixed_close_only es ->
  let σ := run es (new_service base cid, w0) in
  retryCount σ.1 = 0%Z /\
  (retryCount σ.1 < maxRetryAttempts σ.1)%Z /\
  forall t, t ∈ timers σ.2 -> is_reconnect (callback t) = true /\ delay t == 2500.
Proof using constructor_accepts.
  intros Hw Hall σ.
  assert (HK : Fixed_uncounted 5000 σ).
  { apply uncounted_run; [done|]. split_and!; [done..|]. cbn. rewrite Hw.
    intros t Ht. by apply elem_of_nil in Ht. }
  destruct HK as (H1 & [H2 H2'] & H3). split_and!; [done|lia|].
  intros t Ht. destruct (H3 t Ht) as [Hr ->]. split; [done|reflexivity].
Qed.

End FixedNoBackoff.

(** Two abnormal closures, each followed by the reconnect. *)
Lemma fixed_close_path_never_backs_off_witness :
  let es := [Fixed.CallConnect ["analysis"]; Fixed.EvOpen 0;
             Fixed.EvClose 0 1006 EmptyString false; Fixed.EvTimer 1;
             Fixed.EvClose 1 1006 EmptyString false] in
  let σ := @Fixed.run sample_host es fixed0 in
  Fixed.retryCount σ.1 = 0%Z /\ length (sockets σ.2) = 2%nat /\
  forall t, t ∈ timers σ.2 -> Fixed.is_reconnect (callback t) = true /\ delay t == 2500.
Proof.
  intros es σ.
  destruct (@fixed_close_path_never_backs_off sample_host (fun _ => eq_refl)
              "ws://localhost:8002/ws" "react-client" fresh_world es eq_refl)
    as (H1 & _ & H3).
  - repeat (constructor; [exact I|]). constructor.
  - split_and!; [exact H1|vm_compute; reflexivity|exact H3].
Defined.

(** ** The hook: what a sequence of service events leaves in its state *)

Section HookFacts.

Context `{!Host}.

Import UseWebSocket.

Lemma on_events_cons d ds st :
  on_events (d :: ds) st = on_events ds (on_event d.1.1 d.1.2 d.2 st).1.
Proof. reflexivity. Qed.

Lemma handleError_frame error st :
  let st' := (handleError error st).1 in
  isConnected st' = isConnected st /\ connectionStatus st' = connectionStatus st /\
  results st' = results st /\ alerts st' = alerts st /\
  notifications st' = notifications st /\
  (truthy (progress st) = false -> truthy (progress st') = false).
Proof.
  unfold handleError. destruct (errorMsg error) as [e|msg]; cbn.
  - done.
  - repeat split; try done. by intros ->.
Qed.

Lemma on_event_results clock event args st :
  results (on_event clock event args st).1 =
  if String.eqb event "result" then results st ++ [default JUndefined (head args)]
  else results st.
Proof.
  destruct (String.eqb_spec event "result") as [->|Hne]; [done|].
  on_event_cases event; try done.
  apply handleError_frame.
Qed.

Lemma on_event_alerts clock event args st :
  alerts (on_event clock event args st).1 =
  if String.eqb event "alert"
  then JObj (obj_set "timestamp" (JStr clock) (spread (default JUndefined (head args))))
       :: alerts st
  else alerts st.
Proof.
  destruct (String.eqb_spec event "alert") as [->|Hne]; [done|].
  on_event_cases event; try done.
  apply handleError_frame.
Qed.

Lemma on_event_notifications clock event args st :
  notifications (on_event clock event args st).1 =
  if String.eqb event "notification"
  then JObj (obj_set "timestamp" (JStr clock) (spread (default JUndefined (head args))))
       :: notifications st
  else notifications st.
Proof.
  destruct (String.eqb_spec event "notification") as [->|Hne]; [done|].
  on_event_cases event; try done.
  apply handleError_frame.
Qed.

Lemma on_event_progress_falsy clock event args st :
  event <> "progress" -> truthy (progress st) = false ->
  truthy (progress (on_event clock event args st).1) = false.
Proof.
  intros Hne Hp. on_event_cases event; try done.
  - cbn. by rewrite Hp.
  - by apply handleError_frame.
Qed.

Lemma dispatches_of_cons event d ds :
  dispatches_of event (d :: ds) =
  if String.eqb d.1.2 event then d :: dispatches_of event ds else dispatches_of event ds.
Proof.
  unfold dispatches_of. rewrite filter_cons.
  destruct (String.eqb_spec d.1.2 event) as [He|He]; by case_decide.
Qed.

(** X22. The hook's result list grows by exactly the payloads of the [result]
    events, in the order of their dispatch; no other event touches it. *)
Theorem hook_results_in_arrival_order ds st :
  results (on_events ds st) = results st ++ (payload <$> dispatches_of "result" ds).
Proof.
  revert st. induction ds as [|d ds IH]; intros st.
  - cbn. by rewrite app_nil_r.
  - rewrite on_events_cons, IH, on_event_results, dispatches_of_cons.
    destruct (String.eqb d.1.2 "result"); [|done].
    by rewrite <- app_assoc.
Qed.

(** X23. Alerts and notifications are kept newest first: after a sequence of
    dispatches each list is the stamped payloads of its event in reverse order
    of dispatch, in front of what the list held; the stamp is the time read
    when the entry is made and overrides a [timestamp] the payload carries. *)
Theorem hook_alerts_newest_first ds st :
  alerts (on_events ds st) = reverse (stamped <$> dispatches_of "alert" ds) ++ alerts st /\
  notifications (on_events ds st) =
    reverse (stamped <$> dispatches_of "notification" ds) ++ notifications st /\
  (forall d, get_prop (stamped d) "timestamp" = inr (JStr d.1.1)).
Proof.
  split; [|split].
  - revert st. induction ds as [|d ds IH]; intros st; [done|].
    rewrite on_events_cons, IH, on_event_alerts, dispatches_of_cons.
    destruct (String.eqb d.1.2 "alert"); [|done].
    rewrite fmap_cons, reverse_cons, <- app_assoc. done.
  - revert st. induction ds as [|d ds IH]; intros st; [done|].
    rewrite on_events_cons, IH, on_event_notifications, dispatches_of_cons.
    destruct (String.eqb d.1.2 "notification"); [|done].
    rewrite fmap_cons, reverse_cons, <- app_assoc. done.
  - intros d. unfold stamped. cbn. by rewrite obj_get_set_eq.
Qed.

(** X24. Without a [progress] event there is no progress record: when the hook
    holds no progress (null, as initially) and none of the dispatched events
    is [progress], it still holds none afterwards, whatever [complete] and
    [error] events arrived. *)
Theorem hook_progress_needs_progress_event ds st :
  truthy (progress st) = false ->
  Forall (fun d => d.1.2 <> "progress") ds ->
  truthy (progress (on_events ds st)) = false.
Proof.
  intros Hp Hds. revert st Hp.
  induction Hds as [|d ds Hd _ IH]; intros st Hp; [done|].
  rewrite on_events_cons. apply IH. by apply on_event_progress_falsy.
Qed.

(** X25. A [complete] event on a progress record marks it completed at 100 and
    keeps every other field of the record; the rest of the hook's state is
    untouched. *)
Theorem hook_complete_keeps_other_fields clock args fields st :
  progress st = JObj fields ->
  let st' := (on_event clock "complete" args st).1 in
  get_prop (progress st') "status" = inr (JStr "completed") /\
  get_prop (progress st') "progress" = inr (JNum 100) /\
  (forall k, k <> "status" -> k <> "progress" ->
     get_prop (progress st') k = get_prop (progress st) k) /\
  isConnected st' = isConnected st /\ connectionStatus st' = connectionStatus st /\
  results st' = results st /\ alerts st' = alerts st /\
  notifications st' = notifications st.
Proof.
  intros Hp st'. subst st'. cbn. rewrite Hp. cbn.
  split; [|split; [|split; [|done]]].
  - rewrite obj_get_set_ne by done. by rewrite obj_get_set_eq.
  - by rewrite obj_get_set_eq.
  - intros k Hs Hg. by rewrite !obj_get_set_ne by done.
Qed.

End HookFacts.

Lemma hook_progress_needs_progress_event_witness :
  let ds := [("t1", "complete", [JObj [("job_id", JStr "j")]]);
             ("t2", "error", [JStr "boom"]);
             ("t3", "result", [JNum 1])] in
  truthy (UseWebSocket.progress UseWebSocket.initial) = false /\
  Forall (fun d : string * string * list JSValue => d.1.2 <> "progress") ds /\
  truthy (UseWebSocket.progress
            (@UseWebSocket.on_events sample_host ds UseWebSocket.initial)) = false.
Proof.
  cbv zeta. split; [reflexivity|]. split.
  - repeat (constructor; [discriminate|]). constructor.
  - apply (@hook_progress_needs_progress_event sample_host); [reflexivity|].
    repeat (constructor; [discriminate|]). constructor.
Defined.

Lemma hook_complete_keeps_other_fields_witness :
  let record := [("job_id", JStr "j"); ("progress", JNum 40)] in
  let st := UseWebSocket.handleProgress (JObj record) UseWebSocket.initial in
  let st' := (@UseWebSocket.on_event sample_host "t" "complete" [] st).1 in
  UseWebSocket.progress st = JObj record /\
  get_prop (UseWebSocket.progress st') "status" = inr (JStr "completed") /\
  get_prop (UseWebSocket.progress st') "progress" = inr (JNum 100) /\
  get_prop (UseWebSocket.progress st') "job_id" = inr (JStr "j").
Proof.
  cbv zeta. split; [reflexivity|].
  pose proof (@hook_complete_keeps_other_fields sample_host "t" []
    [("job_id", JStr "j"); ("progress", JNum 40)]
    (UseWebSocket.handleProgress (JObj [("job_id", JStr "j"); ("progress", JNum 40)])
       UseWebSocket.initial)
    eq_refl) as (H1 & H2 & H3 & _).
  split; [exact H1|]. split; [exact H2|].
  rewrite (H3 "job_id") by discriminate. reflexivity.
Defined.

Section EmitterFacts.

Context `{!Host} {Cb : Type} `{!EqDecision Cb} {Store : Type}.

Variable call :
  Cb -> list JSValue -> gmap string (list Cb) * Store ->
  gmap string (list Cb) * Store * option Exn.

Lemma error_lines_throw (event : string) (e : Exn) (outcomes : list (option Exn)) :
  error_lines event (Some e :: outcomes) = listener_error_line event :: error_lines event outcomes.
Proof. unfold error_lines. by rewrite filter_cons_True by (by eexists). Qed.

Lemma error_lines_return (event : string) (outcomes : list (option Exn)) :
  error_lines event (None :: outcomes) = error_lines event outcomes.
Proof.
  unfold error_lines. by rewrite filter_cons_False by (intros [? ?]; discriminate).
Qed.

Lemma forEach_invoke_all (event : string) (args : list JSValue) (cbs : list Cb) :
  forall st : SimpleEventEmitter.St Cb Store,
  let r := run_all call args cbs (SimpleEventEmitter.listeners st, SimpleEventEmitter.store st) in
  SimpleEventEmitter.forEach (SimpleEventEmitter.invoke call event args) cbs st =
    ({| SimpleEventEmitter.listeners := r.1.1;
        SimpleEventEmitter.store := r.1.2;
        SimpleEventEmitter.console := SimpleEventEmitter.console st ++ error_lines event r.2;
        SimpleEventEmitter.calls := SimpleEventEmitter.calls st ++ invocations args cbs r.2 |},
     None).
Proof.
  induction cbs as [|cb cbs IH]; intros st.
  - cbn. unfold error_lines, invocations. cbn. rewrite !app_nil_r. by destruct st.
  - cbn [SimpleEventEmitter.forEach run_all]. unfold SimpleEventEmitter.invoke at 1.
    destruct (call cb args (SimpleEventEmitter.listeners st, SimpleEventEmitter.store st))
      as [[ls sto] [e|]] eqn:Hc; cbn [fst snd]; rewrite IH; cbn [fst snd
        SimpleEventEmitter.listeners SimpleEventEmitter.store SimpleEventEmitter.console
        SimpleEventEmitter.calls].
    + rewrite error_lines_throw, <- !app_assoc. reflexivity.
    + rewrite error_lines_return, <- !app_assoc. reflexivity.
Qed.

Lemma run_all_length (args : list JSValue) (cbs : list Cb) :
  forall env, length (run_all call args cbs env).2 = length cbs.
Proof.
  induction cbs as [|cb cbs IH]; intros env; [reflexivity|].
  cbn. by rewrite IH.
Qed.

Lemma forEach_app {A S : Type} (f : A -> S -> S * option Exn) (l1 l2 : list A) (s : S) :
  SimpleEventEmitter.forEach f (l1 ++ l2) s =
    match SimpleEventEmitter.forEach f l1 s with
    | (s', None) => SimpleEventEmitter.forEach f l2 s'
    | (s', Some e) => (s', Some e)
    end.
Proof.
  revert s. induction l1 as [|x l1 IH]; intros s; [done|].
  cbn. destruct (f x s) as [s' [e|]]; [done|]. apply IH.
Qed.

Lemma forEach_apply_returning (args : list JSValue) (pre : list Cb) :
  forall em : EventEmitter.St Cb Store,
  let r := run_all call args pre (EventEmitter.listeners em, EventEmitter.store em) in
  Forall (fun o => o = None) r.2 ->
  SimpleEventEmitter.forEach (EventEmitter.apply_listener call args) pre em =
    ({| EventEmitter.listeners := r.1.1; EventEmitter.store := r.1.2;
        EventEmitter.calls := EventEmitter.calls em ++ invocations args pre r.2 |}, None).
Proof.
  induction pre as [|cb pre IH]; intros em.
  - cbn zeta. intros _. cbn. unfold invocations. cbn. rewrite app_nil_r. by destruct em.
  - cbn [SimpleEventEmitter.forEach run_all]. cbn zeta. cbn [snd].
    intros Hall. apply Forall_cons in Hall as [Ho Hall].
    unfold EventEmitter.apply_listener at 1.
    destruct (call cb args (EventEmitter.listeners em, EventEmitter.store em))
      as [[ls sto] o] eqn:Hc. cbn [fst snd] in *. rewrite Ho.
    rewrite IH by exact Hall.
    cbn [fst snd EventEmitter.listeners EventEmitter.store EventEmitter.calls].
    f_equal. f_equal. unfold invocations. cbn. by rewrite <- app_assoc.
Qed.

(** C10.  In [SimpleEventEmitter], and so in the enhanced service, [emit]
    runs every callback registered for the event, once, in registration order
    and with the event's arguments, whichever of them throw: a callback
    starts from what the one before it left, an exception is answered with
    one console error line of its own, and [emit] returns normally.  The
    [emit] that the robust and the fixed service inherit from the [events]
    package has no such guard: the listeners run in order until one throws,
    its exception leaves [emit], and the listeners after it are not run. *)
Theorem emit_isolates_subscribers (event : string) (args : list JSValue)
    (st : SimpleEventEmitter.St Cb Store) (cbs : list Cb)
    (em : EventEmitter.St Cb Store) (pre post : list Cb) (cb : Cb) (e : Exn) :
  SimpleEventEmitter.listeners st !! event = Some cbs ->
  EventEmitter.listeners em !! event = Some (pre ++ cb :: post) ->
  let all := run_all call args cbs (SimpleEventEmitter.listeners st, SimpleEventEmitter.store st) in
  let before := run_all call args pre (EventEmitter.listeners em, EventEmitter.store em) in
  let thrower := call cb args (before.1.1, before.1.2) in
  Forall (fun o => o = None) before.2 -> thrower.2 = Some e ->
  SimpleEventEmitter.emit call event args st =
    ({| SimpleEventEmitter.listeners := all.1.1;
        SimpleEventEmitter.store := all.1.2;
        SimpleEventEmitter.console := SimpleEventEmitter.console st ++ error_lines event all.2;
        SimpleEventEmitter.calls := SimpleEventEmitter.calls st ++ invocations args cbs all.2 |},
     None) /\
  length all.2 = length cbs /\
  EventEmitter.emit call event args em =
    ({| EventEmitter.listeners := thrower.1.1; EventEmitter.store := thrower.1.2;
        EventEmitter.calls :=
          EventEmitter.calls em ++ invocations args pre before.2 ++ [(cb, args, Some e)] |},
     Some e).
Proof.
  intros Hl Hm all before thrower Hpre Hthrow. split; [|split].
  - unfold SimpleEventEmitter.emit. rewrite Hl. apply forEach_invoke_all.
  - apply run_all_length.
  - unfold EventEmitter.emit. rewrite Hm, forEach_app.
    rewrite (forEach_apply_returning args pre em) by exact Hpre.
    cbn [SimpleEventEmitter.forEach]. unfold EventEmitter.apply_listener.
    cbn [EventEmitter.listeners EventEmitter.store EventEmitter.calls].
    fold before. fold thrower.
    destruct thrower as [[ls sto] o]. cbn in Hthrow. subst o.
    cbn. by rewrite <- app_assoc.
Qed.

End EmitterFacts.

(** ** The robust service with its listeners *)

Section ListenersFacts.

Context `{!Host} {Cb : Type} {Store : Type}.

Variable call :
  Cb -> list JSValue -> gmap string (list Cb) * Store ->
  gmap string (list Cb) * Store * option Exn.

Implicit Types (o : RobustListeners.Obj (Cb := Cb) (Store := Store)).

(** Whatever the listeners do, the service sees an [emit] as a dispatch. *)
Lemma Listeners_emit_service event args o :
  (RobustListeners.emit call event args o).1.1 = Robust.emit event args o.1 /\
  (RobustListeners.emit call event args o).1.2 = (EventEmitter.emit call event args o.2).1 /\
  (RobustListeners.emit call event args o).2 = (EventEmitter.emit call event args o.2).2.
Proof.
  unfold RobustListeners.emit. by destruct (EventEmitter.emit call event args o.2).
Qed.

(** An ['error'] event without listener is thrown back at the emitter's
    caller. *)
Lemma emit_error_unhandled (em : EventEmitter.St Cb Store) e :
  EventEmitter.listeners em !! "error" = None ->
  EventEmitter.emit call "error" [JError e] em = (em, Some e).
Proof. intros Hl. unfold EventEmitter.emit. by rewrite Hl. Qed.

Lemma Listeners_scheduleReconnect_service o :
  (RobustListeners.scheduleReconnect call o).1.1 = Robust.scheduleReconnect o.1.
Proof.
  unfold RobustListeners.scheduleReconnect, Robust.scheduleReconnect.
  destruct (Robust.maxReconnectAttempts o.1.1 <=? Robust.reconnectAttempts o.1.1)%Z.
  - apply Listeners_emit_service.
  - reflexivity.
Qed.

Lemma Listeners_scheduleReconnect_retry o :
  (Robust.reconnectAttempts o.1.1 < Robust.maxReconnectAttempts o.1.1)%Z ->
  RobustListeners.scheduleReconnect call o = ((Robust.scheduleReconnect o.1, o.2), None).
Proof.
  intros Hlt. unfold RobustListeners.scheduleReconnect, Robust.scheduleReconnect.
  destruct (Z.leb_spec (Robust.maxReconnectAttempts o.1.1) (Robust.reconnectAttempts o.1.1));
    [lia|].
  reflexivity.
Qed.

Lemma Listeners_scheduleReconnect_exhausted o :
  (Robust.maxReconnectAttempts o.1.1 <= Robust.reconnectAttempts o.1.1)%Z ->
  RobustListeners.scheduleReconnect call o =
    RobustListeners.emit call "maxReconnectAttemptsReached" []
      (RobustListeners.log LogError "❌ 최대 재연결 시도 횟수 초과" o).
Proof.
  intros Hle. unfold RobustListeners.scheduleReconnect.
  by destruct (Z.leb_spec (Robust.maxReconnectAttempts o.1.1)
                 (Robust.reconnectAttempts o.1.1)); [|lia].
Qed.

(** A [connect] that does not reach the [catch] block is the [connect] of
    [Robust] and leaves the listeners alone. *)
Lemma Listeners_connect_noop chans o :
  Robust.isConnecting o.1.1 = true \/ Robust.isConnected o.1 = true ->
  RobustListeners.connect call chans o = ((Robust.connect chans o.1, o.2), None).
Proof.
  intros Hg. unfold RobustListeners.connect, Robust.connect.
  destruct (Robust.isConnecting o.1.1); [done|].
  destruct Hg as [?| ->]; done.
Qed.

Lemma Listeners_connect_accepted chans o :
  WebSocket_rejects (target o.1.1 chans) = None ->
  RobustListeners.connect call chans o = ((Robust.connect chans o.1, o.2), None).
Proof.
  intros Hurl. unfold RobustListeners.connect, Robust.connect.
  destruct (Robust.isConnecting o.1.1); [done|].
  destruct (Robust.isConnected o.1); [done|].
  unfold target in Hurl. cbn. rewrite Hurl. reflexivity.
Qed.

Lemma Listeners_connect_rejected chans o e :
  Robust.isConnecting o.1.1 = false -> Robust.isConnected o.1 = false ->
  WebSocket_rejects (target o.1.1 chans) = Some e ->
  RobustListeners.connect call chans o =
    match RobustListeners.emit call "error" [JError e] (caught chans o.1, o.2) with
    | (o', Some thrown) => (o', Some thrown)
    | (o', None) => RobustListeners.scheduleReconnect call o'
    end.
Proof.
  intros Hc Ho Hurl. unfold RobustListeners.connect. rewrite Hc, Ho.
  unfold target in Hurl. cbn. rewrite Hurl. reflexivity.
Qed.

(** When nothing is thrown, [connect] has done to the service what the
    [connect] of [Robust] does. *)
Lemma Listeners_connect_returns chans o :
  (RobustListeners.connect call chans o).2 = None ->
  (RobustListeners.connect call chans o).1.1 = Robust.connect chans o.1.
Proof.
  destruct (Robust.isConnecting o.1.1) eqn:Hc;
    [by rewrite Listeners_connect_noop by auto|].
  destruct (Robust.isConnected o.1) eqn:Ho;
    [by rewrite Listeners_connect_noop by auto|].
  destruct (WebSocket_rejects (target o.1.1 chans)) as [e|] eqn:Hurl;
    [|by rewrite Listeners_connect_accepted].
  rewrite (Listeners_connect_rejected chans o e Hc Ho Hurl).
  rewrite (connect_rejected chans o.1 e Hc Ho Hurl).
  destruct (Listeners_emit_service "error" [JError e] (caught chans o.1, o.2)) as (E1 & _ & E3).
  destruct (RobustListeners.emit call "error" [JError e] (caught chans o.1, o.2))
    as [o' [thrown|]] eqn:E; [done|].
  intros _. rewrite Listeners_scheduleReconnect_service. cbn in E1. rewrite E1.
  reflexivity.
Qed.

(** Whatever [connect] does and throws, it writes no frame and leaves the
    heap, the sockets' number apart, as it is. *)
Lemma Listeners_connect_frames chans o :
  frames_written (RobustListeners.connect call chans o).1.1.2 = frames_written o.1.2 /\
  heap (RobustListeners.connect call chans o).1.1.2 = heap o.1.2.
Proof.
  destruct (Robust.isConnecting o.1.1) eqn:Hc;
    [rewrite Listeners_connect_noop by auto; apply connect_frames|].
  destruct (Robust.isConnected o.1) eqn:Ho;
    [rewrite Listeners_connect_noop by auto; apply connect_frames|].
  destruct (WebSocket_rejects (target o.1.1 chans)) as [e|] eqn:Hurl;
    [|rewrite Listeners_connect_accepted by done; apply connect_frames].
  rewrite (Listeners_connect_rejected chans o e Hc Ho Hurl).
  destruct (Listeners_emit_service "error" [JError e] (caught chans o.1, o.2)) as (E1 & _ & _).
  destruct (RobustListeners.emit call "error" [JError e] (caught chans o.1, o.2))
    as [o' [thrown|]] eqn:E; cbn [fst snd] in *.
  - rewrite E1. done.
  - rewrite Listeners_scheduleReconnect_service, E1. unfold frames_written.
    by destruct (scheduleReconnect_frame (Robust.emit "error" [JError e] (caught chans o.1)))
      as (-> & -> & _).
Qed.

End ListenersFacts.

Section ListenersClaims.

Context `{!Host} {Cb : Type} {Store : Type}.

Variable call :
  Cb -> list JSValue -> gmap string (list Cb) * Store ->
  gmap string (list Cb) * Store * option Exn.

Implicit Types (o : RobustListeners.Obj (Cb := Cb) (Store := Store)).

Lemma Listeners_send_closed data o :
  Robust.open_socket o.1 = None ->
  RobustListeners.send call data o =
    let o1 := RobustListeners.log LogError "❌ WebSocket 연결되지 않음" o in
    if Robust.shouldReconnect o.1.1 && negb (Robust.isConnecting o.1.1) then
      match RobustListeners.connect call (Robust.channels o.1.1)
              (RobustListeners.log LogInfo "🔄 메시지 전송 실패로 인한 재연결 시도" o1) with
      | (o', Some thrown) => (o', inl thrown)
      | (o', None) => (o', inr false)
      end
    else (o1, inr false).
Proof. intros Ho. unfold RobustListeners.send. rewrite Ho. reflexivity. Qed.

Lemma Listeners_send_true data o :
  (RobustListeners.send call data o).2 = inr true -> Robust.isConnected o.1 = true.
Proof.
  unfold Robust.isConnected. destruct (Robust.open_socket o.1) eqn:Ho.
  - intros _. apply bool_decide_eq_true_2. eauto.
  - rewrite (Listeners_send_closed data o Ho). cbn zeta.
    destruct (Robust.shouldReconnect o.1.1 && negb (Robust.isConnecting o.1.1)); [|done].
    by destruct (RobustListeners.connect call _ _) as [o' [thrown|]].
Qed.

(** When [send] returns, it has returned and done to the service what the
    [send] of [Robust] returns and does. *)
Lemma Listeners_send_returns data o b :
  (RobustListeners.send call data o).2 = inr b ->
  Robust.send data o.1 = (b, (RobustListeners.send call data o).1.1).
Proof.
  unfold RobustListeners.send, Robust.send.
  destruct (Robust.open_socket o.1) as [i|].
  - destruct (JSON_stringify _) as [error|frame].
    + destruct (Listeners_emit_service call "error" [JError error]
                  (RobustListeners.log LogError "❌ 메시지 전송 실패:" o)) as (E1 & _ & _).
      destruct (RobustListeners.emit call "error" [JError error] _) as [o1 [thrown|]];
        cbn [fst snd] in *; [done|].
      intros [= <-]. by rewrite E1.
    + cbn. by intros [= <-].
  - cbn [RobustListeners.log fst snd Robust.log Robust.env].
    destruct (Robust.shouldReconnect o.1.1 && negb (Robust.isConnecting o.1.1));
      [|cbn; by intros [= <-]].
    match goal with |- context [RobustListeners.connect call ?c ?x] =>
      pose proof (Listeners_connect_returns call c x) as Hret;
      destruct (RobustListeners.connect call c x) as [o1 [thrown|]] end;
      cbn [fst snd] in *; [done|].
    intros [= <-]. by rewrite Hret.
Qed.

(** C2.  [send] on a service whose socket is not open writes no frame to any
    socket, leaves the heap, hence the payload, as it is, and does not return
    [true].  The fixed service returns [false] and only writes a console
    line.  So does the robust service when reconnection is switched off or a
    connection attempt is under way; otherwise it goes on to call [connect]
    with the channels of the last connection: when the constructor accepts
    the address, [send] returns [false], a new connecting socket has taken
    the place of the socket handle, and the attempt is under way. *)
Theorem send_while_not_open (data : nat) (o : RobustListeners.Obj) (σf : Fixed.Sys) :
  Robust.open_socket o.1 = None -> Fixed.open_socket σf = None ->
  let retry := Robust.shouldReconnect o.1.1 && negb (Robust.isConnecting o.1.1) in
  let address := target o.1.1 (Robust.channels o.1.1) in
  let sent := RobustListeners.send call data o in
  (frames_written sent.1.1.2 = frames_written o.1.2 /\
   heap sent.1.1.2 = heap o.1.2 /\
   sent.2 <> inr true) /\
  (retry = false ->
     sent = (RobustListeners.log LogError "❌ WebSocket 연결되지 않음" o, inr false)) /\
  (retry = true -> WebSocket_rejects address = None ->
     sent.2 = inr false /\
     Robust.ws sent.1.1.1 = Some (length (sockets o.1.2)) /\
     sockets sent.1.1.2 = sockets o.1.2 ++ [set_handlers () (new_socket address)] /\
     Robust.isConnecting sent.1.1.1 = true /\
     timers sent.1.1.2 = timers o.1.2 /\
     emitted sent.1.1.2 = emitted o.1.2 /\
     sent.1.2 = o.2) /\
  Fixed.send data σf =
    (false, Fixed.log LogError "❌ WebSocket is not connected. Current state:" σf) /\
  (forall o' : RobustListeners.Obj,
     (RobustListeners.send call data o').2 = inr true -> Robust.isConnected o'.1 = true) /\
  (forall σ : Fixed.Sys, (Fixed.send data σ).1 = true -> Fixed.isConnected σ = true).
Proof.
  intros Hr Hf retry address sent.
  assert (Ho : Robust.isConnected o.1 = false).
  { unfold Robust.isConnected. rewrite Hr. apply bool_decide_eq_false_2. by intros [? ?]. }
  split; [|split; [|split; [|split; [by apply Fixed_send_closed|split]]]].
  - split; [|split].
    + subst sent. rewrite (Listeners_send_closed data o Hr). cbn zeta.
      destruct (Robust.shouldReconnect o.1.1 && negb (Robust.isConnecting o.1.1)); [|done].
      match goal with |- context [RobustListeners.connect call ?c ?x] =>
        pose proof (Listeners_connect_frames call c x) as [E _];
        by destruct (RobustListeners.connect call c x) as [o' [thrown|]] end.
    + subst sent. rewrite (Listeners_send_closed data o Hr). cbn zeta.
      destruct (Robust.shouldReconnect o.1.1 && negb (Robust.isConnecting o.1.1)); [|done].
      match goal with |- context [RobustListeners.connect call ?c ?x] =>
        pose proof (Listeners_connect_frames call c x) as [_ E];
        by destruct (RobustListeners.connect call c x) as [o' [thrown|]] end.
    + intros Ht. apply Listeners_send_true in Ht. congruence.
  - intros E. subst sent retry. rewrite (Listeners_send_closed data o Hr). cbn zeta.
    by rewrite E.
  - intros E Hurl. subst sent retry address.
    rewrite (Listeners_send_closed data o Hr). cbn zeta. rewrite E.
    apply andb_true_iff in E as [Hs Hc]. apply negb_true_iff in Hc.
    rewrite Listeners_connect_accepted by exact Hurl. cbn [fst snd].
    match goal with |- context [Robust.connect ?c ?x] =>
      rewrite (connect_creates c x Hc Ho Hurl) end.
    cbn. done.
  - intros o'. apply Listeners_send_true.
  - intros σ. apply Fixed_send_true_open.
Qed.

(** X2.  When the [WebSocket] constructor throws, [connect] catches the
    exception, clears [isConnecting] and dispatches it as an ['error'] event;
    no socket is created and [this.ws] keeps its value.  What follows depends
    on the listeners.  When [emit] throws, as it does with the exception
    itself when no listener is registered for ['error'], the exception leaves
    [connect] and no reconnect is scheduled.  When [emit] returns, a reconnect
    is scheduled after [currentInterval] if attempts remain, and otherwise
    ['maxReconnectAttemptsReached'] is dispatched and no timer is set. *)
Theorem robust_connect_catches_constructor (chans : list string)
    (o : RobustListeners.Obj) (e : Exn) :
  Robust.isConnecting o.1.1 = false -> Robust.isConnected o.1 = false ->
  WebSocket_rejects (target o.1.1 chans) = Some e ->
  let o' := (RobustListeners.connect call chans o).1 in
  let result := (RobustListeners.connect call chans o).2 in
  let dispatched := EventEmitter.emit call "error" [JError e] o.2 in
  (sockets o'.1.2 = sockets o.1.2 /\ Robust.ws o'.1.1 = Robust.ws o.1.1 /\
   Robust.isConnecting o'.1.1 = false /\ Robust.shouldReconnect o'.1.1 = true /\
   Robust.channels o'.1.1 = chans /\
   Robust.reconnectAttempts o'.1.1 = Robust.reconnectAttempts o.1.1) /\
  (EventEmitter.listeners o.2 !! "error" = None -> dispatched = (o.2, Some e)) /\
  (forall thrown, dispatched.2 = Some thrown ->
     result = Some thrown /\ o'.2 = dispatched.1 /\
     emitted o'.1.2 = emitted o.1.2 ++ [("error", [JError e])] /\
     timers o'.1.2 = timers o.1.2 /\
     Robust.reconnectTimer o'.1.1 = Robust.reconnectTimer o.1.1) /\
  (dispatched.2 = None ->
   (Robust.reconnectAttempts o.1.1 < Robust.maxReconnectAttempts o.1.1)%Z ->
     result = None /\ o'.2 = dispatched.1 /\
     emitted o'.1.2 = emitted o.1.2 ++ [("error", [JError e])] /\
     Robust.reconnectTimer o'.1.1 = Some (next_timer o.1.2) /\
     last (timers o'.1.2) = Some {| timer_id := next_timer o.1.2;
                                    delay := Robust.currentInterval o.1.1;
                                    callback := Robust.ReconnectCb |}) /\
  (dispatched.2 = None ->
   (Robust.maxReconnectAttempts o.1.1 <= Robust.reconnectAttempts o.1.1)%Z ->
     result = (EventEmitter.emit call "maxReconnectAttemptsReached" [] dispatched.1).2 /\
     emitted o'.1.2 = emitted o.1.2 ++ [("error", [JError e]);
                                        ("maxReconnectAttemptsReached", [])] /\
     timers o'.1.2 = timers o.1.2 /\
     Robust.reconnectTimer o'.1.1 = Robust.reconnectTimer o.1.1).
Proof.
  intros Hc Ho Hurl o' result dispatched. subst o' result.
  rewrite (Listeners_connect_rejected call chans o e Hc Ho Hurl).
  destruct (Listeners_emit_service call "error" [JError e] (caught chans o.1, o.2))
    as (E1 & E2 & E3). cbn [fst snd] in E1, E2, E3. fold dispatched in E2, E3.
  destruct (RobustListeners.emit call "error" [JError e] (caught chans o.1, o.2))
    as [o1 r] eqn:E. cbn [fst snd] in E1, E2, E3.
  assert (Hs : (RobustListeners.scheduleReconnect call o1).1.1
               = Robust.scheduleReconnect (Robust.emit "error" [JError e] (caught chans o.1)))
    by (by rewrite Listeners_scheduleReconnect_service, E1).
  split; [|split; [|split; [|split]]].
  - destruct r as [thrown|]; cbn [fst snd].
    + rewrite E1. done.
    + rewrite Hs.
      destruct (scheduleReconnect_frame (Robust.emit "error" [JError e] (caught chans o.1)))
        as (-> & _ & _ & -> & -> & ->).
      split_and!; try done.
      destruct (Z.leb_spec (Robust.maxReconnectAttempts o.1.1) (Robust.reconnectAttempts o.1.1)).
      * by rewrite scheduleReconnect_exhausted.
      * by rewrite scheduleReconnect_retry.
      * destruct (Z.leb_spec (Robust.maxReconnectAttempts o.1.1) (Robust.reconnectAttempts o.1.1)).
        -- by rewrite scheduleReconnect_exhausted.
        -- by rewrite scheduleReconnect_retry.
  - intros Hl. subst dispatched. by apply emit_error_unhandled.
  - intros thrown Ht. rewrite Ht in E3. subst r. cbn [fst snd]. rewrite E1, E2. done.
  - intros Hn Hlt. rewrite Hn in E3. subst r.
    rewrite Listeners_scheduleReconnect_retry by (by rewrite E1).
    cbn [fst snd]. rewrite E1, E2.
    rewrite scheduleReconnect_retry by done. cbn.
    split_and!; try done.
    + by destruct (Robust.reconnectTimer o.1.1).
    + rewrite last_snoc. do 2 f_equal. by destruct (Robust.reconnectTimer o.1.1).
  - intros Hn Hle. rewrite Hn in E3. subst r.
    rewrite Listeners_scheduleReconnect_exhausted by (by rewrite E1).
    destruct (Listeners_emit_service call "maxReconnectAttemptsReached" []
                (RobustListeners.log LogError "❌ 최대 재연결 시도 횟수 초과" o1))
      as (F1 & F2 & F3).
    rewrite F3, F1. cbn [fst snd RobustListeners.log]. rewrite E1, E2.
    split_and!; [done| |done|done]. cbn. by rewrite <- app_assoc.
Qed.

End ListenersClaims.

Section ListenersSend.

Context `{!Host} {Cb : Type} {Store : Type}.

Variable call :
  Cb -> list JSValue -> gmap string (list Cb) * Store ->
  gmap string (list Cb) * Store * option Exn.

(** X5.  When the socket is open and [JSON.stringify] throws on the message,
    [send] writes no frame and leaves the service, the sockets and the timers
    as they are.  The fixed service returns [false] and dispatches nothing;
    the enhanced service returns [false] and dispatches the exception as one
    ['error'] event.  The robust service dispatches it as an ['error'] event
    too and returns [false] when [emit] returns; what [emit] throws leaves
    [send], and with no listener registered for ['error'] that is the
    exception of [JSON.stringify] itself. *)
Theorem send_catches_serialisation_failure (data : nat)
    (o : RobustListeners.Obj (Cb := Cb) (Store := Store))
    (σf : Fixed.Sys) (σe : Enhanced.Sys) (er ef ee : Exn) :
  Robust.isConnected o.1 = true ->
  JSON_stringify (JObj (Robust_message data o.1)) = inl er ->
  Fixed.isConnected σf = true ->
  JSON_stringify (JObj (Fixed_message data σf)) = inl ef ->
  Enhanced.isConnected σe = true ->
  JSON_stringify (JObj (Enhanced_message data σe)) = inl ee ->
  let sent := RobustListeners.send call data o in
  let dispatched := EventEmitter.emit call "error" [JError er] o.2 in
  (sent.1.1.1 = o.1.1 /\ sockets sent.1.1.2 = sockets o.1.2 /\
   timers sent.1.1.2 = timers o.1.2 /\
   emitted sent.1.1.2 = emitted o.1.2 ++ [("error", [JError er])] /\
   sent.1.2 = dispatched.1 /\
   sent.2 = match dispatched.2 with Some thrown => inl thrown | None => inr false end /\
   (EventEmitter.listeners o.2 !! "error" = None -> sent.2 = inl er)) /\
  ((Fixed.send data σf).1 = false /\ (Fixed.send data σf).2.1 = σf.1 /\
   sockets (Fixed.send data σf).2.2 = sockets σf.2 /\
   timers (Fixed.send data σf).2.2 = timers σf.2 /\
   emitted (Fixed.send data σf).2.2 = emitted σf.2) /\
  ((Enhanced.send data σe).1 = false /\ (Enhanced.send data σe).2.1 = σe.1 /\
   sockets (Enhanced.send data σe).2.2 = sockets σe.2 /\
   timers (Enhanced.send data σe).2.2 = timers σe.2 /\
   emitted (Enhanced.send data σe).2.2 = emitted σe.2 ++ [("error", [JError ee])]).
Proof.
  intros [i Hi]%Robust_isConnected_open Hr [j Hj]%Fixed_isConnected_open Hf
         [k Hk]%Enhanced_isConnected_open He sent dispatched.
  unfold Robust_message in Hr. unfold Fixed_message in Hf. unfold Enhanced_message in He.
  split; [|split].
  - subst sent. unfold RobustListeners.send. rewrite Hi, Hr.
    destruct (Listeners_emit_service call "error" [JError er]
                (RobustListeners.log LogError "❌ 메시지 전송 실패:" o)) as (E1 & E2 & E3).
    cbn [fst snd RobustListeners.log] in E1, E2, E3. fold dispatched in E2, E3.
    destruct (RobustListeners.emit call "error" [JError er]
                (RobustListeners.log LogError "❌ 메시지 전송 실패:" o)) as [o1 r].
    cbn [fst snd] in E1, E2, E3. subst r.
    assert (Hres : (match dispatched.2 with
                    | Some thrown => (o1, inl thrown)
                    | None => (o1, inr false)
                    end : RobustListeners.Obj * (Exn + bool))
                   = (o1, match dispatched.2 with
                          | Some thrown => inl thrown | None => inr false end))
      by (by destruct dispatched.2).
    rewrite Hres. cbn [fst snd]. rewrite E1, E2.
    split_and!; try done.
    intros Hl. subst dispatched. by rewrite emit_error_unhandled.
  - unfold Fixed.send. rewrite Hj, Hf. done.
  - unfold Enhanced.send. rewrite Hk, He. done.
Qed.

End ListenersSend.

Section EnhancedConnects.

Context `{!Host}.

Lemma Enhanced_connect_prefix chans (σ : Enhanced.Sys) :
  sockets σ.2 `prefix_of` sockets (Enhanced.connect chans σ).2.
Proof.
  destruct (Enhanced.isConnecting σ.1) eqn:Hc.
  { by rewrite Enhanced_connect_noop by auto. }
  destruct (Enhanced.isConnected σ) eqn:Ho.
  { by rewrite Enhanced_connect_noop by auto. }
  destruct (WebSocket_rejects (Enhanced_target σ.1 chans)) as [e|] eqn:Hurl.
  - unfold Enhanced.connect. rewrite Hc, Ho. unfold Enhanced_target in Hurl. cbn. rewrite Hurl.
    match goal with |- context [Enhanced.handleReconnection ?x] => set (σ1 := x) end.
    assert (Hs : sockets (Enhanced.handleReconnection σ1).2 = sockets σ.2).
    { unfold Enhanced.handleReconnection. case_match; [done|].
      rewrite Enhanced_clearReconnectTimer_eq. cbn.
      unfold σ1. cbn. by destruct (Enhanced.reconnectTimer σ.1). }
    by rewrite Hs.
  - rewrite Enhanced_connect_creates by done. cbn. by apply prefix_app_r.
Qed.

(** X15.  Calls to [connect] that follow one another with nothing in
    between create at most one socket, from any state whatever; and [connect]
    touches no socket that exists: the sockets before the calls are the first
    sockets after them, unchanged, so that a socket [connect] replaces as
    [this.ws] is neither closed nor detached from its handlers. *)
Theorem enhanced_connects_create_at_most_one_socket (σ : Enhanced.Sys)
    (calls : list (list string)) :
  let σ' := Enhanced.run (Enhanced.CallConnect <$> calls) σ in
  (length (sockets σ'.2) <= S (length (sockets σ.2)))%nat /\
  sockets σ.2 `prefix_of` sockets σ'.2.
Proof.
  cbn zeta. split.
  - revert σ. induction calls as [|c calls IH]; intros σ0; [cbn; lia|].
    cbn [fmap list_fmap Enhanced.run foldl Enhanced.step].
    destruct (Enhanced_connect_sockets c σ0) as [Hle [Hc|Hsame]].
    + assert (Hnoop : forall l (σ1 : Enhanced.Sys), Enhanced.isConnecting σ1.1 = true ->
                sockets (foldl (fun σ e => Enhanced.step e σ) σ1 (Enhanced.CallConnect <$> l)).2
                = sockets σ1.2).
      { clear. induction l as [|c l IHl]; intros σ1 H1; [done|].
        cbn [fmap list_fmap foldl Enhanced.step].
        rewrite Enhanced_connect_noop by auto. rewrite IHl; done. }
      rewrite Hnoop by done. exact Hle.
    + specialize (IH (Enhanced.connect c σ0)). unfold Enhanced.run in IH.
      rewrite Hsame in IH. exact IH.
  - revert σ. induction calls as [|c calls IH]; intros σ0; [done|].
    cbn [fmap list_fmap Enhanced.run foldl Enhanced.step].
    etrans; [apply (Enhanced_connect_prefix c)|]. apply IH.
Qed.

End EnhancedConnects.

(** C3.  [connect] is not idempotent while the connection is connecting.
    After a late close event of an earlier socket the current socket is
    still connecting, as [getConnectionStatus] reports, but [isConnecting]
    has been cleared; a [connect] then creates one more socket and abandons
    the connecting one, which is neither closed nor detached.  Robust and
    fixed service alike. *)
Lemma connect_while_connecting_opens_another_socket :
  let σ := @Robust.run sample_host robust_late_close robust0 in
  let σ' := @Robust.connect sample_host ["analysis"; "alerts"] σ in
  let φ := @Fixed.run sample_host fixed_late_close fixed0 in
  let φ' := @Fixed.connect sample_host ["analysis"; "alerts"] φ in
  (Robust.getConnectionStatus σ = "connecting" /\ Robust.isConnecting σ.1 = false /\
   Robust.ws σ.1 = Some 1%nat /\ length (sockets σ.2) = 2%nat /\
   Robust.ws σ'.1 = Some 2%nat /\
   (readyState <$> sockets σ'.2) = [CLOSED; CONNECTING; CONNECTING] /\
   (closeCalls <$> sockets σ'.2) = [[(1000%Z, "Normal closure by client")]; []; []] /\
   (handlers <$> sockets σ'.2) = [Some (); Some (); Some ()]) /\
  (Fixed.getConnectionStatus φ = "connecting" /\ Fixed.isConnecting φ.1 = false /\
   Fixed.ws φ.1 = Some 1%nat /\ length (sockets φ.2) = 2%nat /\
   Fixed.ws φ'.1 = Some 2%nat /\
   (readyState <$> sockets φ'.2) = [CLOSED; CONNECTING; CONNECTING] /\
   (closeCalls <$> sockets φ'.2) = [[(1000%Z, "Normal closure")]; []; []]).
Proof. vm_compute. split_and!; reflexivity. Qed.

(** C4.  [disconnect] does not stop every reconnect that is under way.  In
    the robust service the timer of [forceReconnect] is stored nowhere:
    [disconnect] leaves it pending, and when it fires after the
    [disconnect] it creates a socket and switches reconnection on again.  In
    the fixed service a socket that was abandoned while connecting can still
    open after [disconnect]: its open event resets [retryCount], its abnormal
    close sets a reconnect timer, and the timer creates a socket. *)
Lemma disconnect_leaves_reconnects_under_way :
  let σ := @Robust.run sample_host robust_forced_then_disconnected robust0 in
  let σ' := @Robust.step sample_host (Robust.EvTimer 2) σ in
  let φ := @Fixed.run sample_host fixed_disconnected_with_stale_socket fixed0 in
  let φ' := @Fixed.run sample_host fixed_stale_socket_reconnects φ in
  (Robust.shouldReconnect σ.1 = false /\ Robust.ws σ.1 = None /\
   Robust.reconnectTimer σ.1 = None /\ length (sockets σ.2) = 1%nat /\
   timers σ.2 = [{| timer_id := 2; delay := 1000; callback := Robust.ForceReconnectCb |}] /\
   length (sockets σ'.2) = 2%nat /\ Robust.ws σ'.1 = Some 1%nat /\
   Robust.shouldReconnect σ'.1 = true /\ Robust.isConnecting σ'.1 = true) /\
  (Fixed.retryCount φ.1 = Fixed.maxRetryAttempts φ.1 /\ Fixed.ws φ.1 = None /\
   timers φ.2 = [] /\
   (readyState <$> sockets φ.2) = [CLOSED; CONNECTING; CLOSING] /\
   Fixed.retryCount φ'.1 = 0%Z /\ Fixed.ws φ'.1 = Some 3%nat /\
   (readyState <$> sockets φ'.2) = [CLOSED; CLOSED; CLOSING; CONNECTING]).
Proof. vm_compute. split_and!; reflexivity. Qed.

(** The emitter of the [events] package stops at the first listener that
    throws: of three listeners for ['progress'], the second of which throws,
    the third is not run, and the exception leaves the [emit] of the robust
    service. *)
Lemma events_emit_stops_at_first_exception :
  let r := @RobustListeners.emit sample_host nat nat sample_call "progress" [JNum 5]
             (robust0, sample_listeners) in
  EventEmitter.listeners sample_listeners !! "progress" = Some [0; 1; 2]%nat /\
  r.2 = Some type_error /\
  EventEmitter.calls r.1.2 = [(0%nat, [JNum 5], None); (1%nat, [JNum 5], Some type_error)].
Proof. vm_compute. split_and!; reflexivity. Qed.

Lemma emit_isolates_subscribers_witness :
  let r := SimpleEventEmitter.emit sample_call "progress" [JNum 5] sample_emitter in
  let q := @EventEmitter.emit sample_host nat nat sample_call "progress" [JNum 5]
             sample_listeners in
  r.2 = None /\
  SimpleEventEmitter.calls r.1 =
    [(0%nat, [JNum 5], None); (1%nat, [JNum 5], Some type_error); (2%nat, [JNum 5], None)] /\
  SimpleEventEmitter.console r.1 = [listener_error_line "progress"] /\
  SimpleEventEmitter.store r.1 = 2%nat /\
  q.2 = Some type_error /\
  EventEmitter.calls q.1 = [(0%nat, [JNum 5], None); (1%nat, [JNum 5], Some type_error)] /\
  EventEmitter.store q.1 = 1%nat.
Proof.
  cbv zeta.
  destruct (@emit_isolates_subscribers sample_host nat nat sample_call "progress"
              [JNum 5] sample_emitter [0; 1; 2]%nat sample_listeners [0%nat] [2%nat] 1%nat
              type_error) as (H1 & _ & H2).
  - vm_compute. reflexivity.
  - vm_compute. reflexivity.
  - repeat constructor.
  - reflexivity.
  - rewrite H1, H2. vm_compute. split_and!; reflexivity.
Defined.

Lemma send_while_not_open_witness :
  let sent := @RobustListeners.send sample_host nat nat sample_call 0
                (robust_idle, no_listeners) in
  sent.2 = inr false /\
  frames_written sent.1.1.2 = frames_written robust_idle.2 /\
  Robust.ws sent.1.1.1 = Some 0%nat /\
  @Fixed.send sample_host 0 fixed0 =
    (false, Fixed.log LogError "❌ WebSocket is not connected. Current state:" fixed0).
Proof.
  cbv zeta.
  destruct (@send_while_not_open sample_host nat nat sample_call 0%nat
              (robust_idle, no_listeners) fixed0 eq_refl eq_refl)
    as ((H1 & _) & _ & H3 & H4 & _).
  destruct H3 as (H5 & H6 & _); [reflexivity|reflexivity|].
  split_and!; [exact H5|exact H1|exact H6|exact H4].
Defined.

Lemma robust_connect_catches_constructor_witness :
  let r := @RobustListeners.connect rejecting_host nat nat sample_call ["analysis"]
             (robust0, no_listeners) in
  r.2 = Some syntax_error /\
  sockets r.1.1.2 = [] /\
  emitted r.1.1.2 = [("error", [JError syntax_error])] /\
  timers r.1.1.2 = [].
Proof.
  cbv zeta.
  destruct (@robust_connect_catches_constructor rejecting_host nat nat sample_call
              ["analysis"] (robust0, no_listeners) syntax_error eq_refl eq_refl eq_refl)
    as ((Hs & _) & Hu & Ht & _).
  destruct (Ht syntax_error) as (H1 & _ & H2 & H3 & _).
  { rewrite Hu by reflexivity. reflexivity. }
  split_and!; [exact H1|exact Hs|exact H2|exact H3].
Defined.

Lemma send_catches_serialisation_failure_witness :
  let sent := @RobustListeners.send unserialisable_host nat nat sample_call 1
                (robust_open ping_payload, no_listeners) in
  sent.2 = inl cyclic_error /\
  emitted sent.1.1.2 = emitted (robust_open ping_payload).2 ++ [("error", [JError cyclic_error])] /\
  (@Fixed.send unserialisable_host 1 (fixed_open ping_payload)).1 = false /\
  emitted (@Fixed.send unserialisable_host 1 (fixed_open ping_payload)).2.2
    = emitted (fixed_open ping_payload).2.
Proof.
  cbv zeta.
  destruct (@send_catches_serialisation_failure unserialisable_host nat nat sample_call
              1%nat (robust_open ping_payload, no_listeners) (fixed_open ping_payload)
              (enhanced_open ping_payload) cyclic_error cyclic_error cyclic_error)
    as ((_ & _ & _ & H2 & _ & _ & H1) & (H3 & _ & _ & _ & H4) & _);
    try (vm_compute; reflexivity).
  split_and!; [apply H1; reflexivity|exact H2|exact H3|exact H4].
Defined.

Section DisconnectFinal.

Context `{!Host}.

(** X26.  When no timer of [forceReconnect] is pending, [disconnect] of the
    robust service is final.  In every state a fresh service can reach it
    switches reconnection off, clears both timer handles so that no timer of
    [scheduleReconnect] and no heartbeat stays pending, and asks the current
    socket to close with code 1000; a second [disconnect] only repeats the
    console line; and whatever the sockets, the timers and the application do
    afterwards, short of calling [connect], [forceReconnect] or
    [testConnection], no socket is created. *)
Theorem robust_disconnect_is_final (base cid : string) (w0 : World () Robust.TimerCb)
    (es later : list Robust.Event) :
  timers w0 = [] -> Forall Robust_host_event later ->
  let σ := Robust.run es (Robust.new_service base cid, w0) in
  (forall t, t ∈ timers σ.2 -> callback t <> Robust.ForceReconnectCb) ->
  Robust.shouldReconnect (Robust.disconnect σ).1 = false /\
  Robust.reconnectTimer (Robust.disconnect σ).1 = None /\
  Robust.pingTimer (Robust.disconnect σ).1 = None /\
  Robust.ws (Robust.disconnect σ).1 = None /\
  (forall t, t ∈ timers (Robust.disconnect σ).2 -> callback t = Robust.TestConnectionCb) /\
  (forall i k, Robust.ws σ.1 = Some i -> sockets σ.2 !! i = Some k ->
     exists k', sockets (Robust.disconnect σ).2 !! i = Some k' /\
       closeCalls k' = closeCalls k ++ [(1000%Z, "Normal closure by client")] /\
       sent k' = sent k) /\
  Robust.disconnect (Robust.disconnect σ)
    = Robust.log LogInfo "🔌 WebSocket 연결 해제" (Robust.disconnect σ) /\
  length (sockets (Robust.run later (Robust.disconnect σ)).2) = length (sockets σ.2).
Proof.
  intros Hw Hlater σ Hforce.
  assert (HI : Inv σ) by (apply Inv_run, Inv_initial, Hw).
  destruct (disconnect_state σ) as (R1 & R2 & R3 & R4 & _).
  destruct (disconnect_timers σ) as (Rsub & _ & Rlen & _).
  split_and!; try done.
  - intros t Ht. destruct (disconnect_cancels σ t HI Ht) as [Hc|Hc]; [|done].
    exfalso. apply (Hforce t); [by eapply elem_of_sublist|done].
  - apply disconnect_close_request.
  - apply disconnect_idempotent.
  - assert (HS : Robust_stopped (length (sockets σ.2)) (Robust.disconnect σ)).
    { split_and!; [done..|]. intros t Ht. apply Hforce. by eapply elem_of_sublist. }
    apply (stopped_run _ later) in HS; [|done]. apply HS.
Qed.

Lemma Fixed_disconnect_none_connecting (φ : Fixed.Sys) :
  (forall i k, sockets φ.2 !! i = Some k -> readyState k = CONNECTING ->
     Fixed.ws φ.1 = Some i) ->
  none_connecting (Fixed.disconnect φ).2.
Proof.
  intros Hone. rewrite Fixed_disconnect_eq. cbn [snd].
  set (w2 := from_option _ _ (Fixed.reconnectTimer φ.1)).
  assert (Hs : sockets w2 = sockets φ.2).
  { unfold w2. by destruct (Fixed.reconnectTimer φ.1). }
  unfold none_connecting. apply Forall_lookup. intros j k' Hj.
  destruct (Fixed.ws φ.1) as [i|] eqn:Hws; cbn [from_option] in Hj.
  - unfold socket_close in Hj. destruct (decide (i = j)) as [->|Hne].
    + destruct (sockets w2 !! j) as [k|] eqn:Hk.
      * rewrite (lookup_update_socket_eq _ _ _ k Hk) in Hj.
        injection Hj as <-. cbn. by destruct (readyState k).
      * cbn in Hj. rewrite Hk in Hj. congruence.
    + rewrite lookup_update_socket_ne in Hj by done. rewrite Hs in Hj.
      intros Hr. specialize (Hone j k' Hj Hr). congruence.
  - cbn in Hj. rewrite Hs in Hj. intros Hr. specialize (Hone j k' Hj Hr). congruence.
Qed.

(** X27.  When no socket but the current one is still connecting,
    [disconnect] of the fixed service is final.  In every state a fresh
    service can reach it uses up the retry budget, clears the timer handle so
    that no timer of [scheduleReconnect] stays pending, and asks the current
    socket to close with code 1000; a second [disconnect] only repeats the
    console line; and whatever the sockets, the timers and the application do
    afterwards, short of calling [connect] or [resetRetryCount], no socket is
    created. *)
Theorem fixed_disconnect_is_final (base cid : string)
    (w0 : World (list string) Fixed.TimerCb) (es later : list Fixed.Event) :
  timers w0 = [] -> Forall Fixed_host_event later ->
  let φ := Fixed.run es (Fixed.new_service base cid, w0) in
  (forall i k, sockets φ.2 !! i = Some k -> readyState k = CONNECTING ->
     Fixed.ws φ.1 = Some i) ->
  Fixed.retryCount (Fixed.disconnect φ).1 = Fixed.maxRetryAttempts φ.1 /\
  Fixed.maxRetryAttempts (Fixed.disconnect φ).1 = Fixed.maxRetryAttempts φ.1 /\
  Fixed.reconnectTimer (Fixed.disconnect φ).1 = None /\
  Fixed.ws (Fixed.disconnect φ).1 = None /\
  (forall t, t ∈ timers (Fixed.disconnect φ).2 -> Fixed.is_reconnect (callback t) = false) /\
  (forall i k, Fixed.ws φ.1 = Some i -> sockets φ.2 !! i = Some k ->
     exists k', sockets (Fixed.disconnect φ).2 !! i = Some k' /\
       closeCalls k' = closeCalls k ++ [(1000%Z, "Normal closure")] /\
       sent k' = sent k) /\
  Fixed.disconnect (Fixed.disconnect φ)
    = Fixed.log LogInfo "🔌 Disconnecting WebSocket" (Fixed.disconnect φ) /\
  length (sockets (Fixed.run later (Fixed.disconnect φ)).2) = length (sockets φ.2).
Proof.
  intros Hw Hlater φ Hone.
  assert (HF : FInv φ) by (apply FInv_run, FInv_initial, Hw).
  destruct (Fixed_disconnect_state φ) as (F1 & F2 & F3 & F4 & _).
  destruct (Fixed_disconnect_timers φ) as (_ & _ & Flen & _).
  split_and!; try done.
  - intros t. by apply Fixed_disconnect_cancels.
  - apply Fixed_disconnect_close_request.
  - apply Fixed_disconnect_idempotent.
  - assert (HS : Fixed_stopped (length (sockets φ.2)) (Fixed.disconnect φ)).
    { split_and!; [rewrite F1, F2; lia|done|by apply Fixed_disconnect_none_connecting]. }
    apply (Fixed_stopped_run _ later) in HS; [|done]. apply HS.
Qed.

End DisconnectFinal.

Lemma robust_disconnect_is_final_witness :
  let es := [Robust.CallConnect ["analysis"; "alerts"]; Robust.EvOpen 0;
             Robust.EvClose 0 1006 EmptyString false] in
  let later := [Robust.EvTimer 2; Robust.EvError 0 JNull; Robust.CallSend 0;
                Robust.EvOpen 0] in
  let σ := @Robust.run sample_host es robust0 in
  Robust.shouldReconnect (Robust.disconnect σ).1 = false /\
  timers (Robust.disconnect σ).2 = [] /\
  length (sockets (@Robust.run sample_host later (Robust.disconnect σ)).2)
    = length (sockets σ.2).
Proof.
  intros es later σ.
  destruct (@robust_disconnect_is_final sample_host "ws://localhost:8002/ws" "airiss-client"
              fresh_world es later) as (R1 & _ & _ & _ & _ & _ & _ & R8).
  - reflexivity.
  - repeat (constructor; [exact I|]). constructor.
  - vm_compute. intros t Ht. apply list_elem_of_singleton in Ht. subst t. discriminate.
  - split_and!; [exact R1|vm_compute; reflexivity|exact R8].
Defined.

Lemma fixed_disconnect_is_final_witness :
  let es := [Fixed.CallConnect ["analysis"; "alerts"]] in
  let later := [Fixed.EvOpen 0; Fixed.EvClose 0 1006 EmptyString false; Fixed.EvTimer 1;
                Fixed.CallSend 0] in
  let φ := @Fixed.run sample_host es fixed0 in
  (readyState <$> sockets φ.2) = [CONNECTING] /\ Fixed.ws φ.1 = Some 0%nat /\
  Fixed.retryCount (Fixed.disconnect φ).1 = Fixed.maxRetryAttempts φ.1 /\
  length (sockets (@Fixed.run sample_host later (Fixed.disconnect φ)).2)
    = length (sockets φ.2).
Proof.
  intros es later φ.
  destruct (@fixed_disconnect_is_final sample_host "ws://localhost:8002/ws" "react-client"
              fresh_world es later) as (F1 & _ & _ & _ & _ & _ & _ & F8).
  - reflexivity.
  - repeat (constructor; [exact I|]). constructor.
  - intros i k Hk _. destruct i as [|i]; [reflexivity|discriminate Hk].
  - split_and!; [reflexivity|reflexivity|exact F1|exact F8].
Defined.
